(** * readmixcastep: readers for CASTEP [.cell] decks and [.castep] logs

    A shallow embedding of [readmixcastep.py].  Python values are kept as
    the code has them: line indices, iteration indices and counts are
    integers ([Z]), floats are IEEE binary64 ([PrimFloat.float]), reports
    are lists of text lines, and every call that can raise is a
    computation in the [result] monad carrying the Python exception
    class. *)

From Stdlib Require Import ZArith String Ascii List Bool Lia.
From Stdlib Require Import PrimFloat FloatOps SpecFloat.
From Stdlib Require OrderedTypeEx.
From stdpp Require Import gmap strings list.

Open Scope string_scope.
Open Scope Z_scope.
Set Warnings "-inexact-float".

(** ** Python exceptions and the computations that raise them *)

Inductive exn : Set :=
| IndexError
| KeyError
| ValueError
| UnboundLocalError
| NotImplementedError
| OverflowError
| TypeError.

#[global] Instance exn_eq_dec : EqDecision exn.
Proof. solve_decision. Defined.

Inductive result (A : Type) : Type :=
| Ok (a : A)
| Raise (e : exn).
Arguments Ok {A} a.
Arguments Raise {A} e.

#[global] Instance result_ret : MRet result := fun A a => Ok a.
#[global] Instance result_bind : MBind result :=
  fun A B f m => match m with Ok a => f a | Raise e => Raise e end.

(** [try: body except (caught): handler] *)
Definition try_except {A} (body : result A) (caught : list exn)
    (handler : result A) : result A :=
  match body with
  | Ok a => Ok a
  | Raise e => if bool_decide (e ∈ caught) then handler else Raise e
  end.

(** A comprehension or [for] loop whose body may raise: the elements are
    visited left to right and the first exception aborts the loop. *)
Fixpoint for_each {A B} (f : A → result B) (l : list A) : result (list B) :=
  match l with
  | [] => Ok []
  | x :: l' => y ← f x; ys ← for_each f l'; Ok (y :: ys)
  end.

(** A [for] loop that updates a variable [acc] and may raise. *)
Fixpoint for_fold {A S} (f : S → A → result S) (acc : S) (l : list A)
    : result S :=
  match l with
  | [] => Ok acc
  | x :: l' => acc' ← f acc x; for_fold f acc' l'
  end.

Definition returns {A} (m : result A) : Prop := ∃ a, m = Ok a.

(** ** Python built-ins used by the readers *)

Module Py.

(** [range(n)] for an integer [n]: empty when [n <= 0]. *)
Definition range (n : Z) : list Z := Z.of_nat <$> seq 0 (Z.to_nat n).

(** [len(l)] *)
Definition len {A} (l : list A) : Z := Z.of_nat (length l).

(** [l[i]]: negative indices count from the end, anything else out of
    range raises [IndexError]. *)
Definition index {A} (l : list A) (i : Z) : result A :=
  let j := if i <? 0 then i + len l else i in
  if j <? 0 then Raise IndexError
  else match l !! Z.to_nat j with
       | Some x => Ok x
       | None => Raise IndexError
       end.

(** One bound of a slice, clamped into [0 .. len] as Python does. *)
Definition clamp (n : Z) (i : Z) : Z :=
  if i <? 0 then Z.max (i + n) 0 else Z.min i n.

(** [l[lo:hi]]; [None] stands for an omitted bound.  Never raises. *)
Definition slice {A} (l : list A) (lo hi : option Z) : list A :=
  let n := len l in
  let a := from_option (clamp n) 0 lo in
  let b := from_option (clamp n) n hi in
  take (Z.to_nat (b - a)) (drop (Z.to_nat a) l).

(** [[x] * n] *)
Definition replicate {A} (x : A) (n : Z) : list A :=
  list.replicate (Z.to_nat n) x.

(** Whitespace as [str.split()] and [str.isspace()] see it on ASCII text:
    tab, line feed, vertical tab, form feed, carriage return, the four
    separators 0x1c-0x1f and the space. *)
Definition is_space (c : ascii) : bool :=
  let n := nat_of_ascii c in
  ((9 <=? n) && (n <=? 13) || (28 <=? n) && (n <=? 32))%nat.

Definition flush (tok : string) : list string :=
  if String.eqb tok "" then [] else [tok].

(** [tok] is the token being read, in order. *)
Fixpoint split_go (tok : string) (s : string) : list string :=
  match s with
  | EmptyString => flush tok
  | String c s' =>
      if is_space c then flush tok ++ split_go "" s'
      else split_go (tok +:+ String c "") s'
  end.

(** [s.split()] *)
Definition split (s : string) : list string := split_go "" s.

(** [sub in s] on strings *)
Fixpoint contains (sub s : string) : bool :=
  String.prefix sub s ||
  match s with
  | EmptyString => false
  | String _ s' => contains sub s'
  end.

(** [s.replace(old, '')] for a non-empty [old]: occurrences are removed
    left to right without overlap; [skip] counts the characters of the
    occurrence still to drop. *)
Fixpoint remove_go (old : string) (skip : nat) (s : string) : string :=
  match s with
  | EmptyString => EmptyString
  | String c s' =>
      match skip with
      | S k => remove_go old k s'
      | O => if String.prefix old s
             then remove_go old (String.length old - 1) s'
             else String c (remove_go old 0 s')
      end
  end.

Definition remove (old s : string) : string := remove_go old 0 s.

Definition digit_val (c : ascii) : option Z :=
  let n := nat_of_ascii c in
  if ((48 <=? n) && (n <=? 57))%nat then Some (Z.of_nat n - 48) else None.

(** Digits of an integer literal after the sign: decimal digits, with
    single underscores allowed between two digits.  [acc] is the value
    read so far and [prev] tells whether the previous character was a
    digit. *)
Fixpoint int_digits (acc : Z) (prev : bool) (s : string) : option Z :=
  match s with
  | EmptyString => if prev then Some acc else None
  | String c s' =>
      match digit_val c with
      | Some d => int_digits (10 * acc + d) true s'
      | None =>
          if Ascii.eqb c "_" && prev
          then match s' with
               | EmptyString => None
               | String c' _ =>
                   match digit_val c' with
                   | Some _ => int_digits acc false s'
                   | None => None
                   end
               end
          else None
      end
  end.

(** [int(s)] on a token (no surrounding whitespace): an optional sign and
    decimal digits; anything else raises [ValueError]. *)
Definition int (s : string) : result Z :=
  let '(neg, body) :=
    match s with
    | String "-" s' => (true, s')
    | String "+" s' => (false, s')
    | _ => (false, s)
    end in
  match int_digits 0 false body with
  | Some n => Ok (if neg then - n else n)
  | None => Raise ValueError
  end.

(** Conversion of an [int] operand to [float] in mixed arithmetic:
    rounded to nearest even, [OverflowError] past the largest double. *)
Definition float_of_int (z : Z) : result float :=
  match binary_normalize prec emax z 0 false with
  | S754_infinity _ => Raise OverflowError
  | sf => Ok (SF2Prim sf)
  end.

(** [s.split(sep)] with a one-character separator: every occurrence
    splits, empty pieces are kept. *)
Fixpoint split_on_go (sep : ascii) (tok : string) (s : string)
    : list string :=
  match s with
  | EmptyString => [tok]
  | String c s' =>
      if Ascii.eqb c sep then tok :: split_on_go sep "" s'
      else split_on_go sep (tok +:+ String c "") s'
  end.

Definition split_on (sep : ascii) (s : string) : list string :=
  split_on_go sep "" s.

(** [a, b = tuple(l)]: anything but two items raises [ValueError]. *)
Definition unpack2 {A} (l : list A) : result (A * A) :=
  match l with
  | [a; b] => Ok (a, b)
  | _ => Raise ValueError
  end.

(** [range(a, b)] *)
Definition range2 (a b : Z) : list Z := seqZ a (b - a).

(** [sorted(l)[0]] on strings: the least in code-point order,
    [IndexError] on an empty list. *)
Definition sorted_first (l : list string) : result string :=
  match l with
  | [] => Raise IndexError
  | x :: l' => Ok (fold_left (fun m y => if String.ltb y m then y else m) l' x)
  end.

(** [max(l)] on floats: the first item is kept until a later one is
    greater; [ValueError] on an empty sequence. *)
Definition max (l : list float) : result float :=
  match l with
  | [] => Raise ValueError
  | x :: l' => Ok (fold_left (fun m y => if (m <? y)%float then y else m) l' x)
  end.

End Py.

(** What the readers take from the numeric libraries: [float(s)] on a
    token ([None] is [ValueError]), [numpy.linalg.norm] on a vector and
    the [{:.6f}] rendering of a float. *)
Class Numerics := {
  py_float : string → option float;
  linalg_norm : list float → float;
  format_6f : float → string;
}.

Definition float_ `{Numerics} (s : string) : result float :=
  match py_float s with
  | Some x => Ok x
  | None => Raise ValueError
  end.

(** ** The line locator, module [strindices] *)

Module stri.

Definition matches (markers : list string) (line : string) : bool :=
  existsb (fun m => Py.contains m line) markers.

(** Indices, counted from [i], of the lines of [lines] that fall in
    [nmin, nmax) and contain one of [markers]. *)
Fixpoint scan (markers : list string) (nmin nmax : Z) (i : Z)
    (lines : list string) : list Z :=
  match lines with
  | [] => []
  | line :: rest =>
      (if (nmin <=? i) && (i <? nmax) && matches markers line then [i] else [])
      ++ scan markers nmin nmax (i + 1) rest
  end.

(** Modelled from the spec: [strindices.strindices], the locator's [all]
    mode, whose module is not among the sources.  Spec 4.1: every line
    index in the optional window [nmin, nmax) whose line contains one of
    the markers as a substring, in ascending order, empty when nothing
    matches; the window defaults to the whole sequence. *)
Definition strindices (lines : list string) (markers : list string)
    (nmin : Z) (nmax : option Z) : list Z :=
  scan markers nmin (default (Py.len lines) nmax) 0 lines.

(** Modelled from the spec: [strindices.strindex], the locator's
    single-index mode, whose module is not among the sources.  Spec 4.1:
    the earliest matching line in the window, or a distinguishable
    not-found outcome, which the callers receive as [UnboundLocalError]
    (spec 9).  The caller's [first] keyword is kept; the spec describes
    one single-index mode, so it does not change the line returned. *)
Definition strindex (lines : list string) (markers : list string)
    (first : bool) (nmin : Z) (nmax : option Z) : result Z :=
  match strindices lines markers nmin nmax with
  | i :: _ => Ok i
  | [] => Raise UnboundLocalError
  end.

End stri.

(** ** Module-level helpers *)

Definition recognised_tasks : list string := ["single"; "geometry"].

(** [pzero]: make sure zeros are displayed as positive. *)
Definition pzero (x : float) : float :=
  if (x =? 0)%float then 0%float else x.

(** [posstring]: unambiguously flatten a position array to a string. *)
Definition posstring `{Numerics} (posn : list float) : string :=
  String.concat " " ((fun x => format_6f (pzero x)) <$> posn).

(** The offset loop at the end of both [get_kpoints]: [0.0] for an even
    grid component, [1.0/(2*k)] for an odd one. *)
Definition mp_offset (kgrid : list Z) : result (list float) :=
  for_each (fun k =>
    if k mod 2 =? 0 then Ok 0%float
    else d ← Py.float_of_int (2 * k); Ok (1 / d)%float) kgrid.

(** [row[:] = vals] on a row of a [(n, 3)] array: three values fill the
    row, a single value is broadcast, any other length raises
    [ValueError]. *)
Definition set_row3 (vals : list float) : result (list float) :=
  match vals with
  | [a; b; c] => Ok [a; b; c]
  | [a] => Ok [a; a; a]
  | _ => Raise ValueError
  end.

(** [np.zeros((n, 3))]: a negative dimension raises [ValueError]. *)
Definition np_zeros (n : Z) : result unit :=
  if n <? 0 then Raise ValueError else Ok ().

(** [np.array(a) - b] on two vectors of the same length. *)
Definition vec_sub (a b : list float) : list float :=
  zip_with PrimFloat.sub a b.

(** [numpy.linalg.norm(_, axis=1)] on one row of a matrix. *)
Class RowNorm := { norm_axis1 : list float → float }.

(** The six assignments that both [get_ext_press] make from the three
    lines under the pressure anchor, in the order they are made. *)
Definition voigt_press `{Numerics} (presslines : list string)
    : result (list float) :=
  let entry (r c : Z) : result float :=
    line ← Py.index presslines r;
    tok ← Py.index (Py.split line) c;
    float_ tok in
  p0 ← entry 0 0;
  p1 ← entry 1 0;
  p2 ← entry 2 0;
  p3 ← entry 1 1;
  p4 ← entry 0 2;
  p5 ← entry 0 1;
  Ok [p0; p1; p2; p3; p4; p5].

(** ** [class readcell]: reader of [.cell] input decks *)

Module readcell.

(** The attributes set by [__init__].  [elems], [posns] and [Nions] come
    from the structure parsed by [casase.casread]. *)
Record t := {
  celllines : list string;
  Nlines : Z;
  flttol : float;
  elems : list string;
  posns : list (list float);
  Nions : Z;
}.

Definition get_kpoints (self : t) : result (list Z * list float) :=
  kgrid ← try_except
    (lkpts ← stri.strindex self.(celllines)
               ["kpoints_mp_grid"; "KPOINTS_MP_GRID"] false 0 None;
     line ← Py.index self.(celllines) lkpts;
     for_each Py.int (Py.slice (Py.split line) (Some (-3)) None))
    [UnboundLocalError]
    (Ok [5; 5; 1]);
  offset ← mp_offset kgrid;
  Ok (kgrid, offset).

Definition get_cell_constrs (self : t) : result (list Z) :=
  try_except
    (lconstrs ← stri.strindex self.(celllines)
                  ["%block cell_constraints"; "%BLOCK cell_constraints";
                   "%BLOCK CELL_CONSTRAINTS"] false 0 None;
     line1 ← Py.index self.(celllines) (lconstrs + 1);
     row1 ← for_each Py.int (Py.split line1);
     line2 ← Py.index self.(celllines) (lconstrs + 2);
     row2 ← for_each Py.int (Py.split line2);
     Ok (row1 ++ row2)%list)
    [UnboundLocalError]
    (Ok [1; 2; 3; 4; 5; 6]).

Definition positions_markers : list string :=
  ["%block positions_frac"; "%BLOCK positions_frac"; "%BLOCK POSITIONS_FRAC";
   "%block positions_abs"; "%BLOCK positions_abs"; "%BLOCK POSITIONS_ABS"].

Definition get_elements (self : t) : list string := self.(elems).

Definition get_posns (self : t) (iteration : option Z) : list (list float) :=
  self.(posns).

(** [None] is Python's [None]. *)
Definition get_psps (self : t) : result (option (gmap string string)) :=
  try_except
    (lpspsb ← stri.strindex self.(celllines)
                ["%block species_pot"; "%BLOCK species_pot";
                 "%BLOCK SPECIES_POT"] false 0 None;
     lpspse ← stri.strindex self.(celllines)
                ["%endblock species_pot"; "%ENDBLOCK species_pot";
                 "%ENDBLOCK SPECIES_POT"] false 0 None;
     pseudos ← for_fold (fun (pseudos : gmap string string) i =>
                  line ← Py.index self.(celllines) i;
                  '(elem, psp) ← Py.unpack2 (Py.split line);
                  Ok (<[elem := psp]> pseudos))
                ∅ (Py.range2 (lpspsb + 1) lpspse);
     Ok (Some pseudos))
    [UnboundLocalError]
    (Ok None).

(** The loop [for j, string in enumerate(lnsplt)] that both
    [get_init_spin] and [get_mixkey] run: [imix] is the index of the last
    token that mentions a mixture and is left alone when there is none. *)
Definition scan_mixture (lnsplt : list string) (imix : option Z)
    : option Z :=
  fold_left (fun imix '(j, tok) =>
               if Py.contains "MIXTURE" tok || Py.contains "mixture" tok
               then Some j else imix)
    (zip (Py.range (Py.len lnsplt)) lnsplt) imix.

Section more.
Context `{Numerics}.

Definition get_init_spin (self : t) : result (list float) :=
  let spins := Py.replicate 0%float self.(Nions) in
  lposns ← stri.strindex self.(celllines) positions_markers false 0 None;
  for_fold (fun spins i =>
    line ← Py.index self.(celllines) (lposns + 1 + i);
    if (4 <? Py.len (Py.split line))
       && (Py.contains "SPIN" line || Py.contains "spin" line)
    then
      let lnsplt := Py.split line in
      (* after the loop [j] is the index of the last token *)
      tok ← Py.index lnsplt (Py.len lnsplt - 1);
      val ← Py.index (Py.split_on "=" tok) 1;
      x ← float_ val;
      Ok (<[Z.to_nat i := x]> spins)
    else Ok spins)
    spins (Py.range self.(Nions)).

(** The first loop of [get_mixkey]: the default entry of every atom. *)
Definition default_mixkey (self : t)
    : result (gmap string (string * gmap string float)) :=
  for_fold (fun mk i =>
    elem ← Py.index self.(elems) i;
    row ← Py.index self.(posns) i;
    Ok (<[posstring row := (elem, {[elem := 1%float]})]> mk))
    ∅ (Py.range self.(Nions)).

(** The body of the second loop of [get_mixkey] on atom [i]; [imix]
    lives across the atoms. *)
Definition mix_atom (self : t) (lposns : Z)
    (acc : gmap string (string * gmap string float) * option Z) (i : Z)
    : result (gmap string (string * gmap string float) * option Z) :=
  let '(mixkey, imix) := acc in
  line ← Py.index self.(celllines) (lposns + 1 + i);
  if (4 <? Py.len (Py.split line))
     && (Py.contains "MIXTURE" line || Py.contains "mixture" line)
  then
    let lnsplt := Py.split line in
    let imix := scan_mixture lnsplt imix in
    elem ← Py.index self.(elems) i;
    j ← match imix with Some j => Ok j | None => Raise UnboundLocalError end;
    tok ← Py.index lnsplt (j + 1);
    wt ← float_ (Py.remove ")" tok);
    row ← Py.index self.(posns) i;
    let poskey := posstring row in
    '(siteelem, wts) ← match mixkey !! poskey with
                       | Some entry => Ok entry
                       | None => Raise KeyError
                       end;
    let wts := <[elem := wt]> wts in
    elemkey ← Py.sorted_first (map_to_list wts).*1;
    Ok (<[poskey := (elemkey, wts)]> mixkey, imix)
  else Ok (mixkey, imix).

Definition get_mixkey (self : t) (iteration : option Z)
    : result (gmap string (string * gmap string float)) :=
  mixkey ← default_mixkey self;
  lposns ← stri.strindex self.(celllines) positions_markers false 0 None;
  '(mixkey, _) ← for_fold (mix_atom self lposns) (mixkey, None)
                   (Py.range self.(Nions));
  Ok mixkey.

Definition get_ext_press (self : t) : result (list float) :=
  try_except
    (lpress ← stri.strindex self.(celllines)
                ["%block external_pressure"; "%BLOCK external_pressure";
                 "%BLOCK EXTERNAL_PRESSURE"] false 0 None;
     line ← Py.index self.(celllines) (lpress + 1);
     let lpress := if Py.len (Py.split line) =? 1 then lpress + 1
                   else lpress in
     voigt_press (Py.slice self.(celllines) (Some (lpress + 1))
                    (Some (lpress + 4))))
    [UnboundLocalError]
    (Ok (Py.replicate 0%float 6)).

End more.

End readcell.

(** ** [class readcas]: reader of [.castep] results logs *)

Module readcas.

(** The attributes set by [__init__]. *)
Record t := {
  caslines : list string;
  Nlines : Z;
  Nions : Z;
  task : string;
  flttol : float;
  complete : bool;
  Niterations : Z;
  elems : list string;
}.

(** *** Methods called by [__init__]

    They read the attributes already set; here they take them as
    arguments. *)

Definition get_Nions (caslines : list string) : result Z :=
  lNions ← stri.strindex caslines ["Total number of ions in cell"] false 0 None;
  line ← Py.index caslines lNions;
  tok ← Py.index (Py.split line) 7;
  Py.int tok.

Definition get_task (caslines : list string) : result string :=
  ltask ← stri.strindex caslines
            ["type of calculation                            :"] false 0 None;
  line ← Py.index caslines ltask;
  Py.index (Py.split line) 4.

Definition check_complete (caslines : list string) : bool :=
  match stri.strindex caslines ["Total time          ="] false 0 None with
  | Ok _ => true
  | Raise _ => false
  end.

(** With a task that is neither branch [Niterations] stays unbound. *)
Definition get_Niterations (caslines : list string) (task : string)
    (complete : bool) : result Z :=
  if String.eqb task "single" then
    Ok (if complete then 1 else 0)
  else if String.eqb task "geometry" then
    let lenthalpies := stri.strindices caslines ["with enthalpy="] 0 None in
    Ok (Py.len lenthalpies)
  else Raise UnboundLocalError.

Definition get_elements (caslines : list string) (Nions : Z)
    : result (list string) :=
  lelem ← stri.strindex caslines ["Element "] true 0 None;
  for_each (fun casline => Py.index (Py.split casline) 1)
    (Py.slice caslines (Some (lelem + 3)) (Some (lelem + 3 + Nions))).

(** [readcas(casfile, flttol)], from the lines read from [casfile]. *)
Definition init (lines : list string) (flttol : float) : result t :=
  Nions ← get_Nions lines;
  task ← get_task lines;
  if negb (bool_decide (task ∈ recognised_tasks)) then Raise ValueError else
  let complete := check_complete lines in
  Niterations ← get_Niterations lines task complete;
  elems ← get_elements lines Nions;
  Ok {| caslines := lines; Nlines := Py.len lines; Nions := Nions;
        task := task; flttol := flttol; complete := complete;
        Niterations := Niterations; elems := elems |}.

(** *** The iteration segmenter *)

Definition geomrange (self : t) (iteration : option Z) (nmin : Z)
    (nmax : option Z) : result (Z * Z) :=
  let nmax := default self.(Nlines) nmax in
  match iteration with
  | None => Ok (nmin, nmax)
  | Some it =>
      if (Z.abs it >? self.(Niterations)) || (it =? self.(Niterations))
      then Raise IndexError
      else if (it =? 0) || (it =? - self.(Niterations)) then
        lmax ← stri.strindex self.(caslines) ["finished iteration"] true
                 nmin (Some nmax);
        Ok (nmin, lmax)
      else
        let indices := stri.strindices self.(caslines) ["finished iteration"]
                         nmin (Some nmax) in
        lmin ← Py.index indices (it - 1);
        lmax ← Py.index indices it;
        Ok (lmin, lmax)
  end.

(** The [if self.task == 'single': ... elif self.task == 'geometry': ...]
    that opens most extractors.  With any other task [nmin] stays unbound
    and its first use raises. *)
Definition window (self : t) (iteration : option Z) : result (Z * Z) :=
  if String.eqb self.(task) "single" then Ok (0, self.(Nlines))
  else if String.eqb self.(task) "geometry" then geomrange self iteration 0 None
  else Raise UnboundLocalError.

(** *** Extractors *)

Definition get_kpoints (self : t) : result (list Z * list float) :=
  kgrid ← try_except
    (lkpts ← stri.strindex self.(caslines)
               ["MP grid size for SCF calculation is"] false 0 None;
     line ← Py.index self.(caslines) lkpts;
     for_each Py.int (Py.slice (Py.split line) (Some (-3)) None))
    [UnboundLocalError]
    (Ok [5; 5; 1]);
  offset ← mp_offset kgrid;
  Ok (kgrid, offset).

(** [None] is Python's [None]. *)
Definition get_cell_constrs (self : t) : result (option (list Z)) :=
  try_except
    (lconstrs ← stri.strindex self.(caslines) ["Cell constraints are:"]
                  false 0 None;
     line ← Py.index self.(caslines) lconstrs;
     cellconstrs ← for_each Py.int
                     (Py.slice (Py.split line) (Some 3) (Some 9));
     Ok (Some cellconstrs))
    [UnboundLocalError]
    (Ok None).

Section extractors.
Context `{Numerics}.

(** The loop [for i in range(n): out[i, :] = [float(p) for p in
    rows[i].split()[lo:hi]]]. *)
Definition read_rows (rows : list string) (n : Z) (lo hi : Z)
    : result (list (list float)) :=
  for_each (fun i =>
    line ← Py.index rows i;
    vals ← for_each float_ (Py.slice (Py.split line) (Some lo) (Some hi));
    set_row3 vals) (Py.range n).

Definition get_posns (self : t) (iteration : option Z)
    : result (list (list float)) :=
  _ ← np_zeros self.(Nions);
  '(nmin, nmax) ← window self iteration;
  lposn ← stri.strindex self.(caslines) ["Element "] false nmin (Some nmax);
  let poslines := Py.slice self.(caslines) (Some (lposn + 3))
                    (Some (lposn + 3 + self.(Nions))) in
  read_rows poslines self.(Nions) 3 6.

Definition get_cell (self : t) (iteration : option Z)
    : result (list (list float)) :=
  '(nmin, nmax) ←
    (if String.eqb self.(task) "single" then Ok (0, self.(Nlines))
     else if String.eqb self.(task) "geometry" then
       cellconstrs ← get_cell_constrs self;
       let iteration :=
         if bool_decide (cellconstrs = Some [0; 0; 0; 0; 0; 0])
         then Some 0 else iteration in
       geomrange self iteration 0 None
     else Raise UnboundLocalError);
  lcell ← stri.strindex self.(caslines) ["Real Lattice(A)"] false
            nmin (Some nmax);
  let celllines := Py.slice self.(caslines) (Some (lcell + 1))
                     (Some (lcell + 4)) in
  read_rows celllines 3 0 3.

Definition get_enthalpy (self : t) (iteration : option Z) : result float :=
  if self.(Niterations) =? 0 then Raise IndexError
  else if String.eqb self.(task) "single" then Raise NotImplementedError
  else if String.eqb self.(task) "geometry" then
    '(nmin, nmax) ← geomrange self iteration 0 None;
    lenthalpy ← stri.strindex self.(caslines) ["with enthalpy="] false
                  nmin (Some nmax);
    line ← Py.index self.(caslines) lenthalpy;
    tok ← Py.index (Py.split line) 6;
    float_ tok
  else Raise UnboundLocalError.

Definition get_energy (self : t) (iteration : option Z) : result float :=
  if self.(Niterations) =? 0 then Raise IndexError else
  '(nmin, nmax) ← window self iteration;
  try_except
    (lenergy ← stri.strindex self.(caslines) ["Final energy, E"] false
                 nmin (Some nmax);
     line ← Py.index self.(caslines) lenergy;
     tok ← Py.index (Py.split line) 4;
     float_ tok)
    [UnboundLocalError]
    (lenergy ← stri.strindex self.(caslines) ["Final energy ="] false
                 nmin (Some nmax);
     line ← Py.index self.(caslines) lenergy;
     tok ← Py.index (Py.split line) 3;
     float_ tok).

Definition get_forces (self : t) (iteration : option Z)
    : result (list (list float)) :=
  _ ← np_zeros self.(Nions);
  if self.(Niterations) =? 0 then Raise IndexError else
  '(nmin, nmax) ← window self iteration;
  lforce ← stri.strindex self.(caslines)
             ["* Forces *"; "* Symmetrised Forces *"] false nmin (Some nmax);
  let forcelines := Py.slice self.(caslines) (Some (lforce + 6))
                      (Some (lforce + 6 + self.(Nions))) in
  for_each (fun i =>
    line ← Py.index forcelines i;
    let newforcelinesplt :=
      List.filter (fun f => negb (String.eqb f "(mixed)")) (Py.split line) in
    vals ← for_each (fun p => float_ (Py.remove "(cons'd)" p))
             (Py.slice newforcelinesplt (Some 3) (Some 6));
    set_row3 vals) (Py.range self.(Nions)).

Definition get_stresses (self : t) (iteration : option Z)
    : result (list (list float)) :=
  if self.(Niterations) =? 0 then Raise IndexError else
  '(nmin, nmax) ← window self iteration;
  lstress ← stri.strindex self.(caslines)
              ["* Stress Tensor *"; "* Symmetrised Stress Tensor *"] false
              nmin (Some nmax);
  let stresslines := Py.slice self.(caslines) (Some (lstress + 6))
                       (Some (lstress + 9)) in
  read_rows stresslines 3 2 5.


(** The loop [for i in range(n): spins[i] = f(i)]. *)
Definition fill_spins (spins : list float) (n : Z) (f : Z → result float)
    : result (list float) :=
  for_fold (fun spins i => v ← f i; Ok (<[Z.to_nat i := v]> spins))
    spins (Py.range n).

Definition get_init_spin (self : t) : result (list float) :=
  let spins := Py.replicate 0%float self.(Nions) in
  try_except
    (lspin ← stri.strindex self.(caslines) ["Initial magnetic"] false 0 None;
     let spinlines := Py.slice self.(caslines) (Some (lspin + 3))
                        (Some (lspin + 3 + self.(Nions))) in
     fill_spins spins self.(Nions) (fun i =>
       line ← Py.index spinlines i;
       tok ← Py.index (Py.split line) 4;
       float_ tok))
    [UnboundLocalError]
    (Ok spins).

Definition get_final_spin (self : t) : result (list float) :=
  let spins := Py.replicate 0%float self.(Nions) in
  try_except
    (lspin ← stri.strindex self.(caslines) ["Atomic Populations (Mulliken)"]
               false 0 None;
     header ← Py.index self.(caslines) (lspin + 2);
     if Py.contains "spin" header || Py.contains "Spin" header then
       let spinlines := Py.slice self.(caslines) (Some (lspin + 4))
                          (Some (lspin + 4 + self.(Nions))) in
       strfactor ← Py.index (Py.split header) (-1);
       fltfactor ←
         (if String.eqb strfactor "(hbar)" then Ok 2%float
          else if String.eqb strfactor "(hbar/2)" then Ok 1%float
          else Raise ValueError);
       fill_spins spins self.(Nions) (fun i =>
         line ← Py.index spinlines i;
         tok ← Py.index (Py.split line) (-1);
         x ← float_ tok;
         Ok (x * fltfactor)%float)
     else Ok spins)
    [UnboundLocalError]
    (Raise UnboundLocalError).

(** *** The mixed-site resolver *)

(** The variables of [get_mixkey] that live across rows of the mixture
    block.  [poskey = None] is the name not bound yet. *)
Record mixstate := {
  mixkey : gmap string (string * gmap string float);
  wts : gmap string float;
  matchindex : option Z;
  posn : option (list float);
  poskey : option string;
}.

(** The first loop: the default entry of every atom. *)
Definition default_mixkey (self : t) (posns : list (list float))
    : result (gmap string (string * gmap string float)) :=
  for_fold (fun mk i =>
    elem ← Py.index self.(elems) i;
    row ← Py.index posns i;
    Ok (<[posstring row := (elem, {[elem := 1%float]})]> mk))
    ∅ (Py.range self.(Nions)).

(** [if posn is not None: mixkey[poskey] = (self.elems[matchindex], wts);
    posn, matchindex = None, None; wts = {}] *)
Definition flush_record (self : t) (st : mixstate) : result mixstate :=
  match st.(posn) with
  | None => Ok st
  | Some _ =>
      elem ← match st.(matchindex) with
             | Some i => Py.index self.(elems) i
             | None => Raise TypeError
             end;
      key ← match st.(poskey) with
            | Some k => Ok k
            | None => Raise UnboundLocalError
            end;
      Ok {| mixkey := <[key := (elem, st.(wts))]> st.(mixkey); wts := ∅;
            matchindex := None; posn := None; poskey := st.(poskey) |}
  end.

(** The loop over the atoms in an 8-token row: every atom of the row's
    element within [flttol] of the row's position assigns [matchindex]
    and [poskey]. *)
Definition match_step (self : t) (posns : list (list float))
    (posn : list float) (elem : string) (found : option Z * option string)
    (i : Z) : result (option Z * option string) :=
  row ← Py.index posns i;
  let dist := linalg_norm (vec_sub posn row) in
  e ← Py.index self.(elems) i;
  if String.eqb e elem && (dist <? self.(flttol))%float
  then Ok (Some i, Some (posstring row))
  else Ok found.

Definition find_match (self : t) (posns : list (list float))
    (posn : list float) (elem : string) (found : option Z * option string)
    : result (option Z * option string) :=
  for_fold (match_step self posns posn elem) found (Py.range self.(Nions)).

(** The body of the [while] loop on one row.  The dictionary is given
    back beside the outcome: it has been updated in place when the row
    raises after the flush. *)
Definition mix_row (self : t) (posns : list (list float))
    (mixline : list string) (st : mixstate)
    : gmap string (string * gmap string float) * result mixstate :=
  if Py.len mixline =? 8 then
    match flush_record self st with
    | Raise e => (st.(mixkey), Raise e)
    | Ok st1 =>
        (st1.(mixkey),
         p ← for_each float_ (Py.slice mixline (Some 2) (Some 5));
         elem ← Py.index mixline 5;
         '(mi, pk) ← find_match self posns p elem
                       (st1.(matchindex), st1.(poskey));
         match mi with
         | None => Raise KeyError
         | Some _ =>
             wt ← Py.index mixline 6;
             w ← float_ wt;
             Ok {| mixkey := st1.(mixkey); wts := <[elem := w]> st1.(wts);
                   matchindex := mi; posn := Some p; poskey := pk |}
         end)
    end
  else
    (st.(mixkey),
     elem ← Py.index mixline 1;
     wt ← Py.index mixline 2;
     w ← float_ wt;
     Ok {| mixkey := st.(mixkey); wts := <[elem := w]> st.(wts);
           matchindex := st.(matchindex); posn := st.(posn);
           poskey := st.(poskey) |}).

(** [while self.caslines[l].split()[0] == 'x': ...; l += 1], on the lines
    from [l] on. *)
Fixpoint mix_block (self : t) (posns : list (list float))
    (rest : list string) (st : mixstate)
    : gmap string (string * gmap string float) * result mixstate :=
  match rest with
  | [] => (st.(mixkey), Raise IndexError)
  | line :: rest' =>
      let mixline := Py.split line in
      match mixline with
      | [] => (st.(mixkey), Raise IndexError)
      | tok :: _ =>
          if String.eqb tok "x" then
            match mix_row self posns mixline st with
            | (_, Ok st') => mix_block self posns rest' st'
            | (mk, Raise e) => (mk, Raise e)
            end
          else (st.(mixkey), Ok st)
      end
  end.

(** [except (UnboundLocalError, IndexError): pass] followed by
    [return mixkey]. *)
Definition mix_except (mk : gmap string (string * gmap string float))
    (e : exn) : result (gmap string (string * gmap string float)) :=
  if bool_decide (e ∈ [UnboundLocalError; IndexError]) then Ok mk
  else Raise e.

Definition get_mixkey (self : t) (iteration : option Z)
    : result (gmap string (string * gmap string float)) :=
  posns ← get_posns self iteration;
  '(nmin, nmax) ← window self iteration;
  mixkey0 ← default_mixkey self posns;
  match stri.strindex self.(caslines) ["Mixture"] false nmin (Some nmax) with
  | Raise e => mix_except mixkey0 e
  | Ok lmix =>
      let l := lmix + 3 in
      let st0 := {| mixkey := mixkey0; wts := ∅; matchindex := None;
                    posn := None; poskey := None |} in
      match mix_block self posns (drop (Z.to_nat l) self.(caslines)) st0 with
      | (mk, Raise e) => mix_except mk e
      | (_, Ok st) =>
          match flush_record self st with
          | Ok st' => Ok st'.(mixkey)
          | Raise e => mix_except st.(mixkey) e
          end
      end
  end.

(** [while self.caslines[i].split(): elem, psp = ...; i += 1], on the
    lines from [i] on. *)
Fixpoint psp_rows (rest : list string) (pseudos : gmap string string)
    : result (gmap string string) :=
  match rest with
  | [] => Raise IndexError
  | line :: rest' =>
      match Py.split line with
      | [] => Ok pseudos
      | toks =>
          match Py.unpack2 toks with
          | Ok (elem, psp) => psp_rows rest' (<[elem := psp]> pseudos)
          | Raise e => Raise e
          end
      end
  end.

(** [None] is Python's [None]. *)
Definition get_psps (self : t) : result (option (gmap string string)) :=
  try_except
    (lpsps ← stri.strindex self.(caslines)
               ["Files used for pseudopotentials:"] false 0 None;
     pseudos ← psp_rows (drop (Z.to_nat (lpsps + 1)) self.(caslines)) ∅;
     Ok (Some pseudos))
    [UnboundLocalError]
    (Ok None).

Definition get_ext_press (self : t) : result (list float) :=
  try_except
    (lpress ← stri.strindex self.(caslines)
                ["External pressure/stress (GPa)"] false 0 None;
     voigt_press (Py.slice self.(caslines) (Some (lpress + 1))
                    (Some (lpress + 4))))
    [UnboundLocalError]
    (Ok (Py.replicate 0%float 6)).

Definition get_Fmax `{RowNorm} (self : t) (iteration : option Z)
    : result float :=
  forces ← get_forces self iteration;
  Py.max (norm_axis1 <$> forces).

End extractors.

End readcas.

(** ** A concrete [Numerics] for evaluating the readers on sample reports *)

Module decimal.

(** The double nearest to [m * 10^e10] ([m > 0]), ties to even.  For a
    negative exponent the quotient carries at least 64 bits and a sticky
    bit, so one rounding of it is the rounding of the exact value. *)
Definition nearest (m e10 : Z) : float :=
  if 0 <=? e10 then SF2Prim (binary_normalize prec emax (m * 10 ^ e10) 0 false)
  else
    let den := 10 ^ (- e10) in
    let s := Z.max 0 (64 + Z.log2 den - Z.log2 m) in
    let q := (m * 2 ^ s) / den in
    let r := (m * 2 ^ s) mod den in
    SF2Prim (binary_normalize prec emax
               (2 * q + (if r =? 0 then 0 else 1)) (- (s + 1)) false).

(** Leading decimal digits of [s]: their value on top of [acc], how many
    there are, and the rest of [s]. *)
Fixpoint digits (acc cnt : Z) (s : string) : Z * Z * string :=
  match s with
  | EmptyString => (acc, cnt, s)
  | String c s' =>
      match Py.digit_val c with
      | Some d => digits (10 * acc + d) (cnt + 1) s'
      | None => (acc, cnt, s)
      end
  end.

Definition sign (s : string) : bool * string :=
  match s with
  | String "-" s' => (true, s')
  | String "+" s' => (false, s')
  | _ => (false, s)
  end.

Definition exponent (s : string) : option Z :=
  match s with
  | EmptyString => Some 0
  | String c s' =>
      if Ascii.eqb c "e" || Ascii.eqb c "E" then
        let '(neg, body) := sign s' in
        match digits 0 0 body with
        | (e, cnt, EmptyString) =>
            if 0 <? cnt then Some (if neg then - e else e) else None
        | _ => None
        end
      else None
  end.

(** [float(s)] on a token written as a decimal literal, with or without
    fraction and exponent.  The [inf] and [nan] spellings and digit
    separators are not read. *)
Definition float_of_string (s : string) : option float :=
  let '(neg, body) := sign s in
  let '(m1, c1, rest1) := digits 0 0 body in
  let '(m, c2, rest) :=
    match rest1 with
    | String "." frac => digits m1 0 frac
    | _ => (m1, 0, rest1)
    end in
  if c1 + c2 =? 0 then None
  else match exponent rest with
       | None => None
       | Some e =>
           let x := if m =? 0 then 0%float else nearest m (e - c2) in
           Some (if neg then (- x)%float else x)
       end.

(** Euclidean norm, summed left to right. *)
Definition norm (v : list float) : float :=
  PrimFloat.sqrt (fold_left (fun acc x => (acc + x * x)%float) v 0%float).

Fixpoint show_digits (fuel : nat) (n : Z) (acc : string) : string :=
  match fuel with
  | O => acc
  | S fuel' =>
      let acc' := String (ascii_of_nat (48 + Z.to_nat (n mod 10))) acc in
      if n / 10 =? 0 then acc' else show_digits fuel' (n / 10) acc'
  end.

Definition show (n : Z) : string :=
  show_digits (S (Z.to_nat (Z.log2 n))) n "".

Fixpoint pad (k : nat) (s : string) : string :=
  match k with
  | O => s
  | S k' => pad k' ("0" +:+ s)
  end.

(** [m * 2^e * 10^6] rounded to an integer, ties to even. *)
Definition micro (m e : Z) : Z :=
  if 0 <=? e then m * 2 ^ e * 1000000
  else
    let num := m * 1000000 in
    let den := 2 ^ (- e) in
    let q := num / den in
    let r := num mod den in
    if (den <? 2 * r) || ((den =? 2 * r) && Z.odd q) then q + 1 else q.

Definition fixed6 (neg : bool) (n : Z) : string :=
  let frac := show (n mod 1000000) in
  (if neg then "-" else "") +:+ show (n / 1000000) +:+ "." +:+
  pad (6 - String.length frac) frac.

(** ['{0:.6f}'.format(x)] *)
Definition format (x : float) : string :=
  match Prim2SF x with
  | S754_zero neg => fixed6 neg 0
  | S754_infinity neg => if neg then "-inf" else "inf"
  | S754_nan => "nan"
  | S754_finite neg m e => fixed6 neg (micro (Zpos m) e)
  end.

#[export] Instance numerics : Numerics := {|
  py_float := float_of_string;
  linalg_norm := norm;
  format_6f := format;
|}.

End decimal.

(** ** Vocabulary of the statements *)

(** No line of the report contains any of the markers. *)
Definition absent (markers : list string) (lines : list string) : Prop :=
  Forall (fun line => stri.matches markers line = false) lines.

#[global] Instance absent_dec markers lines : Decision (absent markers lines).
Proof. unfold absent. apply Forall_dec. intros line. apply _. Defined.

(** The number of lines that contain one of the markers. *)
Definition count_lines (markers : list string) (lines : list string) : Z :=
  Py.len (List.filter (stri.matches markers) lines).

(** The iteration indices that [geomrange] refuses. *)
Definition out_of_range (self : readcas.t) (it : Z) : Prop :=
  Z.abs it > self.(readcas.Niterations) ∨ it = self.(readcas.Niterations).

(** Atom [i] is a candidate for a mixture row printed at [posn] for
    [elem]: same element, and closer than the tolerance. *)
Definition candidate `{Numerics} (self : readcas.t) (posns : list (list float))
    (posn : list float) (elem : string) (i : Z) : bool :=
  match Py.index posns i, Py.index self.(readcas.elems) i with
  | Ok row, Ok e =>
      String.eqb e elem &&
      (linalg_norm (vec_sub posn row) <? self.(readcas.flttol))%float
  | _, _ => false
  end.

Definition candidates `{Numerics} (self : readcas.t)
    (posns : list (list float)) (posn : list float) (elem : string)
    : list Z :=
  List.filter (candidate self posns posn elem) (Py.range self.(readcas.Nions)).

(** What a row of the mixture block leaves in [matchindex] and
    [poskey]. *)
Definition row_match (out : result readcas.mixstate)
    : result (option Z * option string) :=
  match out with
  | Ok st => Ok (st.(readcas.matchindex), st.(readcas.poskey))
  | Raise e => Raise e
  end.

(** Between rows, a record that is not open has no matched index. *)
Definition no_stale_match (st : readcas.mixstate) : Prop :=
  st.(readcas.posn) = None → st.(readcas.matchindex) = None.

(** The rows of a pseudopotential table, each an element and a file,
    and the dictionary they fill in order. *)
Definition table_rows (rows : list string) (pairs : list (string * string))
    : Prop :=
  Forall2 (fun row p => Py.split row = [p.1; p.2]) rows pairs.

Definition table_of (pairs : list (string * string)) : gmap string string :=
  foldl (fun m p => <[p.1 := p.2]> m) ∅ pairs.

(** Three lines print the upper triangle of a pressure tensor: the
    first starts with [xx xy xz], the second with [yy yz], the third with
    [zz]. *)
Definition pressure_block `{Numerics} (l0 l1 l2 : string)
    (xx yy zz yz xz xy : float) : Prop :=
  ∃ a b c t0 d e t1 f t2,
    Py.split l0 = a :: b :: c :: t0
    ∧ Py.split l1 = d :: e :: t1
    ∧ Py.split l2 = f :: t2
    ∧ py_float a = Some xx ∧ py_float b = Some xy ∧ py_float c = Some xz
    ∧ py_float d = Some yy ∧ py_float e = Some yz
    ∧ py_float f = Some zz.

(** The factor that [get_final_spin] takes from the last token of the
    header of the populations table. *)
Definition scale_factor (unit : string) : option float :=
  if String.eqb unit "(hbar)" then Some 2%float
  else if String.eqb unit "(hbar/2)" then Some 1%float
  else None.

(** Each row of the populations table ends in a raw spin, and the spin
    read is the raw value times the factor. *)
Definition final_spin_rows `{Numerics} (factor : float) (rows : list string)
    (spins : list float) : Prop :=
  Forall2 (fun row x => ∃ tok raw, last (Py.split row) = Some tok
                          ∧ py_float tok = Some raw
                          ∧ x = (raw * factor)%float) rows spins.

(** Each row of the initial-spin table carries its moment as token 4. *)
Definition init_spin_rows `{Numerics} (rows : list string)
    (spins : list float) : Prop :=
  Forall2 (fun row x => ∃ tok, Py.split row !! 4%nat = Some tok
                          ∧ py_float tok = Some x) rows spins.

(** A dictionary of sites in which every representative element has a
    weight, over the keys [D]. *)
Definition sites_wf (D : gset string)
    (mk : gmap string (string * gmap string float)) : Prop :=
  dom mk = D
  ∧ ∀ k e w, mk !! k = Some (e, w) → is_Some (w !! e).

(** What holds of the variables of [readcas.get_mixkey] between two rows
    of the mixture block: the dictionary is well formed, a closed record
    has no matched index, and an open record has a matched atom whose
    element has a weight and whose key is one of [D]. *)
Definition block_inv (self : readcas.t) (D : gset string)
    (st : readcas.mixstate) : Prop :=
  sites_wf D st.(readcas.mixkey)
  ∧ no_stale_match st
  ∧ (is_Some st.(readcas.posn) →
     ∃ i e k, st.(readcas.matchindex) = Some i
              ∧ Py.index self.(readcas.elems) i = Ok e
              ∧ is_Some (st.(readcas.wts) !! e)
              ∧ st.(readcas.poskey) = Some k ∧ k ∈ D).

(** What [readcell.get_init_spin] reads from one row of the positions
    block: a row of more than four tokens that mentions a spin gives the
    part after the first [=] of its last token, any other row gives
    zero. *)
Definition deck_spin_row `{Numerics} (row : string) (x : float) : Prop :=
  if (4 <? Py.len (Py.split row))
     && (Py.contains "SPIN" row || Py.contains "spin" row)
  then ∃ tok val, last (Py.split row) = Some tok
                  ∧ Py.split_on "=" tok !! 1%nat = Some val
                  ∧ py_float val = Some x
  else x = 0%float.

(** The representative of a site of the input deck: a key of the weights
    that no other key precedes, which is what
    [sorted(list(set(wts.keys())))[0]] picks. *)
Definition least_key (e : string) (w : gmap string float) : Prop :=
  is_Some (w !! e) ∧ ∀ e', is_Some (w !! e') → String.leb e e' = true.

(** A dictionary of sites over the keys [D] whose representatives are
    least keys. *)
Definition deck_wf (D : gset string)
    (mk : gmap string (string * gmap string float)) : Prop :=
  dom mk = D ∧ ∀ k e w, mk !! k = Some (e, w) → least_key e w.

(** The integers that [[int(c) for c in toks]] reads from tokens that all
    parse. *)
Definition ints_of (toks : list string) (cs : list Z) : Prop :=
  Forall2 (fun tok c => Py.int tok = Ok c) toks cs.

(** The state of the [while] loop of [readcas.get_mixkey] once it has
    read [rows] from the state [st]: every row starts with the token [x]
    and is read without an exception. *)
Fixpoint after_rows `{Numerics} (self : readcas.t)
    (posns : list (list float)) (rows : list string)
    (st : readcas.mixstate) : option readcas.mixstate :=
  match rows with
  | [] => Some st
  | line :: rows' =>
      match Py.split line with
      | [] => None
      | tok :: _ =>
          if String.eqb tok "x" then
            match (readcas.mix_row self posns (Py.split line) st).2 with
            | Ok st' => after_rows self posns rows' st'
            | Raise _ => None
            end
          else None
      end
  end.

(** ** Sample reports *)

Module samples.

(** [open(path).readlines()] on a text given line by line: every line
    keeps its line feed. *)
Definition readlines (text : list string) : list string :=
  (fun line => line +:+ String (ascii_of_nat 10) "") <$> text.

Definition tol : float := 0.0001%float.

Definition atom_table (rows : list string) : list string :=
  ["            x  Element    Atom        Fractional coordinates of atoms  x";
   "            x            Number           u          v          w      x";
   "            x----------------------------------------------------------x"]
  ++ rows ++
  ["            xxxxxxxxxxxxxxxxxxxxxxxxxxxxxxxxxxxxxxxxxxxxxxxxxxxxxxxxxxxxx"].

Definition lattice : list string :=
  ["                  Real Lattice(A)              Reciprocal Lattice(1/A)";
   "     4.0000000     0.0000000     0.0000000        1.5707963   0.0000000   0.0000000";
   "     0.0000000     4.0000000     0.0000000        0.0000000   1.5707963   0.0000000";
   "     0.0000000     0.0000000     6.0000000        0.0000000   0.0000000   1.0471976"].

(** An input deck that declares its k-point grid. *)
Definition deck_441 : readcell.t :=
  let text := readlines
    ["%block lattice_cart"; "4.0 0.0 0.0"; "0.0 4.0 0.0"; "0.0 0.0 6.0";
     "%endblock lattice_cart";
     "kpoints_mp_grid 4 4 1"] in
  {| readcell.celllines := text; readcell.Nlines := Py.len text;
     readcell.flttol := tol; readcell.elems := ["Fe"];
     readcell.posns := [[0; 0; 0]%float]; readcell.Nions := 1 |}.

(** An input deck with neither a k-point grid nor cell constraints. *)
Definition deck_bare : readcell.t :=
  let text := readlines
    ["%block positions_frac"; "Fe 0.0 0.0 0.0"; "%endblock positions_frac"] in
  {| readcell.celllines := text; readcell.Nlines := Py.len text;
     readcell.flttol := tol; readcell.elems := ["Fe"];
     readcell.posns := [[0; 0; 0]%float]; readcell.Nions := 1 |}.

(** A geometry optimisation with a frozen cell and two finished
    iterations; the lattice is printed once. *)
Definition geom_frozen : list string := readlines
  ([" type of calculation                            : geometry optimization";
    "                         Total number of ions in cell =    2";
    " MP grid size for SCF calculation is  4  4  1";
    "               Cell constraints are:  0 0 0 0 0 0"]
   ++ lattice
   ++ atom_table
        ["            x  Fe           1         0.000000   0.000000   0.000000   x";
         "            x  Ni           2         0.500000   0.500000   0.500000   x"]
   ++ [" LBFGS: finished iteration     0 with enthalpy= -8.54725682E+002 eV"]
   ++ atom_table
        ["            x  Fe           1         0.000000   0.000000   0.010000   x";
         "            x  Ni           2         0.500000   0.500000   0.490000   x"]
   ++ [" LBFGS: finished iteration     1 with enthalpy= -8.54743341E+002 eV";
       "Total time          =     12.34 s"])%list.

(** A geometry log in which one enthalpy line is not a
    finished-iteration line. *)
Definition geom_mismatch : list string := readlines
  ([" type of calculation                            : geometry optimization";
    "                         Total number of ions in cell =    1";
    "               Cell constraints are:  1 2 3 0 0 0"]
   ++ lattice
   ++ atom_table
        ["            x  Fe           1         0.000000   0.000000   0.000000   x"]
   ++ [" LBFGS: finished iteration     0 with enthalpy= -8.54725682E+002 eV";
       " LBFGS: trial structure with enthalpy= -8.54730000E+002 eV"])%list.

(** A static calculation that did not finish, without spin tables,
    k-point grid or cell constraints. *)
Definition single_incomplete : list string := readlines
  ([" type of calculation                            : single point energy";
    "                         Total number of ions in cell =    1"]
   ++ lattice
   ++ atom_table
        ["            x  Fe           1         0.000000   0.000000   0.000000   x"])%list.

(** The same calculation, finished. *)
Definition single_complete : list string :=
  (single_incomplete ++ readlines ["Total time          =      1.50 s"])%list.

(** A static calculation on two iron atoms 5e-5 apart along [u], with a
    mixture block whose only site is printed at the first atom. *)
Definition single_twins : list string := readlines
  ([" type of calculation                            : single point energy";
    "                         Total number of ions in cell =    2"]
   ++ atom_table
        ["            x  Fe           1         0.000000   0.000000   0.000000   x";
         "            x  Fe           2         0.000050   0.000000   0.000000   x"]
   ++ ["            x Mixture   Fractional coordinates of atoms    Species   Weight x";
       "            x  Number        u          v          w                        x";
       "            x---------------------------------------------------------------x";
       "            x    1       0.000000   0.000000   0.000000     Fe    0.700000   x";
       "            x                                               Ni    0.300000   x";
       "            xxxxxxxxxxxxxxxxxxxxxxxxxxxxxxxxxxxxxxxxxxxxxxxxxxxxxxxxxxxxxxxxxx"])%list.

(** The same two atoms with a mixture site printed where no atom is. *)
Definition single_unmatched : list string := readlines
  ([" type of calculation                            : single point energy";
    "                         Total number of ions in cell =    2"]
   ++ atom_table
        ["            x  Fe           1         0.000000   0.000000   0.000000   x";
         "            x  Fe           2         0.000050   0.000000   0.000000   x"]
   ++ ["            x Mixture   Fractional coordinates of atoms    Species   Weight x";
       "            x  Number        u          v          w                        x";
       "            x---------------------------------------------------------------x";
       "            x    1       0.500000   0.500000   0.500000     Fe    0.700000   x";
       "            x                                               Ni    0.300000   x";
       "            xxxxxxxxxxxxxxxxxxxxxxxxxxxxxxxxxxxxxxxxxxxxxxxxxxxxxxxxxxxxxxxxxx"])%list.

(** The positions, the mixture row and the state before the row in
    [get_mixkey] on [single_twins]. *)
Definition twins_posns : list (list float) :=
  [[0; 0; 0]; [0.00005; 0; 0]]%float.

Definition twins_row : list string :=
  ["x"; "1"; "0.000000"; "0.000000"; "0.000000"; "Fe"; "0.700000"; "x"].

Definition twins_state : readcas.mixstate :=
  {| readcas.mixkey :=
       {[ "0.000000 0.000000 0.000000" := ("Fe", {[ "Fe" := 1%float ]});
          "0.000050 0.000000 0.000000" := ("Fe", {[ "Fe" := 1%float ]}) ]};
     readcas.wts := ∅; readcas.matchindex := None; readcas.posn := None;
     readcas.poskey := None |}.

(** An input deck with spins, a mixed site, pseudopotentials and an
    external pressure given with its unit line. *)
Definition deck_text : list string := readlines
  ["%block positions_frac";
   "Fe 0.0 0.0 0.0 SPIN=2.0";
   "Ni 0.5 0.5 0.5 MIXTURE:(1 0.3)";
   "Fe 0.5 0.5 0.5 MIXTURE:(1 0.7)";
   "%endblock positions_frac";
   "%block species_pot";
   "Fe Fe_00.usp";
   "Ni Ni_00.usp";
   "%endblock species_pot";
   "%block external_pressure";
   "GPa";
   "1.0 0.1 0.2";
   "2.0 0.3";
   "3.0";
   "%endblock external_pressure"].

Definition deck_full : readcell.t :=
  {| readcell.celllines := deck_text; readcell.Nlines := Py.len deck_text;
     readcell.flttol := tol; readcell.elems := ["Fe"; "Ni"; "Fe"];
     readcell.posns := [[0; 0; 0]; [0.5; 0.5; 0.5]; [0.5; 0.5; 0.5]]%float;
     readcell.Nions := 3 |}.

(** The same deck without the unit line of the pressure block. *)
Definition deck_no_unit : readcell.t :=
  let text := (take 10 deck_text ++ drop 11 deck_text)%list in
  {| readcell.celllines := text; readcell.Nlines := Py.len text;
     readcell.flttol := tol; readcell.elems := ["Fe"; "Ni"; "Fe"];
     readcell.posns := [[0; 0; 0]; [0.5; 0.5; 0.5]; [0.5; 0.5; 0.5]]%float;
     readcell.Nions := 3 |}.

(** The same deck cut before the end of its species_pot block. *)
Definition deck_unterminated : readcell.t :=
  let text := take 8 deck_text in
  {| readcell.celllines := text; readcell.Nlines := Py.len text;
     readcell.flttol := tol; readcell.elems := ["Fe"; "Ni"; "Fe"];
     readcell.posns := [[0; 0; 0]; [0.5; 0.5; 0.5]; [0.5; 0.5; 0.5]]%float;
     readcell.Nions := 3 |}.

(** A finished static calculation with pseudopotentials, pressure, both
    energy lines and forces. *)
Definition single_full : list string := readlines
  ([" type of calculation                            : single point energy";
    "                         Total number of ions in cell =    2";
    " Files used for pseudopotentials:";
    "    Fe Fe_00.usp";
    "    Ni Ni_00.usp";
    "";
    " External pressure/stress (GPa)";
    "          1.000000   0.100000   0.200000";
    "                     2.000000   0.300000";
    "                                3.000000"]
   ++ atom_table
        ["            x  Fe           1         0.000000   0.000000   0.000000   x";
         "            x  Ni           2         0.500000   0.500000   0.500000   x"]
   ++ ["Final energy = -855.0000000 eV";
       "Final energy, E             =  -855.4591023     eV";
       " ***************** Forces *****************";
       " *                                        *";
       " *         Cartesian components (eV/A)    *";
       " * -------------------------------------- *";
       " *                 x       y       z      *";
       " *                                        *";
       " * Fe     1     3.00000 0.00000 4.00000   *";
       " * Ni     2     0.00000 (mixed) 1.00000(cons'd) 0.00000 0.00000 *";
       " *                                        *";
       "Total time          =      1.50 s"])%list.

(** An unfinished static calculation whose log stops inside the
    pseudopotential table. *)
Definition single_cut : list string :=
  (single_incomplete
   ++ readlines [" Files used for pseudopotentials:"; "    Fe Fe_00.usp"])%list.

(** The same log as an older writer prints it, with the second energy
    line only. *)
Definition single_old : list string :=
  (take 17 single_full ++ drop 18 single_full)%list.

(** A finished static calculation that prints every section the
    extractors read. *)
Definition single_all : list string :=
  (single_full ++ readlines
     (lattice ++
      [" ***************** Stress Tensor *****************";
       " *                                               *";
       " *               Cartesian components (GPa)      *";
       " * --------------------------------------------- *";
       " *             x             y             z     *";
       " *                                               *";
       " *  x      1.000000      0.000000      0.000000  *";
       " *  y      0.000000      2.000000      0.000000  *";
       " *  z      0.000000      0.000000      3.000000  *";
       " *                                               *"]))%list.

Definition spin_table : list string :=
  ["            x  Species    Atom         Initial            Initial magnetic       x";
   "            x            Number           spin         moment (uB)             x";
   "            x------------------------------------------------------------------x";
   "            x  Fe           1         1.000000             2.000               x";
   "            x  Ni           2        -0.500000            -1.000               x";
   "            xxxxxxxxxxxxxxxxxxxxxxxxxxxxxxxxxxxxxxxxxxxxxxxxxxxxxxxxxxxxxxxxxxxx"].

Definition populations (header : string) : list string :=
  ["     Atomic Populations (Mulliken)";
   "     -----------------------------";
   header;
   "===========================================================================";
   "  Fe              1     2.00   6.00   7.00   0.00  15.00   1.00     1.50";
   "  Ni              2     2.00   6.00   8.50   0.00  16.50  -1.00    -0.25";
   "==========================================================================="].

(** A finished static calculation with an initial-spin table and spin
    populations in units of hbar. *)
Definition single_spins : list string :=
  (single_full ++ readlines (spin_table ++ populations
     "Species          Ion     s      p      d      f     Total  Charge (e)  Spin (hbar)"))%list.

(** The same with a populations table that has no spin column. *)
Definition single_unpolarised : list string :=
  (single_full ++ readlines (populations
     "Species          Ion     s      p      d      f     Total  Charge (e)"))%list.

(** The same with spin populations in a unit the reader does not know. *)
Definition single_bad_unit : list string :=
  (single_full ++ readlines (populations
     "Species          Ion     s      p      d      f     Total  Charge (e)  Spin (hbar/4)"))%list.

(** Row norms for the samples. *)
Definition row_norm : RowNorm := {| norm_axis1 := decimal.norm |}.

(** Building a reader; [Raise] results fall back on an empty one. *)
(** An input deck whose cell constraints take two lines. *)
Definition deck_constrained : readcell.t :=
  let text := readlines
    ["%block positions_frac"; "Fe 0.0 0.0 0.0"; "%endblock positions_frac";
     "%block cell_constraints"; "1 1 3"; "0 0 0";
     "%endblock cell_constraints"] in
  {| readcell.celllines := text; readcell.Nlines := Py.len text;
     readcell.flttol := tol; readcell.elems := ["Fe"];
     readcell.posns := [[0; 0; 0]%float]; readcell.Nions := 1 |}.

(** The same deck cut after the first line of its constraints. *)
Definition deck_constrs_cut : readcell.t :=
  let text := take 5 deck_constrained.(readcell.celllines) in
  {| readcell.celllines := text; readcell.Nlines := Py.len text;
     readcell.flttol := tol; readcell.elems := ["Fe"];
     readcell.posns := [[0; 0; 0]%float]; readcell.Nions := 1 |}.

(** A geometry log whose cell-constraints line has a token that is not
    an integer. *)
Definition geom_bad_constrs : list string := readlines
  ([" type of calculation                            : geometry optimization";
    "                         Total number of ions in cell =    1";
    "               Cell constraints are:  1 2 3 0 0 0.0"]
   ++ lattice
   ++ atom_table
        ["            x  Fe           1         0.000000   0.000000   0.000000   x"]
   ++ [" LBFGS: finished iteration     0 with enthalpy= -8.54725682E+002 eV"])%list.

Definition reader (lines : list string) : readcas.t :=
  match readcas.init lines tol with
  | Ok r => r
  | Raise _ =>
      {| readcas.caslines := []; readcas.Nlines := 0; readcas.Nions := 0;
         readcas.task := ""; readcas.flttol := tol; readcas.complete := false;
         readcas.Niterations := 0; readcas.elems := [] |}
  end.

End samples.

(** ** Facts about the built-ins and the locator *)

Ltac run := unfold mbind, result_bind, mret, result_ret in *; cbn beta iota.

(** Settles a decidable statement about concrete data by evaluation. *)
Ltac evaluate := apply (bool_decide_unpack _); vm_compute; exact I.

Lemma bind_raise {A B} (f : A → result B) e : (Raise e ≫= f) = Raise e.
Proof. reflexivity. Qed.

Lemma bind_ok {A B} (f : A → result B) a : (Ok a ≫= f) = f a.
Proof. reflexivity. Qed.

Lemma matches_single m line : stri.matches [m] line = Py.contains m line.
Proof. unfold stri.matches. cbn. apply orb_false_r. Qed.

Lemma scan_absent markers nmin nmax lines :
  absent markers lines → ∀ i, stri.scan markers nmin nmax i lines = [].
Proof.
  induction 1 as [|line rest Hline _ IH]; intros i; cbn.
  - reflexivity.
  - rewrite Hline, andb_false_r. cbn. apply IH.
Qed.

Lemma strindices_absent markers nmin nmax lines :
  absent markers lines → stri.strindices lines markers nmin nmax = [].
Proof. intros Habs. unfold stri.strindices. by apply scan_absent. Qed.

Lemma strindex_absent markers first nmin nmax lines :
  absent markers lines →
  stri.strindex lines markers first nmin nmax = Raise UnboundLocalError.
Proof.
  intros Habs. unfold stri.strindex. by rewrite strindices_absent.
Qed.

Lemma scan_found markers nmin nmax pre line post :
  absent markers pre → stri.matches markers line = true →
  ∀ i, nmin ≤ i + Py.len pre → i + Py.len pre < nmax →
  stri.scan markers nmin nmax i (pre ++ line :: post)%list =
  (i + Py.len pre) :: stri.scan markers nmin nmax (i + Py.len pre + 1) post.
Proof.
  intros Habs Hline. induction Habs as [|l pre Hl _ IH]; intros i Hlo Hhi.
  - cbn in *. rewrite Z.add_0_r in *. rewrite Hline.
    replace (nmin <=? i) with true by (symmetry; apply Z.leb_le; lia).
    replace (i <? nmax) with true by (symmetry; apply Z.ltb_lt; lia).
    reflexivity.
  - unfold Py.len in *. cbn [length app stri.scan] in *.
    rewrite Hl, andb_false_r. cbn [app].
    rewrite IH by lia. f_equal; [lia|]. f_equal. lia.
Qed.

Lemma strindex_found markers first pre line post :
  absent markers pre → stri.matches markers line = true →
  stri.strindex (pre ++ line :: post)%list markers first 0 None
  = Ok (Py.len pre).
Proof.
  intros Habs Hline. unfold stri.strindex, stri.strindices.
  rewrite (scan_found _ _ _ _ _ _ Habs Hline).
  - reflexivity.
  - unfold Py.len. lia.
  - unfold Py.len. cbn. rewrite length_app. cbn. lia.
Qed.

Lemma index_middle {A} (pre : list A) x post :
  Py.index (pre ++ x :: post)%list (Py.len pre) = Ok x.
Proof.
  assert (Hneg : (Z.of_nat (length pre) <? 0) = false)
    by (apply Z.ltb_ge; lia).
  unfold Py.index, Py.len. cbv zeta. rewrite Hneg, Hneg.
  rewrite Nat2Z.id, list_lookup_middle by done. reflexivity.
Qed.

Lemma scan_length markers nmin nmax lines :
  ∀ i, nmin ≤ i → i + Py.len lines ≤ nmax →
  Py.len (stri.scan markers nmin nmax i lines) = count_lines markers lines.
Proof.
  unfold count_lines, Py.len.
  induction lines as [|line rest IH]; intros i Hlo Hhi; cbn [stri.scan List.filter].
  - reflexivity.
  - cbn [length] in Hhi.
    replace (nmin <=? i) with true by (symmetry; apply Z.leb_le; lia).
    replace (i <? nmax) with true by (symmetry; apply Z.ltb_lt; lia).
    cbn [andb]. specialize (IH (i + 1)).
    destruct (stri.matches markers line); cbn [app length]; lia.
Qed.

Lemma strindices_count markers lines :
  Py.len (stri.strindices lines markers 0 None) = count_lines markers lines.
Proof.
  unfold stri.strindices. apply scan_length; cbn; lia.
Qed.

Lemma count_lines_ext m1 m2 lines :
  Forall (fun line => stri.matches m1 line = stri.matches m2 line) lines →
  count_lines m1 lines = count_lines m2 lines.
Proof.
  unfold count_lines, Py.len. induction 1 as [|line rest Hline _ IH]; cbn.
  - reflexivity.
  - rewrite Hline. destruct (stri.matches m2 line); cbn; lia.
Qed.

Lemma replicate_len {A} (x : A) n : Py.len (Py.replicate x n) = Z.max 0 n.
Proof. unfold Py.len, Py.replicate. rewrite length_replicate. lia. Qed.

Lemma replicate_all {A} (x : A) n : Forall (eq x) (Py.replicate x n).
Proof.
  unfold Py.replicate. induction (Z.to_nat n); cbn; constructor; auto.
Qed.

(** ** The sample reports are accepted by the reader *)

Import samples.

(** Statements about the samples are evaluated with the decimal
    numerics; the theorems take any. *)
#[local] Existing Instance decimal.numerics.

Example init_geom_frozen :
  readcas.init geom_frozen tol = Ok (reader geom_frozen)
  ∧ (reader geom_frozen).(readcas.task) = "geometry"
  ∧ (reader geom_frozen).(readcas.Nions) = 2
  ∧ (reader geom_frozen).(readcas.Niterations) = 2.
Proof. vm_compute. auto. Qed.

Example init_geom_mismatch :
  readcas.init geom_mismatch tol = Ok (reader geom_mismatch)
  ∧ (reader geom_mismatch).(readcas.task) = "geometry"
  ∧ (reader geom_mismatch).(readcas.Nions) = 1
  ∧ (reader geom_mismatch).(readcas.Niterations) = 2.
Proof. vm_compute. auto. Qed.

Example init_single_incomplete :
  readcas.init single_incomplete tol = Ok (reader single_incomplete)
  ∧ (reader single_incomplete).(readcas.task) = "single"
  ∧ (reader single_incomplete).(readcas.complete) = false
  ∧ (reader single_incomplete).(readcas.Niterations) = 0.
Proof. vm_compute. auto. Qed.

Example init_single_complete :
  readcas.init single_complete tol = Ok (reader single_complete)
  ∧ (reader single_complete).(readcas.task) = "single"
  ∧ (reader single_complete).(readcas.complete) = true
  ∧ (reader single_complete).(readcas.Niterations) = 1.
Proof. vm_compute. auto. Qed.

Example init_single_twins :
  readcas.init single_twins tol = Ok (reader single_twins)
  ∧ (reader single_twins).(readcas.task) = "single"
  ∧ (reader single_twins).(readcas.Nions) = 2
  ∧ (reader single_twins).(readcas.elems) = ["Fe"; "Fe"].
Proof. vm_compute. auto. Qed.

(** ** What [__init__] establishes *)

Lemma init_inv lines flttol r :
  readcas.init lines flttol = Ok r →
  r.(readcas.caslines) = lines
  ∧ r.(readcas.Nlines) = Py.len lines
  ∧ r.(readcas.complete) = readcas.check_complete lines
  ∧ r.(readcas.task) ∈ recognised_tasks
  ∧ readcas.get_Niterations lines r.(readcas.task) r.(readcas.complete)
    = Ok r.(readcas.Niterations)
  ∧ readcas.get_elements lines r.(readcas.Nions) = Ok r.(readcas.elems).
Proof.
  unfold readcas.init. run.
  destruct (readcas.get_Nions lines) as [n|]; [|discriminate].
  destruct (readcas.get_task lines) as [tk|]; [|discriminate].
  destruct (bool_decide (tk ∈ recognised_tasks)) eqn:Htk; cbn; [|discriminate].
  destruct (readcas.get_Niterations lines tk _) as [k|] eqn:Hk; [|discriminate].
  destruct (readcas.get_elements lines n) as [es|] eqn:Hes; [|discriminate].
  intros [= <-]. cbn. apply bool_decide_eq_true in Htk. auto 10.
Qed.

(** ** k-point grids *)

(** C10. With no k-point grid marker in the report, [get_kpoints] does not
    fail in either reader: it returns the default grid [5, 5, 1] with the
    offset [0.1, 0.1, 0.5] that the offset rule derives from it. *)
Theorem get_kpoints_default (deck : readcell.t) (log : readcas.t) :
  (absent ["kpoints_mp_grid"; "KPOINTS_MP_GRID"] deck.(readcell.celllines) →
   readcell.get_kpoints deck = Ok ([5; 5; 1], [0.1; 0.1; 0.5]%float))
  ∧ (absent ["MP grid size for SCF calculation is"] log.(readcas.caslines) →
     readcas.get_kpoints log = Ok ([5; 5; 1], [0.1; 0.1; 0.5]%float)).
Proof.
  split; intros Habs.
  - unfold readcell.get_kpoints. rewrite (strindex_absent _ _ _ _ _ Habs).
    vm_compute. reflexivity.
  - unfold readcas.get_kpoints. rewrite (strindex_absent _ _ _ _ _ Habs).
    vm_compute. reflexivity.
Qed.

Lemma get_kpoints_default_holds :
  readcell.get_kpoints deck_bare = Ok ([5; 5; 1], [0.1; 0.1; 0.5]%float)
  ∧ readcas.get_kpoints (reader single_complete)
    = Ok ([5; 5; 1], [0.1; 0.1; 0.5]%float).
Proof.
  destruct (get_kpoints_default deck_bare (reader single_complete))
    as [Hdeck Hlog].
  split; [apply Hdeck | apply Hlog]; evaluate.
Defined.

(** The offset rule, one component at a time. *)
Lemma mp_offset_even k : k mod 2 = 0 → mp_offset [k] = Ok [0%float].
Proof.
  intros Hk. unfold mp_offset. cbn. apply Z.eqb_eq in Hk. by rewrite Hk.
Qed.

Lemma mp_offset_odd k d :
  k mod 2 ≠ 0 → Py.float_of_int (2 * k) = Ok d →
  mp_offset [k] = Ok [(1 / d)%float].
Proof.
  intros Hk Hd. unfold mp_offset. cbn [for_each].
  apply Z.eqb_neq in Hk. rewrite Hk. run. by rewrite Hd.
Qed.

(** C4, as the code has it.  When the first line that carries the grid
    marker ends in the three tokens [4 4 1], [get_kpoints] returns the
    grid [4, 4, 1] with offset [0.0, 0.0, 0.5]: the odd component 1 gives
    1/(2*1).  Both readers. *)
Theorem get_kpoints_441 (deck : readcell.t) (log : readcas.t)
    (dpre dpost lpre lpost : list string) (dline lline : string) :
  (deck.(readcell.celllines) = (dpre ++ dline :: dpost)%list →
   absent ["kpoints_mp_grid"; "KPOINTS_MP_GRID"] dpre →
   stri.matches ["kpoints_mp_grid"; "KPOINTS_MP_GRID"] dline = true →
   Py.slice (Py.split dline) (Some (-3)) None = ["4"; "4"; "1"] →
   readcell.get_kpoints deck = Ok ([4; 4; 1], [0; 0; 0.5]%float))
  ∧ (log.(readcas.caslines) = (lpre ++ lline :: lpost)%list →
     absent ["MP grid size for SCF calculation is"] lpre →
     stri.matches ["MP grid size for SCF calculation is"] lline = true →
     Py.slice (Py.split lline) (Some (-3)) None = ["4"; "4"; "1"] →
     readcas.get_kpoints log = Ok ([4; 4; 1], [0; 0; 0.5]%float)).
Proof.
  split; intros Hlines Hpre Hline Htoks.
  - unfold readcell.get_kpoints.
    rewrite Hlines, (strindex_found _ _ _ _ _ Hpre Hline). run.
    rewrite index_middle, Htoks. vm_compute. reflexivity.
  - unfold readcas.get_kpoints.
    rewrite Hlines, (strindex_found _ _ _ _ _ Hpre Hline). run.
    rewrite index_middle, Htoks. vm_compute. reflexivity.
Qed.

Lemma get_kpoints_441_holds :
  readcell.get_kpoints deck_441 = Ok ([4; 4; 1], [0; 0; 0.5]%float)
  ∧ readcas.get_kpoints (reader geom_frozen)
    = Ok ([4; 4; 1], [0; 0; 0.5]%float).
Proof.
  destruct (get_kpoints_441 deck_441 (reader geom_frozen)
              (take 5 deck_441.(readcell.celllines)) []
              (take 2 geom_frozen) (drop 3 geom_frozen)
              (readlines ["kpoints_mp_grid 4 4 1"] !!! 0%nat)
              (geom_frozen !!! 2%nat)) as [Hdeck Hlog].
  split; [apply Hdeck | apply Hlog];
    first [reflexivity | evaluate].
Defined.

Lemma float_half_not_quarter : 0.5%float ≠ 0.25%float.
Proof.
  intros Heq. apply (f_equal (fun x => PrimFloat.eqb x 0.5)) in Heq.
  vm_compute in Heq. discriminate.
Qed.

(** C4, as the spec words it, fails on the deck that declares
    [kpoints_mp_grid 4 4 1]: the offset along c is 0.5, not 0.25. *)
Lemma get_kpoints_441_not_quarter :
  readcell.get_kpoints deck_441 = Ok ([4; 4; 1], [0; 0; 0.5]%float)
  ∧ readcell.get_kpoints deck_441 ≠ Ok ([4; 4; 1], [0; 0; 0.25]%float).
Proof.
  assert (Hval : readcell.get_kpoints deck_441
                 = Ok ([4; 4; 1], [0; 0; 0.5]%float))
    by (vm_compute; reflexivity).
  split; [exact Hval|]. rewrite Hval. intros Heq.
  apply float_half_not_quarter.
  exact (f_equal (fun r => match r with
                           | Ok (_, [_; _; c]) => c
                           | _ => 0%float
                           end) Heq).
Qed.

(** ** Cell constraints *)

(** What the two readers do when the cell-constraints anchor is absent:
    neither fails, the input-deck reader substitutes [1, 2, 3, 4, 5, 6]
    and the results-log reader returns [None]. *)
Theorem get_cell_constrs_absent (deck : readcell.t) (log : readcas.t) :
  (absent ["%block cell_constraints"; "%BLOCK cell_constraints";
           "%BLOCK CELL_CONSTRAINTS"] deck.(readcell.celllines) →
   readcell.get_cell_constrs deck = Ok [1; 2; 3; 4; 5; 6])
  ∧ (absent ["Cell constraints are:"] log.(readcas.caslines) →
     readcas.get_cell_constrs log = Ok None).
Proof.
  split; intros Habs.
  - unfold readcell.get_cell_constrs.
    by rewrite (strindex_absent _ _ _ _ _ Habs).
  - unfold readcas.get_cell_constrs.
    by rewrite (strindex_absent _ _ _ _ _ Habs).
Qed.

Lemma get_cell_constrs_absent_holds :
  readcell.get_cell_constrs deck_bare = Ok [1; 2; 3; 4; 5; 6]
  ∧ readcas.get_cell_constrs (reader single_complete) = Ok None.
Proof.
  destruct (get_cell_constrs_absent deck_bare (reader single_complete))
    as [Hdeck Hlog].
  split; [apply Hdeck | apply Hlog]; evaluate.
Defined.

(** C9.  On a finished static calculation whose log has no
    cell-constraints line [readcas.get_cell_constrs] returns [None], not
    the identity constraints: its docstring promises a list of integers,
    and [readcell.get_cell_constrs] substitutes [1, 2, 3, 4, 5, 6]. *)
Lemma get_cell_constrs_log_no_identity :
  absent ["Cell constraints are:"] (reader single_complete).(readcas.caslines)
  ∧ readcas.get_cell_constrs (reader single_complete) = Ok None
  ∧ readcas.get_cell_constrs (reader single_complete)
    ≠ Ok (Some [1; 2; 3; 4; 5; 6]).
Proof.
  split; [evaluate|]. split; [vm_compute; reflexivity|].
  vm_compute. discriminate.
Qed.

(** ** Spins *)

(** C7. With no initial-spin table [get_init_spin] returns the all-zero
    vector [[0.0]*Nions] without failing (its length is [Nions], an ion
    count being non-negative); with no atomic-populations table
    [get_final_spin] fails instead of returning zeros. *)
Theorem spin_tables_absent `{Numerics} (self : readcas.t) :
  (absent ["Initial magnetic"] self.(readcas.caslines) →
   readcas.get_init_spin self = Ok (Py.replicate 0%float self.(readcas.Nions))
   ∧ Forall (eq 0%float) (Py.replicate 0%float self.(readcas.Nions))
   ∧ Py.len (Py.replicate 0%float self.(readcas.Nions))
     = Z.max 0 self.(readcas.Nions))
  ∧ (absent ["Atomic Populations (Mulliken)"] self.(readcas.caslines) →
     readcas.get_final_spin self = Raise UnboundLocalError).
Proof.
  split; intros Habs.
  - split; [|split].
    + unfold readcas.get_init_spin.
      by rewrite (strindex_absent _ _ _ _ _ Habs).
    + apply replicate_all.
    + apply replicate_len.
  - unfold readcas.get_final_spin.
    by rewrite (strindex_absent _ _ _ _ _ Habs).
Qed.

Lemma spin_tables_absent_holds :
  readcas.get_init_spin (reader single_complete) = Ok [0%float]
  ∧ readcas.get_final_spin (reader single_complete) = Raise UnboundLocalError.
Proof.
  destruct (spin_tables_absent (reader single_complete)) as [Hinit Hfinal].
  split.
  - apply Hinit. evaluate.
  - apply Hfinal. evaluate.
Defined.

(** ** Iteration count and enthalpy *)

Lemma get_Niterations_single lines complete :
  readcas.get_Niterations lines "single" complete
  = Ok (if complete then 1 else 0).
Proof. reflexivity. Qed.

Lemma get_Niterations_counts lines complete :
  readcas.get_Niterations lines "geometry" complete
  = Ok (count_lines ["with enthalpy="] lines).
Proof.
  unfold readcas.get_Niterations. cbn. by rewrite strindices_count.
Qed.

(** C2, as the code has it.  For a geometry report [Niterations], as
    [get_Niterations] reports it, is the number of lines that contain
    [with enthalpy=]; it is the number of lines the segmenter finds with
    [finished iteration] when every line carries both markers or
    neither. *)
Theorem Niterations_geometry (lines : list string) (flttol : float)
    (r : readcas.t) :
  readcas.init lines flttol = Ok r →
  r.(readcas.task) = "geometry" →
  readcas.get_Niterations r.(readcas.caslines) r.(readcas.task)
    r.(readcas.complete) = Ok r.(readcas.Niterations)
  ∧ r.(readcas.Niterations) = count_lines ["with enthalpy="] lines
  ∧ (Forall (fun line => Py.contains "with enthalpy=" line
                         = Py.contains "finished iteration" line) lines →
     r.(readcas.Niterations)
     = Py.len (stri.strindices lines ["finished iteration"] 0 None)).
Proof.
  intros Hinit Htask.
  destruct (init_inv _ _ _ Hinit) as (Hlines & _ & _ & _ & Hn & _).
  assert (Hcount : r.(readcas.Niterations)
                   = count_lines ["with enthalpy="] lines).
  { rewrite Htask, get_Niterations_counts in Hn. congruence. }
  split; [by rewrite Hlines|]. split; [exact Hcount|].
  intros Hsame. rewrite strindices_count, Hcount.
  apply count_lines_ext. eapply Forall_impl; [exact Hsame|].
  intros line Hline. by rewrite !matches_single.
Qed.

Lemma Niterations_geometry_holds :
  (reader geom_frozen).(readcas.Niterations) = 2
  ∧ Py.len (stri.strindices geom_frozen ["finished iteration"] 0 None) = 2.
Proof.
  destruct (Niterations_geometry geom_frozen tol (reader geom_frozen))
    as (_ & Hcount & Hsame); [reflexivity | reflexivity |].
  split.
  - rewrite Hcount. reflexivity.
  - rewrite <- Hsame by evaluate. rewrite Hcount. reflexivity.
Defined.

(** C2, as the spec words it, fails on a geometry log with an enthalpy
    line that is not a finished-iteration line: two iterations are
    counted, one finish marker is found. *)
Lemma Niterations_not_finished_count :
  readcas.init geom_mismatch tol = Ok (reader geom_mismatch)
  ∧ (reader geom_mismatch).(readcas.task) = "geometry"
  ∧ (reader geom_mismatch).(readcas.Niterations) = 2
  ∧ Py.len (stri.strindices geom_mismatch ["finished iteration"] 0 None) = 1.
Proof. vm_compute. auto. Qed.

Section enthalpy.
Context `{Numerics}.

(** C8, as the code has it.  On a Single-task report [get_enthalpy] never
    returns a value: it fails with [NotImplementedError] when the
    calculation completed and with [IndexError] (no SCF calculation
    completed) when it did not. *)
Theorem get_enthalpy_single (lines : list string) (flttol : float)
    (r : readcas.t) (iteration : option Z) :
  readcas.init lines flttol = Ok r →
  r.(readcas.task) = "single" →
  readcas.get_enthalpy r iteration
  = Raise (if r.(readcas.complete) then NotImplementedError else IndexError).
Proof.
  intros Hinit Htask.
  destruct (init_inv _ _ _ Hinit) as (_ & _ & _ & _ & Hn & _).
  rewrite Htask, get_Niterations_single in Hn.
  unfold readcas.get_enthalpy. rewrite Htask.
  injection Hn as <-. by destruct (readcas.complete r).
Qed.

End enthalpy.

Lemma get_enthalpy_single_holds :
  readcas.get_enthalpy (reader single_complete) (Some (-1))
  = Raise NotImplementedError.
Proof.
  apply (get_enthalpy_single single_complete tol (reader single_complete));
    reflexivity.
Defined.

(** C8, as the spec words it, fails on a static calculation that did
    not finish: the failure is [IndexError], not [NotImplementedError]. *)
Lemma get_enthalpy_single_incomplete :
  readcas.init single_incomplete tol = Ok (reader single_incomplete)
  ∧ (reader single_incomplete).(readcas.task) = "single"
  ∧ readcas.get_enthalpy (reader single_incomplete) (Some (-1))
    = Raise IndexError
  ∧ readcas.get_enthalpy (reader single_incomplete) (Some (-1))
    ≠ Raise NotImplementedError.
Proof. vm_compute. repeat split; discriminate. Qed.

(** ** The iteration segmenter *)

Lemma geomrange_out_of_range (self : readcas.t) (it nmin : Z)
    (nmax : option Z) :
  out_of_range self it →
  readcas.geomrange self (Some it) nmin nmax = Raise IndexError.
Proof.
  intros Hout. unfold readcas.geomrange.
  replace ((Z.abs it >? readcas.Niterations self)
           || (it =? readcas.Niterations self)) with true; [done|].
  symmetry. apply orb_true_iff.
  destruct Hout as [Habs| ->]; [left; apply Z.gtb_lt; lia | right; apply Z.eqb_refl].
Qed.

(** C5, as the code has it.  When the segmenter finds at least two
    finished-iteration lines and [Niterations >= 2], [geomrange] returns
    for iterations 0 and 1 and the windows tile: the upper bound of the
    first is the lower bound of the second, the first finish line. *)
Theorem geomrange_tiles (self : readcas.t) (f0 f1 : Z) (rest : list Z) :
  2 ≤ self.(readcas.Niterations) →
  stri.strindices self.(readcas.caslines) ["finished iteration"] 0
    (Some self.(readcas.Nlines)) = f0 :: f1 :: rest →
  readcas.geomrange self (Some 0) 0 None = Ok (0, f0)
  ∧ readcas.geomrange self (Some 1) 0 None = Ok (f0, f1).
Proof.
  intros Hn HF. unfold readcas.geomrange, stri.strindex. cbn [default].
  rewrite HF.
  replace (Z.abs 0 >? _) with false
    by (symmetry; rewrite Z.gtb_ltb; apply Z.ltb_ge; lia).
  replace (Z.abs 1 >? _) with false
    by (symmetry; rewrite Z.gtb_ltb; apply Z.ltb_ge; lia).
  replace (0 =? readcas.Niterations self) with false
    by (symmetry; apply Z.eqb_neq; lia).
  replace (1 =? readcas.Niterations self) with false
    by (symmetry; apply Z.eqb_neq; lia).
  replace (1 =? - readcas.Niterations self) with false
    by (symmetry; apply Z.eqb_neq; lia).
  split; reflexivity.
Qed.

Lemma geomrange_tiles_holds :
  readcas.geomrange (reader geom_frozen) (Some 0) 0 None = Ok (0, 14)
  ∧ readcas.geomrange (reader geom_frozen) (Some 1) 0 None = Ok (14, 21).
Proof.
  apply (geomrange_tiles (reader geom_frozen) 14 21 []).
  - vm_compute. discriminate.
  - vm_compute. reflexivity.
Defined.

(** C5, as the spec words it, fails on a geometry log that counts two
    iterations and prints one finish line: the first window is returned,
    the second raises. *)
Lemma geomrange_no_second_window :
  readcas.init geom_mismatch tol = Ok (reader geom_mismatch)
  ∧ (reader geom_mismatch).(readcas.task) = "geometry"
  ∧ 2 ≤ (reader geom_mismatch).(readcas.Niterations)
  ∧ readcas.geomrange (reader geom_mismatch) (Some 0) 0 None = Ok (0, 12)
  ∧ readcas.geomrange (reader geom_mismatch) (Some 1) 0 None
    = Raise IndexError.
Proof. vm_compute. repeat split; discriminate. Qed.

(** ** Cell vectors of a frozen cell *)

Section cell.
Context `{Numerics}.

(** C6. On a geometry report whose six cell constraints are all zero,
    [get_cell] returns for every iteration argument what it returns for
    iteration 0: the cell is read from the first iteration's window. *)
Theorem get_cell_frozen (self : readcas.t) (iteration : option Z) :
  self.(readcas.task) = "geometry" →
  readcas.get_cell_constrs self = Ok (Some [0; 0; 0; 0; 0; 0]) →
  readcas.get_cell self iteration = readcas.get_cell self (Some 0).
Proof.
  intros Htask Hconstrs. unfold readcas.get_cell.
  rewrite Htask, Hconstrs. reflexivity.
Qed.

End cell.

Lemma get_cell_frozen_holds :
  readcas.get_cell (reader geom_frozen) (Some 5)
  = readcas.get_cell (reader geom_frozen) (Some 0)
  ∧ readcas.get_cell (reader geom_frozen) (Some 0)
    = Ok [[4; 0; 0]; [0; 4; 0]; [0; 0; 6]]%float.
Proof.
  split.
  - apply (get_cell_frozen (reader geom_frozen) (Some 5)); reflexivity.
  - vm_compute. reflexivity.
Defined.

(** ** Iterations out of range *)

Section range.
Context `{Numerics}.

Lemma window_out_of_range (self : readcas.t) (it : Z) :
  self.(readcas.task) = "geometry" → out_of_range self it →
  readcas.window self (Some it) = Raise IndexError.
Proof.
  intros Htask Hout. unfold readcas.window. rewrite Htask.
  change (readcas.geomrange self (Some it) 0 None = Raise IndexError).
  by apply geomrange_out_of_range.
Qed.

Lemma np_zeros_ok n : 0 ≤ n → np_zeros n = Ok ().
Proof.
  intros Hn. unfold np_zeros.
  by replace (n <? 0) with false by (symmetry; apply Z.ltb_ge; lia).
Qed.

(** C1, as the code has it.  On a geometry report and an iteration index
    [it] with [abs(it) > Niterations] or [it = Niterations]:
    [get_stresses], [get_enthalpy] and [get_energy] fail with
    [IndexError]; so do [get_posns], [get_forces] and [get_mixkey] when
    the ion count is not negative (they allocate the result first); and
    so does [get_cell] when the cell constraints read are not six zeros.
    With six zeros [get_cell] reads iteration 0 instead. *)
Theorem out_of_range_raises (self : readcas.t) (it : Z) :
  self.(readcas.task) = "geometry" →
  out_of_range self it →
  readcas.get_stresses self (Some it) = Raise IndexError
  ∧ readcas.get_enthalpy self (Some it) = Raise IndexError
  ∧ readcas.get_energy self (Some it) = Raise IndexError
  ∧ (0 ≤ self.(readcas.Nions) →
     readcas.get_posns self (Some it) = Raise IndexError
     ∧ readcas.get_forces self (Some it) = Raise IndexError
     ∧ readcas.get_mixkey self (Some it) = Raise IndexError)
  ∧ (∀ constrs, readcas.get_cell_constrs self = Ok constrs →
     constrs ≠ Some [0; 0; 0; 0; 0; 0] →
     readcas.get_cell self (Some it) = Raise IndexError).
Proof.
  intros Htask Hout.
  pose proof (window_out_of_range self it Htask Hout) as Hwin.
  pose proof (geomrange_out_of_range self it 0 None Hout) as Hgeom.
  repeat split.
  - unfold readcas.get_stresses. rewrite Hwin.
    by destruct (readcas.Niterations self =? 0).
  - unfold readcas.get_enthalpy. rewrite Htask, Hgeom.
    by destruct (readcas.Niterations self =? 0).
  - unfold readcas.get_energy. rewrite Hwin.
    by destruct (readcas.Niterations self =? 0).
  - unfold readcas.get_posns. by rewrite np_zeros_ok, Hwin.
  - unfold readcas.get_forces. rewrite np_zeros_ok, Hwin by done.
    run. by destruct (readcas.Niterations self =? 0).
  - unfold readcas.get_mixkey, readcas.get_posns.
    by rewrite np_zeros_ok, Hwin.
  - intros constrs Hconstrs Hne. unfold readcas.get_cell.
    rewrite Htask, Hconstrs.
    change (String.eqb "geometry" "single") with false.
    change (String.eqb "geometry" "geometry") with true.
    run. rewrite bool_decide_eq_false_2 by done. by rewrite Hgeom.
Qed.

End range.

Lemma out_of_range_raises_holds :
  let r := reader geom_mismatch in
  readcas.get_stresses r (Some 2) = Raise IndexError
  ∧ readcas.get_enthalpy r (Some 2) = Raise IndexError
  ∧ readcas.get_energy r (Some 2) = Raise IndexError
  ∧ readcas.get_posns r (Some 2) = Raise IndexError
  ∧ readcas.get_forces r (Some 2) = Raise IndexError
  ∧ readcas.get_mixkey r (Some 2) = Raise IndexError
  ∧ readcas.get_cell r (Some 2) = Raise IndexError.
Proof.
  intros r.
  destruct (out_of_range_raises r 2) as (Hs & Hh & He & Hions & Hcell).
  - reflexivity.
  - right. reflexivity.
  - destruct Hions as (Hp & Hf & Hm); [vm_compute; discriminate|].
    pose proof (Hcell (Some [1; 2; 3; 0; 0; 0]) eq_refl
                  ltac:(discriminate)) as Hc.
    auto 10.
Defined.

(** C1, as the spec words it, fails for [get_cell] on a geometry report
    with a frozen cell: iteration 5 of 2 is out of range and the cell of
    iteration 0 is returned. *)
Lemma frozen_cell_ignores_range :
  readcas.init geom_frozen tol = Ok (reader geom_frozen)
  ∧ (reader geom_frozen).(readcas.task) = "geometry"
  ∧ out_of_range (reader geom_frozen) 5
  ∧ readcas.get_cell (reader geom_frozen) (Some 5)
    = Ok [[4; 0; 0]; [0; 4; 0]; [0; 0; 6]]%float.
Proof.
  split; [reflexivity|]. split; [reflexivity|]. split.
  - left. reflexivity.
  - vm_compute. reflexivity.
Qed.

(** ** The mixed-site resolver *)

Lemma index_in_range {A} (l : list A) (i : Z) :
  0 ≤ i < Py.len l → ∃ x, l !! Z.to_nat i = Some x ∧ Py.index l i = Ok x.
Proof.
  unfold Py.len. intros [Hlo Hhi].
  destruct (lookup_lt_is_Some_2 l (Z.to_nat i)) as [x Hx]; [lia|].
  exists x. split; [done|].
  assert (Hneg : (i <? 0) = false) by (apply Z.ltb_ge; lia).
  unfold Py.index. cbv zeta. by rewrite Hneg, Hneg, Hx.
Qed.

Lemma range_bounds (n : Z) : Forall (fun i => 0 ≤ i < n) (Py.range n).
Proof.
  unfold Py.range. apply Forall_fmap, Forall_seq. intros j Hj. cbn. lia.
Qed.

Section resolver.
Context `{Numerics}.

Lemma float_some (s : string) (x : float) :
  py_float s = Some x → float_ s = Ok x.
Proof. unfold float_. by intros ->. Qed.

Lemma match_step_spec (self : readcas.t) posns posn elem found i :
  0 ≤ i < Py.len posns → 0 ≤ i < Py.len self.(readcas.elems) →
  readcas.match_step self posns posn elem found i
  = Ok (if candidate self posns posn elem i
        then (Some i, posstring <$> posns !! Z.to_nat i)
        else found).
Proof.
  intros Hrow Helem.
  destruct (index_in_range posns i Hrow) as (row & Hrow' & Hrow'').
  destruct (index_in_range _ i Helem) as (e & _ & He).
  unfold readcas.match_step, candidate. rewrite Hrow'', He, Hrow'. run.
  by destruct (_ && _).
Qed.

Lemma for_fold_match_step (self : readcas.t) posns posn elem idx :
  Forall (fun i => 0 ≤ i < Py.len posns
                   ∧ 0 ≤ i < Py.len self.(readcas.elems)) idx →
  ∀ found,
  for_fold (readcas.match_step self posns posn elem) found idx
  = Ok (match last (List.filter (candidate self posns posn elem) idx) with
        | Some i => (Some i, posstring <$> posns !! Z.to_nat i)
        | None => found
        end).
Proof.
  induction 1 as [|i idx [Hrow Helem] _ IH]; intros found.
  - reflexivity.
  - cbn [for_fold List.filter]. rewrite match_step_spec by done. run.
    rewrite IH. destruct (candidate self posns posn elem i); [|done].
    rewrite last_cons. by destruct (last _).
Qed.

(** The loop over the atoms leaves the last candidate in [matchindex]. *)
Lemma find_match_last (self : readcas.t) posns posn elem found :
  self.(readcas.Nions) ≤ Py.len posns →
  self.(readcas.Nions) ≤ Py.len self.(readcas.elems) →
  readcas.find_match self posns posn elem found
  = Ok (match last (candidates self posns posn elem) with
        | Some i => (Some i, posstring <$> posns !! Z.to_nat i)
        | None => found
        end).
Proof.
  intros Hrows Helems. unfold readcas.find_match, candidates.
  apply for_fold_match_step.
  eapply Forall_impl; [apply range_bounds|]. cbn. lia.
Qed.

Lemma flush_record_no_match (self : readcas.t) st st1 :
  no_stale_match st → readcas.flush_record self st = Ok st1 →
  st1.(readcas.matchindex) = None.
Proof.
  unfold no_stale_match, readcas.flush_record. intros Hinv.
  destruct (readcas.posn st) as [p|].
  - run. destruct (readcas.matchindex st) as [i|]; [|discriminate].
    destruct (Py.index _ i); [|discriminate].
    destruct (readcas.poskey st); [|discriminate]. by intros [= <-].
  - intros [= <-]. auto.
Qed.

Lemma mix_block_after (self : readcas.t) posns rest rows :
  ∀ st st', after_rows self posns rows st = Some st' →
  readcas.mix_block self posns (rows ++ rest)%list st
  = readcas.mix_block self posns rest st'.
Proof.
  induction rows as [|line rows IH]; intros st st'; cbn [after_rows app].
  - by intros [= <-].
  - cbn [readcas.mix_block]. destruct (Py.split line) as [|tok toks];
      [discriminate|].
    destruct (String.eqb tok "x"); [|discriminate].
    destruct (readcas.mix_row self posns (tok :: toks) st) as [mk [st1|e]];
      cbn [snd]; [apply IH|discriminate].
Qed.

(** C3, as the code has it.  On an 8-token row of the mixture block,
    read after any open record was flushed: when no atom has the row's
    element within the tolerance of the row's position, the row fails
    with [KeyError]; otherwise the last such atom in atom order (the
    highest index) becomes the matched index and its own position gives
    the key.  The [KeyError] of an unmatched row is not among the
    exceptions [get_mixkey] catches: when the loop reaches such a row,
    [get_mixkey] itself fails with [KeyError]. *)
Theorem mix_row_resolves (self : readcas.t) (posns : list (list float))
    (st st1 : readcas.mixstate) (t0 t1 u v w elem wt t7 : string)
    (pu pv pw : float) :
  py_float u = Some pu → py_float v = Some pv → py_float w = Some pw →
  no_stale_match st →
  readcas.flush_record self st = Ok st1 →
  self.(readcas.Nions) ≤ Py.len posns →
  self.(readcas.Nions) ≤ Py.len self.(readcas.elems) →
  (candidates self posns [pu; pv; pw] elem = [] →
   (readcas.mix_row self posns [t0; t1; u; v; w; elem; wt; t7] st).2
   = Raise KeyError)
  ∧ (∀ i x, last (candidates self posns [pu; pv; pw] elem) = Some i →
     py_float wt = Some x →
     row_match
       (readcas.mix_row self posns [t0; t1; u; v; w; elem; wt; t7] st).2
     = Ok (Some i, posstring <$> posns !! Z.to_nat i))
  ∧ (∀ iteration nmin nmax mk0 lmix rows line rest,
       candidates self posns [pu; pv; pw] elem = [] →
       readcas.get_posns self iteration = Ok posns →
       readcas.window self iteration = Ok (nmin, nmax) →
       readcas.default_mixkey self posns = Ok mk0 →
       stri.strindex self.(readcas.caslines) ["Mixture"] false nmin
         (Some nmax) = Ok lmix →
       drop (Z.to_nat (lmix + 3)) self.(readcas.caslines)
       = (rows ++ line :: rest)%list →
       after_rows self posns rows
         {| readcas.mixkey := mk0; readcas.wts := ∅;
            readcas.matchindex := None; readcas.posn := None;
            readcas.poskey := None |} = Some st →
       Py.split line = [t0; t1; u; v; w; elem; wt; t7] → t0 = "x" →
       readcas.get_mixkey self iteration = Raise KeyError).
Proof.
  intros Hu Hv Hw Hinv Hflush Hrows Helems.
  pose proof (flush_record_no_match self st st1 Hinv Hflush) as Hnone.
  assert (Hrow : (readcas.mix_row self posns
                    [t0; t1; u; v; w; elem; wt; t7] st).2
    = ('(mi, pk) ← readcas.find_match self posns [pu; pv; pw] elem
                     (None, st1.(readcas.poskey));
       match mi with
       | None => Raise KeyError
       | Some _ =>
           w' ← float_ wt;
           Ok {| readcas.mixkey := st1.(readcas.mixkey);
                 readcas.wts := <[elem := w']> st1.(readcas.wts);
                 readcas.matchindex := mi;
                 readcas.posn := Some [pu; pv; pw];
                 readcas.poskey := pk |}
       end)).
  { unfold readcas.mix_row.
    change (Py.len [t0; t1; u; v; w; elem; wt; t7] =? 8) with true.
    cbv iota. rewrite Hflush. cbn [snd].
    change (Py.slice [t0; t1; u; v; w; elem; wt; t7] (Some 2) (Some 5))
      with [u; v; w].
    change (Py.index [t0; t1; u; v; w; elem; wt; t7] 5) with (Ok elem).
    change (Py.index [t0; t1; u; v; w; elem; wt; t7] 6) with (Ok wt).
    cbn [for_each].
    rewrite (float_some _ _ Hu), (float_some _ _ Hv), (float_some _ _ Hw).
    rewrite Hnone. reflexivity. }
  assert (Hfail : candidates self posns [pu; pv; pw] elem = [] →
            (readcas.mix_row self posns
               [t0; t1; u; v; w; elem; wt; t7] st).2 = Raise KeyError).
  { rewrite Hrow, find_match_last by done. intros ->. reflexivity. }
  split; [exact Hfail|]. split.
  - rewrite Hrow, find_match_last by done.
    intros i x -> Hx. run. rewrite (float_some _ _ Hx). reflexivity.
  - intros iteration nmin nmax mk0 lmix rows line rest Hcand Hposns Hwin
      Hdef Hmix Hdrop Hafter Hsplit ->.
    specialize (Hfail Hcand). unfold readcas.get_mixkey.
    rewrite Hposns. run. rewrite Hwin, Hdef, Hmix. cbn beta iota.
    rewrite Hdrop, (mix_block_after _ _ _ _ _ _ Hafter).
    cbn [readcas.mix_block]. rewrite Hsplit.
    change (String.eqb "x" "x") with true. cbv iota.
    destruct (readcas.mix_row self posns _ st) as [mk out].
    cbn [snd] in Hfail. rewrite Hfail. reflexivity.
Qed.

(** Rows keep the invariant the theorem asks of the state. *)
Lemma mix_row_no_stale_match (self : readcas.t) posns mixline st st' :
  no_stale_match st →
  (readcas.mix_row self posns mixline st).2 = Ok st' →
  no_stale_match st'.
Proof.
  unfold readcas.mix_row, no_stale_match. intros Hinv.
  destruct (Py.len mixline =? 8).
  - destruct (readcas.flush_record self st) as [st1|]; [|discriminate].
    cbn [snd]. run.
    destruct (for_each _ _); [|discriminate].
    destruct (Py.index mixline 5); [|discriminate].
    destruct (readcas.find_match _ _ _ _ _) as [[mi pk]|]; [|discriminate].
    destruct mi; [|discriminate].
    destruct (Py.index mixline 6); [|discriminate].
    destruct (float_ _); [|discriminate].
    intros [= <-]. discriminate.
  - cbn [snd]. run.
    destruct (Py.index mixline 1); [|discriminate].
    destruct (Py.index mixline 2); [|discriminate].
    destruct (float_ _); [|discriminate].
    intros [= <-]. exact Hinv.
Qed.

End resolver.

Lemma mix_row_resolves_holds :
  candidates (reader single_twins) twins_posns [0; 0; 0]%float "Fe" = [0; 1]
  ∧ row_match (readcas.mix_row (reader single_twins) twins_posns
                 twins_row twins_state).2
    = Ok (Some 1, Some "0.000050 0.000000 0.000000")
  ∧ candidates (reader single_twins) twins_posns [0; 0; 0]%float "Ni" = []
  ∧ (readcas.mix_row (reader single_twins) twins_posns
       ["x"; "1"; "0.000000"; "0.000000"; "0.000000"; "Ni"; "0.3"; "x"]
       twins_state).2 = Raise KeyError
  ∧ readcas.get_mixkey (reader single_unmatched) (Some (-1)) = Raise KeyError.
Proof.
  assert (Hfe : candidates (reader single_twins) twins_posns
                  [0; 0; 0]%float "Fe" = [0; 1]) by (vm_compute; reflexivity).
  assert (Hni : candidates (reader single_twins) twins_posns
                  [0; 0; 0]%float "Ni" = []) by (vm_compute; reflexivity).
  split; [exact Hfe|]. split; [|split; [exact Hni|split]].
  - destruct (mix_row_resolves (H := decimal.numerics)
                (reader single_twins) twins_posns
                twins_state twins_state
                "x" "1" "0.000000" "0.000000" "0.000000" "Fe" "0.700000" "x"
                0%float 0%float 0%float
                ltac:(vm_compute; reflexivity) ltac:(vm_compute; reflexivity)
                ltac:(vm_compute; reflexivity) (fun _ => eq_refl)
                ltac:(vm_compute; reflexivity)
                ltac:(vm_compute; discriminate)
                ltac:(vm_compute; discriminate)) as (_ & Hlast & _).
    apply (Hlast 1 0.7%float); [by rewrite Hfe | reflexivity].
  - destruct (mix_row_resolves (H := decimal.numerics)
                (reader single_twins) twins_posns
                twins_state twins_state
                "x" "1" "0.000000" "0.000000" "0.000000" "Ni" "0.3" "x"
                0%float 0%float 0%float
                ltac:(vm_compute; reflexivity) ltac:(vm_compute; reflexivity)
                ltac:(vm_compute; reflexivity) (fun _ => eq_refl)
                ltac:(vm_compute; reflexivity)
                ltac:(vm_compute; discriminate)
                ltac:(vm_compute; discriminate)) as [Hnone _].
    exact (Hnone Hni).
  - destruct (mix_row_resolves (H := decimal.numerics)
                (reader single_unmatched) twins_posns
                twins_state twins_state
                "x" "1" "0.500000" "0.500000" "0.500000" "Fe" "0.700000" "x"
                0.5%float 0.5%float 0.5%float
                ltac:(vm_compute; reflexivity) ltac:(vm_compute; reflexivity)
                ltac:(vm_compute; reflexivity) (fun _ => eq_refl)
                ltac:(vm_compute; reflexivity)
                ltac:(vm_compute; discriminate)
                ltac:(vm_compute; discriminate)) as (_ & _ & Hfails).
    apply (Hfails (Some (-1)) 0 (Py.len single_unmatched)
             (readcas.mixkey twins_state) 8 []
             (single_unmatched !!! 11%nat) (drop 12 single_unmatched));
      vm_compute; reflexivity.
Defined.

(** C3, as the spec words it, fails on two iron atoms 5e-5 apart with a
    mixture site printed at the first: both are candidates, atom 0 is the
    first, and the row is matched to atom 1.  In the map [get_mixkey]
    returns, the weights are filed under the key of atom 1 and the key
    of atom 0 keeps its default entry. *)
Lemma mix_row_not_first_candidate :
  readcas.get_posns (reader single_twins) (Some (-1)) = Ok twins_posns
  ∧ Py.split (single_twins !!! 11%nat) = twins_row
  ∧ head (candidates (reader single_twins) twins_posns [0; 0; 0]%float "Fe")
    = Some 0
  ∧ row_match (readcas.mix_row (reader single_twins) twins_posns
                 twins_row twins_state).2
    = Ok (Some 1, Some "0.000050 0.000000 0.000000")
  ∧ readcas.get_mixkey (reader single_twins) (Some (-1))
    = Ok {[ "0.000000 0.000000 0.000000" := ("Fe", {[ "Fe" := 1%float ]});
            "0.000050 0.000000 0.000000" :=
              ("Fe", {[ "Fe" := 0.7%float; "Ni" := 0.3%float ]}) ]}.
Proof. repeat split; vm_compute; reflexivity. Qed.

(** * Further properties of the readers *)

(** ** More facts about the built-ins and the locator *)

Lemma index_nonneg {A} (l : list A) (i : Z) (x : A) :
  0 ≤ i → l !! Z.to_nat i = Some x → Py.index l i = Ok x.
Proof.
  intros Hi Hx. assert (Hneg : (i <? 0) = false) by (apply Z.ltb_ge; lia).
  unfold Py.index. cbv zeta. by rewrite Hneg, Hneg, Hx.
Qed.

Lemma index_past {A} (l : list A) (i : Z) :
  Py.len l ≤ i → Py.index l i = Raise IndexError.
Proof.
  unfold Py.len. intros Hi.
  assert (Hneg : (i <? 0) = false) by (apply Z.ltb_ge; lia).
  unfold Py.index. cbv zeta. rewrite Hneg, Hneg.
  by rewrite lookup_ge_None_2 by lia.
Qed.

Lemma index_negative {A} (l : list A) (i : Z) :
  - Py.len l ≤ i < 0 → Py.index l i = Py.index l (i + Py.len l).
Proof.
  intros [Hlo Hhi].
  assert (Hneg : (i <? 0) = true) by (apply Z.ltb_lt; lia).
  assert (Hpos : (i + Py.len l <? 0) = false) by (apply Z.ltb_ge; lia).
  unfold Py.index. cbv zeta. by rewrite Hneg, !Hpos.
Qed.

Lemma strindex_cases lines markers first nmin nmax :
  (∃ i, stri.strindex lines markers first nmin nmax = Ok i)
  ∨ stri.strindex lines markers first nmin nmax = Raise UnboundLocalError.
Proof.
  unfold stri.strindex. destruct (stri.strindices _ _ _ _); eauto.
Qed.

Lemma strindex_found_in markers first nmin nmax pre line post :
  absent markers pre → stri.matches markers line = true →
  nmin ≤ Py.len pre →
  Py.len pre < default (Py.len (pre ++ line :: post)%list) nmax →
  stri.strindex (pre ++ line :: post)%list markers first nmin nmax
  = Ok (Py.len pre).
Proof.
  intros Habs Hline Hlo Hhi. unfold stri.strindex, stri.strindices.
  by rewrite (scan_found _ _ _ _ _ _ Habs Hline) by lia.
Qed.

Lemma scan_bounds markers nmin nmax lines :
  ∀ i, Forall (fun j => i ≤ j ∧ nmin ≤ j < nmax)
         (stri.scan markers nmin nmax i lines).
Proof.
  induction lines as [|line rest IH]; intros i; cbn [stri.scan].
  - constructor.
  - apply Forall_app. split.
    + destruct (Z.leb_spec nmin i), (Z.ltb_spec i nmax),
        (stri.matches markers line); cbn; repeat constructor; lia.
    + eapply Forall_impl; [apply (IH (i + 1))|]. cbn. lia.
Qed.

(** The indices the locator returns are strictly increasing. *)
Lemma scan_increasing markers nmin nmax lines :
  ∀ i (a b : nat) x y,
  stri.scan markers nmin nmax i lines !! a = Some x →
  stri.scan markers nmin nmax i lines !! b = Some y →
  (a < b)%nat → x < y.
Proof.
  induction lines as [|line rest IH]; intros i a b x y; cbn [stri.scan].
  - by rewrite lookup_nil.
  - destruct ((nmin <=? i) && (i <? nmax) && stri.matches markers line).
    + cbn [app]. destruct a as [|a], b as [|b]; cbn; try lia.
      * intros [= <-] Hy _.
        pose proof (scan_bounds markers nmin nmax rest (i + 1)) as Hb.
        rewrite Forall_lookup in Hb. specialize (Hb _ _ Hy). lia.
      * intros Hx Hy Hab. apply (IH (i + 1) a b); [done..|lia].
    + cbn [app]. apply IH.
Qed.

(** ** More of the iteration segmenter *)

(** X1. When the segmenter finds exactly [Niterations] finish lines, a
    negative iteration index addresses the same window as the index
    counted from the front: [geomrange(it) = geomrange(it + Niterations)]
    for [-Niterations <= it < 0]. *)
Theorem geomrange_negative_index (self : readcas.t) (it nmin : Z)
    (nmax : option Z) :
  Py.len (stri.strindices self.(readcas.caslines) ["finished iteration"]
            nmin (Some (default self.(readcas.Nlines) nmax)))
  = self.(readcas.Niterations) →
  - self.(readcas.Niterations) ≤ it < 0 →
  readcas.geomrange self (Some it) nmin nmax
  = readcas.geomrange self (Some (it + self.(readcas.Niterations))) nmin nmax.
Proof.
  intros HF [Hlo Hhi]. unfold readcas.geomrange. cbv zeta.
  set (N := readcas.Niterations self) in *.
  set (F := stri.strindices _ _ _ _) in *.
  replace (Z.abs it >? N) with false
    by (symmetry; rewrite Z.gtb_ltb; apply Z.ltb_ge; lia).
  replace (it =? N) with false by (symmetry; apply Z.eqb_neq; lia).
  replace (Z.abs (it + N) >? N) with false
    by (symmetry; rewrite Z.gtb_ltb; apply Z.ltb_ge; lia).
  replace (it + N =? N) with false by (symmetry; apply Z.eqb_neq; lia).
  replace (it =? 0) with false by (symmetry; apply Z.eqb_neq; lia).
  replace (it + N =? - N) with false by (symmetry; apply Z.eqb_neq; lia).
  cbn [orb]. destruct (Z.eqb_spec it (- N)) as [->|Hne].
  - by replace (- N + N =? 0) with true by (symmetry; apply Z.eqb_eq; lia).
  - replace (it + N =? 0) with false by (symmetry; apply Z.eqb_neq; lia).
    rewrite (index_negative F (it - 1)), (index_negative F it) by lia.
    rewrite HF. by replace (it - 1 + N) with (it + N - 1) by lia.
Qed.

Lemma geomrange_negative_index_holds :
  readcas.geomrange (reader geom_frozen) (Some (-1)) 0 None = Ok (14, 21)
  ∧ readcas.geomrange (reader geom_frozen) (Some (-2)) 0 None = Ok (0, 14).
Proof.
  split.
  - rewrite (geomrange_negative_index (reader geom_frozen) (-1) 0 None).
    + reflexivity.
    + reflexivity.
    + vm_compute. split; [discriminate | reflexivity].
  - rewrite (geomrange_negative_index (reader geom_frozen) (-2) 0 None).
    + reflexivity.
    + reflexivity.
    + vm_compute. split; [discriminate | reflexivity].
Defined.

(** X2. Consecutive windows tile and are ordered: for [0 <= it] with
    [it + 1] below both [Niterations] and the number of finish lines,
    [geomrange(it)] and [geomrange(it + 1)] return [(a, b)] and [(b, c)]
    with [b < c], both finish lines inside the searched range. *)
Theorem geomrange_consecutive (self : readcas.t) (it nmin : Z)
    (nmax : option Z) :
  0 ≤ it →
  it + 1 < self.(readcas.Niterations) →
  it + 1 < Py.len (stri.strindices self.(readcas.caslines)
                     ["finished iteration"] nmin
                     (Some (default self.(readcas.Nlines) nmax))) →
  ∃ a b c,
    readcas.geomrange self (Some it) nmin nmax = Ok (a, b)
    ∧ readcas.geomrange self (Some (it + 1)) nmin nmax = Ok (b, c)
    ∧ b < c ∧ nmin ≤ b ∧ c < default self.(readcas.Nlines) nmax.
Proof.
  intros Hit HN HF.
  set (N := readcas.Niterations self) in *.
  set (hi := default (readcas.Nlines self) nmax) in *.
  set (F := stri.strindices _ _ _ _) in *.
  destruct (index_in_range F it) as (b & Hb & Hb'); [lia|].
  destruct (index_in_range F (it + 1)) as (c & Hc & Hc'); [lia|].
  assert (Hbc : b < c).
  { unfold F, stri.strindices in Hb, Hc.
    eapply scan_increasing; [exact Hb | exact Hc | lia]. }
  assert (Hbounds : nmin ≤ b ∧ c < hi).
  { pose proof (scan_bounds ["finished iteration"] nmin hi
                  (readcas.caslines self) 0) as HB.
    rewrite Forall_lookup in HB. unfold F, stri.strindices in Hb, Hc.
    cbn [default] in Hb, Hc.
    pose proof (HB _ _ Hb). pose proof (HB _ _ Hc). lia. }
  assert (Hnext : readcas.geomrange self (Some (it + 1)) nmin nmax
                  = Ok (b, c)).
  { unfold readcas.geomrange. cbv zeta. fold N hi F.
    replace (Z.abs (it + 1) >? N) with false
      by (symmetry; rewrite Z.gtb_ltb; apply Z.ltb_ge; lia).
    replace (it + 1 =? N) with false by (symmetry; apply Z.eqb_neq; lia).
    replace (it + 1 =? 0) with false by (symmetry; apply Z.eqb_neq; lia).
    replace (it + 1 =? - N) with false by (symmetry; apply Z.eqb_neq; lia).
    cbn [orb]. replace (it + 1 - 1) with it by lia.
    by rewrite Hb', Hc'. }
  destruct (Z.eqb_spec it 0) as [->|Hne].
  - exists nmin, b, c. split; [|auto].
    unfold readcas.geomrange, stri.strindex. cbv zeta. fold N hi F.
    replace (Z.abs 0 >? N) with false
      by (symmetry; rewrite Z.gtb_ltb; apply Z.ltb_ge; lia).
    replace (0 =? N) with false by (symmetry; apply Z.eqb_neq; lia).
    cbn [orb Z.eqb]. destruct F as [|f0 F']; [discriminate|].
    cbn in Hb. by injection Hb as ->.
  - destruct (index_in_range F (it - 1)) as (a & Ha & Ha'); [lia|].
    exists a, b, c. split; [|auto].
    unfold readcas.geomrange. cbv zeta. fold N hi F.
    replace (Z.abs it >? N) with false
      by (symmetry; rewrite Z.gtb_ltb; apply Z.ltb_ge; lia).
    replace (it =? N) with false by (symmetry; apply Z.eqb_neq; lia).
    replace (it =? 0) with false by (symmetry; apply Z.eqb_neq; lia).
    replace (it =? - N) with false by (symmetry; apply Z.eqb_neq; lia).
    cbn [orb]. by rewrite Ha', Hb'.
Qed.

Lemma geomrange_consecutive_holds :
  ∃ a b c,
    readcas.geomrange (reader geom_frozen) (Some 0) 0 None = Ok (a, b)
    ∧ readcas.geomrange (reader geom_frozen) (Some 1) 0 None = Ok (b, c)
    ∧ b < c ∧ 0 ≤ b ∧ c < 23.
Proof.
  apply (geomrange_consecutive (reader geom_frozen) 0 0 None);
    vm_compute; first [reflexivity | discriminate].
Defined.

(** ** Energy *)

Section energy.
Context `{Numerics}.

Lemma window_single (self : readcas.t) (iteration : option Z) :
  self.(readcas.task) = "single" →
  readcas.window self iteration = Ok (0, self.(readcas.Nlines)).
Proof. intros Htask. unfold readcas.window. by rewrite Htask. Qed.

Lemma get_energy_unfold (self : readcas.t) (iteration : option Z) :
  self.(readcas.task) = "single" → self.(readcas.Niterations) ≠ 0 →
  readcas.get_energy self iteration
  = try_except
      (lenergy ← stri.strindex self.(readcas.caslines) ["Final energy, E"]
                   false 0 (Some self.(readcas.Nlines));
       line ← Py.index self.(readcas.caslines) lenergy;
       tok ← Py.index (Py.split line) 4;
       float_ tok)
      [UnboundLocalError]
      (lenergy ← stri.strindex self.(readcas.caslines) ["Final energy ="]
                   false 0 (Some self.(readcas.Nlines));
       line ← Py.index self.(readcas.caslines) lenergy;
       tok ← Py.index (Py.split line) 3;
       float_ tok).
Proof.
  intros Htask Hn. unfold readcas.get_energy.
  rewrite window_single by done. apply Z.eqb_neq in Hn. by rewrite Hn.
Qed.

Lemma try_except_unbound {A B} (f : A → result B) (handler : result B) :
  try_except (Raise UnboundLocalError ≫= f) [UnboundLocalError] handler
  = handler.
Proof. reflexivity. Qed.

Lemma float_raises (tok : string) :
  (∃ x, float_ tok = Ok x) ∨ float_ tok = Raise ValueError.
Proof. unfold float_. destruct (py_float tok); eauto. Qed.

Lemma index_raises {A} (l : list A) (i : Z) :
  (∃ x, Py.index l i = Ok x) ∨ Py.index l i = Raise IndexError.
Proof.
  unfold Py.index. cbv zeta. destruct (_ <? 0); [eauto|].
  destruct (l !! _); eauto.
Qed.

(** X3. On a Single-task report with a completed calculation, the first
    line that contains [Final energy, E] decides [get_energy]: the result
    is [float] of its token 4, or the [IndexError] or [ValueError] of
    reading it.  Lines with [Final energy =] are not consulted. *)
Theorem get_energy_primary (self : readcas.t) (iteration : option Z)
    (pre post : list string) (line : string) :
  self.(readcas.task) = "single" →
  self.(readcas.Niterations) ≠ 0 →
  self.(readcas.Nlines) = Py.len self.(readcas.caslines) →
  self.(readcas.caslines) = (pre ++ line :: post)%list →
  absent ["Final energy, E"] pre →
  Py.contains "Final energy, E" line = true →
  readcas.get_energy self iteration
  = (tok ← Py.index (Py.split line) 4; float_ tok).
Proof.
  intros Htask Hn Hlen Hlines Hpre Hline.
  rewrite get_energy_unfold by done. rewrite Hlen, Hlines.
  rewrite strindex_found_in; [|done|by rewrite matches_single|..].
  - run. rewrite index_middle.
    destruct (index_raises (Py.split line) 4) as [[tok ->]| ->]; [|done].
    by destruct (float_raises tok) as [[x ->]| ->].
  - unfold Py.len. lia.
  - cbn [default]. unfold Py.len. rewrite length_app. cbn. lia.
Qed.

(** X4. When no line contains [Final energy, E], the first line that
    contains [Final energy =] decides [get_energy] through its token 3. *)
Theorem get_energy_fallback (self : readcas.t) (iteration : option Z)
    (pre post : list string) (line : string) :
  self.(readcas.task) = "single" →
  self.(readcas.Niterations) ≠ 0 →
  self.(readcas.Nlines) = Py.len self.(readcas.caslines) →
  absent ["Final energy, E"] self.(readcas.caslines) →
  self.(readcas.caslines) = (pre ++ line :: post)%list →
  absent ["Final energy ="] pre →
  Py.contains "Final energy =" line = true →
  readcas.get_energy self iteration
  = (tok ← Py.index (Py.split line) 3; float_ tok).
Proof.
  intros Htask Hn Hlen Hnone Hlines Hpre Hline.
  rewrite get_energy_unfold by done.
  rewrite (strindex_absent _ _ _ _ _ Hnone), try_except_unbound.
  rewrite Hlen, Hlines.
  rewrite strindex_found_in; [|done|by rewrite matches_single|..].
  - run. by rewrite index_middle.
  - unfold Py.len. lia.
  - cbn [default]. unfold Py.len. rewrite length_app. cbn. lia.
Qed.

(** X5. When neither energy anchor is in the report, [get_energy] fails
    with [UnboundLocalError]. *)
Theorem get_energy_absent (self : readcas.t) (iteration : option Z) :
  self.(readcas.task) = "single" →
  self.(readcas.Niterations) ≠ 0 →
  absent ["Final energy, E"] self.(readcas.caslines) →
  absent ["Final energy ="] self.(readcas.caslines) →
  readcas.get_energy self iteration = Raise UnboundLocalError.
Proof.
  intros Htask Hn Hprimary Hfallback.
  rewrite get_energy_unfold by done.
  by rewrite (strindex_absent _ _ _ _ _ Hprimary),
       (strindex_absent _ _ _ _ _ Hfallback).
Qed.

End energy.

Lemma get_energy_primary_holds :
  readcas.get_energy (reader single_full) None = Ok (-855.4591023)%float.
Proof.
  rewrite (get_energy_primary (reader single_full) None
             (take 17 single_full) (drop 18 single_full)
             (single_full !!! 17%nat));
    first [reflexivity | discriminate | evaluate].
Defined.

Lemma get_energy_fallback_holds :
  readcas.get_energy (reader single_old) None = Ok (-855)%float.
Proof.
  rewrite (get_energy_fallback (reader single_old) None
             (take 16 single_old) (drop 17 single_old)
             (single_old !!! 16%nat));
    first [reflexivity | discriminate | evaluate].
Defined.

Lemma get_energy_absent_holds :
  readcas.get_energy (reader single_complete) None = Raise UnboundLocalError.
Proof.
  apply (get_energy_absent (reader single_complete) None);
    first [reflexivity | discriminate | evaluate].
Defined.

(** ** Pseudopotential tables *)

Lemma drop_past {A} (pre : list A) (x : A) (rest : list A) :
  drop (Z.to_nat (Py.len pre + 1)) (pre ++ x :: rest)%list = rest.
Proof.
  unfold Py.len. replace (Z.to_nat (Z.of_nat (length pre) + 1))
    with (length (pre ++ [x])%list) by (rewrite length_app; cbn; lia).
  by rewrite (cons_middle x pre rest), app_assoc, drop_app_length.
Qed.

Lemma psp_rows_table rows pairs blank post :
  table_rows rows pairs → Py.split blank = [] →
  ∀ m, readcas.psp_rows (rows ++ blank :: post)%list m
       = Ok (foldl (fun m p => <[p.1 := p.2]> m) m pairs).
Proof.
  intros Hrows Hblank. induction Hrows as [|row p rows pairs Hrow _ IH];
    intros m; cbn [app readcas.psp_rows foldl].
  - by rewrite Hblank.
  - rewrite Hrow. cbn. apply IH.
Qed.

Lemma psp_rows_cut rows pairs :
  table_rows rows pairs → ∀ m, readcas.psp_rows rows m = Raise IndexError.
Proof.
  induction 1 as [|row p rows pairs Hrow _ IH]; intros m;
    cbn [readcas.psp_rows].
  - reflexivity.
  - rewrite Hrow. cbn. apply IH.
Qed.

(** X6. [readcas.get_psps] reads the rows under the first
    [Files used for pseudopotentials:] line up to the first blank line,
    one element and one file per row, in order: a later row for the same
    element replaces the earlier one. *)
Theorem get_psps_table (self : readcas.t) (pre rows post : list string)
    (anchor blank : string) (pairs : list (string * string)) :
  self.(readcas.caslines) = (pre ++ anchor :: rows ++ blank :: post)%list →
  absent ["Files used for pseudopotentials:"] pre →
  Py.contains "Files used for pseudopotentials:" anchor = true →
  table_rows rows pairs →
  Py.split blank = [] →
  readcas.get_psps self = Ok (Some (table_of pairs)).
Proof.
  intros Hlines Hpre Hanchor Hrows Hblank. unfold readcas.get_psps.
  rewrite Hlines, strindex_found by (done || by rewrite matches_single).
  run. rewrite drop_past, (psp_rows_table _ _ _ _ Hrows Hblank).
  reflexivity.
Qed.

Lemma get_psps_table_holds :
  readcas.get_psps (reader single_full)
  = Ok (Some {[ "Fe" := "Fe_00.usp"; "Ni" := "Ni_00.usp" ]}).
Proof.
  rewrite (get_psps_table (reader single_full) (take 2 single_full)
             (take 2 (drop 3 single_full)) (drop 6 single_full)
             (single_full !!! 2%nat) (single_full !!! 5%nat)
             [("Fe", "Fe_00.usp"); ("Ni", "Ni_00.usp")]).
  - vm_compute. reflexivity.
  - reflexivity.
  - evaluate.
  - reflexivity.
  - repeat constructor.
  - reflexivity.
Defined.

(** X7. When the rows of the pseudopotential table run to the last line
    of the report, with no blank line after them, [readcas.get_psps]
    fails with [IndexError]; only a missing anchor gives [None]. *)
Theorem get_psps_cut (self : readcas.t) (pre rows : list string)
    (anchor : string) (pairs : list (string * string)) :
  self.(readcas.caslines) = (pre ++ anchor :: rows)%list →
  absent ["Files used for pseudopotentials:"] pre →
  Py.contains "Files used for pseudopotentials:" anchor = true →
  table_rows rows pairs →
  readcas.get_psps self = Raise IndexError.
Proof.
  intros Hlines Hpre Hanchor Hrows. unfold readcas.get_psps.
  rewrite Hlines, strindex_found by (done || by rewrite matches_single).
  run. by rewrite drop_past, (psp_rows_cut _ _ Hrows).
Qed.

Lemma get_psps_cut_holds :
  readcas.init single_cut tol = Ok (reader single_cut)
  ∧ readcas.get_psps (reader single_cut) = Raise IndexError.
Proof.
  split; [reflexivity|].
  apply (get_psps_cut (reader single_cut) (take 11 single_cut)
           (drop 12 single_cut) (single_cut !!! 11%nat)
           [("Fe", "Fe_00.usp")]).
  - reflexivity.
  - evaluate.
  - reflexivity.
  - repeat constructor.
Defined.

Lemma for_fold_table (lines : list string) rows pairs :
  table_rows rows pairs →
  ∀ pfx sfx m, lines = (pfx ++ rows ++ sfx)%list →
  for_fold (fun (pseudos : gmap string string) i =>
              line ← Py.index lines i;
              '(elem, psp) ← Py.unpack2 (Py.split line);
              Ok (<[elem := psp]> pseudos))
    m (seqZ (Py.len pfx) (Py.len rows))
  = Ok (foldl (fun m p => <[p.1 := p.2]> m) m pairs).
Proof.
  induction 1 as [|row p rows pairs Hrow _ IH]; intros pfx sfx m ->.
  - reflexivity.
  - unfold Py.len. cbn [length]. rewrite seqZ_cons by lia.
    cbn [for_fold app]. fold (Py.len pfx). rewrite index_middle. run.
    rewrite Hrow. cbn [Py.unpack2 foldl].
    specialize (IH (pfx ++ [row])%list sfx (<[p.1 := p.2]> m)).
    unfold Py.len in IH. rewrite length_app in IH. cbn [length] in IH.
    replace (Z.succ (Py.len pfx)) with (Z.of_nat (length pfx + 1))
      by (unfold Py.len; lia).
    replace (Z.pred (Z.of_nat (S (length rows))))
      with (Z.of_nat (length rows)) by lia.
    apply IH. by rewrite <- app_assoc.
Qed.

(** X8. [readcell.get_psps] returns [None] when the deck has no
    [species_pot] block, and also when the block is opened and never
    closed: both anchors are looked up inside the same [try]. *)
Theorem get_psps_deck_none (self : readcell.t) :
  absent ["%block species_pot"; "%BLOCK species_pot";
          "%BLOCK SPECIES_POT"] self.(readcell.celllines)
  ∨ absent ["%endblock species_pot"; "%ENDBLOCK species_pot";
            "%ENDBLOCK SPECIES_POT"] self.(readcell.celllines) →
  readcell.get_psps self = Ok None.
Proof.
  intros [Hbegin|Hend]; unfold readcell.get_psps.
  - by rewrite (strindex_absent _ _ _ _ _ Hbegin).
  - destruct (strindex_cases self.(readcell.celllines)
                ["%block species_pot"; "%BLOCK species_pot";
                 "%BLOCK SPECIES_POT"] false 0 None) as [[i ->]| ->];
      [|done].
    run. by rewrite (strindex_absent _ _ _ _ _ Hend).
Qed.

Lemma get_psps_deck_none_holds :
  readcell.get_psps deck_bare = Ok None
  ∧ readcell.get_psps deck_unterminated = Ok None.
Proof.
  split.
  - apply get_psps_deck_none. left. evaluate.
  - apply get_psps_deck_none. right. evaluate.
Defined.

(** X9. [readcell.get_psps] reads the rows between the first
    [species_pot] opening line and the first closing line, one element and
    one file per row, in order. *)
Theorem get_psps_deck_table (self : readcell.t) (pre rows post : list string)
    (opening closing : string) (pairs : list (string * string)) :
  self.(readcell.celllines)
  = (pre ++ opening :: rows ++ closing :: post)%list →
  absent ["%block species_pot"; "%BLOCK species_pot";
          "%BLOCK SPECIES_POT"] pre →
  stri.matches ["%block species_pot"; "%BLOCK species_pot";
                "%BLOCK SPECIES_POT"] opening = true →
  absent ["%endblock species_pot"; "%ENDBLOCK species_pot";
          "%ENDBLOCK SPECIES_POT"] (pre ++ opening :: rows)%list →
  stri.matches ["%endblock species_pot"; "%ENDBLOCK species_pot";
                "%ENDBLOCK SPECIES_POT"] closing = true →
  table_rows rows pairs →
  readcell.get_psps self = Ok (Some (table_of pairs)).
Proof.
  intros Hlines Hpre Hopen Hmid Hclose Hrows. unfold readcell.get_psps.
  rewrite Hlines, (strindex_found _ _ _ _ _ Hpre Hopen). run.
  replace (pre ++ opening :: rows ++ closing :: post)%list
    with ((pre ++ opening :: rows) ++ closing :: post)%list
    by (by rewrite <- app_assoc).
  rewrite (strindex_found _ _ _ _ _ Hmid Hclose). run.
  unfold Py.range2.
  replace (Py.len (pre ++ opening :: rows)%list - (Py.len pre + 1))
    with (Py.len rows)
    by (unfold Py.len; rewrite length_app; cbn [length]; lia).
  replace (Py.len pre + 1) with (Py.len (pre ++ [opening])%list)
    by (unfold Py.len; rewrite length_app; cbn [length]; lia).
  pose proof (for_fold_table ((pre ++ opening :: rows) ++ closing :: post)
                rows pairs Hrows (pre ++ [opening])%list
                (closing :: post) ∅) as Hfold.
  run. rewrite Hfold; [reflexivity|]. by rewrite <- !app_assoc.
Qed.

Lemma get_psps_deck_table_holds :
  readcell.get_psps deck_full
  = Ok (Some {[ "Fe" := "Fe_00.usp"; "Ni" := "Ni_00.usp" ]}).
Proof.
  rewrite (get_psps_deck_table deck_full (take 5 deck_text)
             (take 2 (drop 6 deck_text)) (drop 9 deck_text)
             (deck_text !!! 5%nat) (deck_text !!! 8%nat)
             [("Fe", "Fe_00.usp"); ("Ni", "Ni_00.usp")]).
  - vm_compute. reflexivity.
  - reflexivity.
  - evaluate.
  - reflexivity.
  - evaluate.
  - reflexivity.
  - repeat constructor.
Defined.

(** ** External pressure *)

Lemma slice_middle {A} (pre mid post : list A) :
  Py.slice (pre ++ mid ++ post)%list (Some (Py.len pre))
    (Some (Py.len pre + Py.len mid)) = mid.
Proof.
  unfold Py.slice, Py.clamp, Py.len. cbn [from_option].
  rewrite !length_app.
  replace (Z.of_nat (length pre) <? 0) with false
    by (symmetry; apply Z.ltb_ge; lia).
  replace (Z.of_nat (length pre) + Z.of_nat (length mid) <? 0) with false
    by (symmetry; apply Z.ltb_ge; lia).
  rewrite !Z.min_l by lia.
  replace (Z.to_nat (Z.of_nat (length pre) + Z.of_nat (length mid)
                     - Z.of_nat (length pre))) with (length mid) by lia.
  rewrite Nat2Z.id, drop_app_length. apply take_app_length.
Qed.

Lemma slice_three {A} (pre : list A) (x a b c : A) (post : list A) :
  Py.slice (pre ++ x :: a :: b :: c :: post)%list (Some (Py.len pre + 1))
    (Some (Py.len pre + 4)) = [a; b; c].
Proof.
  pose proof (slice_middle (pre ++ [x])%list [a; b; c] post) as Hmid.
  rewrite <- app_assoc in Hmid. cbn [app] in Hmid.
  unfold Py.len in *. rewrite length_app in Hmid. cbn [length] in Hmid.
  replace (Z.of_nat (length pre + 1)) with (Z.of_nat (length pre) + 1)
    in Hmid by lia.
  replace (Z.of_nat (length pre) + 1 + Z.of_nat 3)
    with (Z.of_nat (length pre) + 4) in Hmid by lia.
  exact Hmid.
Qed.

Section pressure.
Context `{Numerics}.

Lemma voigt_press_block (l0 l1 l2 : string) (xx yy zz yz xz xy : float) :
  pressure_block l0 l1 l2 xx yy zz yz xz xy →
  voigt_press [l0; l1; l2] = Ok [xx; yy; zz; yz; xz; xy].
Proof.
  intros (a & b & c & t0 & d & e & t1 & f & t2 & H0 & H1 & H2
          & Ha & Hb & Hc & Hd & He & Hf).
  unfold voigt_press.
  change (Py.index [l0; l1; l2] 0) with (Ok l0).
  change (Py.index [l0; l1; l2] 1) with (Ok l1).
  change (Py.index [l0; l1; l2] 2) with (Ok l2).
  run. rewrite H0, H1, H2.
  change (Py.index (a :: b :: c :: t0) 0) with (Ok a).
  change (Py.index (a :: b :: c :: t0) 1) with (Ok b).
  change (Py.index (a :: b :: c :: t0) 2) with (Ok c).
  change (Py.index (d :: e :: t1) 0) with (Ok d).
  change (Py.index (d :: e :: t1) 1) with (Ok e).
  change (Py.index (f :: t2) 0) with (Ok f).
  unfold float_. by rewrite Ha, Hb, Hc, Hd, He, Hf.
Qed.

(** X10. [readcas.get_ext_press] reads the three lines under the first
    [External pressure/stress (GPa)] line as the upper triangle of the
    tensor and returns it in Voigt order [xx, yy, zz, yz, xz, xy]. *)
Theorem get_ext_press_voigt (self : readcas.t) (pre post : list string)
    (anchor l0 l1 l2 : string) (xx yy zz yz xz xy : float) :
  self.(readcas.caslines) = (pre ++ anchor :: l0 :: l1 :: l2 :: post)%list →
  absent ["External pressure/stress (GPa)"] pre →
  Py.contains "External pressure/stress (GPa)" anchor = true →
  pressure_block l0 l1 l2 xx yy zz yz xz xy →
  readcas.get_ext_press self = Ok [xx; yy; zz; yz; xz; xy].
Proof.
  intros Hlines Hpre Hanchor Hblock. unfold readcas.get_ext_press.
  rewrite Hlines, strindex_found by (done || by rewrite matches_single).
  run. by rewrite slice_three, (voigt_press_block _ _ _ _ _ _ _ _ _ Hblock).
Qed.

(** X11. [readcell.get_ext_press] reads the same triangle under the
    first [external_pressure] opening line, and skips one line before it
    when that line has a single token (the unit): the result is the same
    with and without the unit line. *)
Theorem get_ext_press_deck (self : readcell.t) (pre units post : list string)
    (opening l0 l1 l2 : string) (xx yy zz yz xz xy : float) :
  self.(readcell.celllines)
  = (pre ++ opening :: units ++ l0 :: l1 :: l2 :: post)%list →
  absent ["%block external_pressure"; "%BLOCK external_pressure";
          "%BLOCK EXTERNAL_PRESSURE"] pre →
  stri.matches ["%block external_pressure"; "%BLOCK external_pressure";
                "%BLOCK EXTERNAL_PRESSURE"] opening = true →
  units = [] ∨ (∃ unit, units = [unit] ∧ Py.len (Py.split unit) = 1) →
  pressure_block l0 l1 l2 xx yy zz yz xz xy →
  readcell.get_ext_press self = Ok [xx; yy; zz; yz; xz; xy].
Proof.
  intros Hlines Hpre Hopen Hunits Hblock. unfold readcell.get_ext_press.
  rewrite Hlines, (strindex_found _ _ _ _ _ Hpre Hopen). run.
  destruct Hunits as [->|(unit & -> & Hunit)]; cbn [app].
  - pose proof (index_middle (pre ++ [opening])%list l0 (l1 :: l2 :: post))
      as Hl0.
    rewrite <- app_assoc in Hl0. cbn [app] in Hl0.
    replace (Py.len (pre ++ [opening])%list) with (Py.len pre + 1) in Hl0
      by (unfold Py.len; rewrite length_app; cbn [length]; lia).
    rewrite Hl0.
    destruct Hblock as (a & b & c & t0 & d & e & t1 & f & t2 & H0 & Hrest).
    replace (Py.len (Py.split l0) =? 1) with false
      by (symmetry; apply Z.eqb_neq; rewrite H0; unfold Py.len;
          cbn [length]; lia).
    rewrite slice_three, (voigt_press_block l0 l1 l2 xx yy zz yz xz xy);
      [done|]. by exists a, b, c, t0, d, e, t1, f, t2.
  - pose proof (index_middle (pre ++ [opening])%list unit
                  (l0 :: l1 :: l2 :: post)) as Hu.
    rewrite <- app_assoc in Hu. cbn [app] in Hu.
    replace (Py.len (pre ++ [opening])%list) with (Py.len pre + 1) in Hu
      by (unfold Py.len; rewrite length_app; cbn [length]; lia).
    rewrite Hu, Hunit. cbn [Z.eqb Pos.eqb].
    pose proof (slice_three (pre ++ [opening])%list unit l0 l1 l2 post)
      as Hslice.
    rewrite <- app_assoc in Hslice. cbn [app] in Hslice.
    replace (Py.len (pre ++ [opening])%list) with (Py.len pre + 1)
      in Hslice
      by (unfold Py.len; rewrite length_app; cbn [length]; lia).
    replace (Py.len pre + 1 + 4) with (Py.len pre + 1 + 1 + 3) by lia.
    replace (Py.len pre + 1 + 1 + 3) with (Py.len pre + 1 + 4) by lia.
    by rewrite Hslice, (voigt_press_block _ _ _ _ _ _ _ _ _ Hblock).
Qed.

(** X12. With no pressure anchor in the report both [get_ext_press]
    return six zeros. *)
Theorem get_ext_press_absent (deck : readcell.t) (log : readcas.t) :
  (absent ["%block external_pressure"; "%BLOCK external_pressure";
           "%BLOCK EXTERNAL_PRESSURE"] deck.(readcell.celllines) →
   readcell.get_ext_press deck = Ok [0; 0; 0; 0; 0; 0]%float)
  ∧ (absent ["External pressure/stress (GPa)"] log.(readcas.caslines) →
     readcas.get_ext_press log = Ok [0; 0; 0; 0; 0; 0]%float).
Proof.
  split; intros Habs.
  - unfold readcell.get_ext_press.
    by rewrite (strindex_absent _ _ _ _ _ Habs).
  - unfold readcas.get_ext_press.
    by rewrite (strindex_absent _ _ _ _ _ Habs).
Qed.

End pressure.

Lemma get_ext_press_voigt_holds :
  readcas.get_ext_press (reader single_full)
  = Ok [1; 2; 3; 0.3; 0.2; 0.1]%float.
Proof.
  apply (get_ext_press_voigt (reader single_full) (take 6 single_full)
           (drop 10 single_full) (single_full !!! 6%nat)
           (single_full !!! 7%nat) (single_full !!! 8%nat)
           (single_full !!! 9%nat)).
  - reflexivity.
  - evaluate.
  - reflexivity.
  - exists "1.000000", "0.100000", "0.200000", [], "2.000000", "0.300000",
      [], "3.000000", []. vm_compute. auto 10.
Defined.

Lemma get_ext_press_deck_holds :
  readcell.get_ext_press deck_full = Ok [1; 2; 3; 0.3; 0.2; 0.1]%float
  ∧ readcell.get_ext_press deck_no_unit = Ok [1; 2; 3; 0.3; 0.2; 0.1]%float.
Proof.
  assert (Hblock : pressure_block (deck_text !!! 11%nat)
                     (deck_text !!! 12%nat) (deck_text !!! 13%nat)
                     1 2 3 0.3 0.2 0.1).
  { exists "1.0", "0.1", "0.2", [], "2.0", "0.3", [], "3.0", [].
    vm_compute. auto 10. }
  split.
  - apply (get_ext_press_deck deck_full (take 9 deck_text)
             [deck_text !!! 10%nat] (drop 14 deck_text)
             (deck_text !!! 9%nat) (deck_text !!! 11%nat)
             (deck_text !!! 12%nat) (deck_text !!! 13%nat)
             1 2 3 0.3 0.2 0.1);
      [reflexivity | evaluate | reflexivity | | exact Hblock].
    right. eexists. split; reflexivity.
  - apply (get_ext_press_deck deck_no_unit (take 9 deck_text)
             [] (drop 14 deck_text)
             (deck_text !!! 9%nat) (deck_text !!! 11%nat)
             (deck_text !!! 12%nat) (deck_text !!! 13%nat)
             1 2 3 0.3 0.2 0.1);
      [reflexivity | evaluate | reflexivity | | exact Hblock].
    by left.
Defined.

Lemma get_ext_press_absent_holds :
  readcell.get_ext_press deck_bare = Ok [0; 0; 0; 0; 0; 0]%float
  ∧ readcas.get_ext_press (reader single_complete)
    = Ok [0; 0; 0; 0; 0; 0]%float.
Proof.
  destruct (get_ext_press_absent deck_bare (reader single_complete))
    as [Hdeck Hlog].
  split; [apply Hdeck | apply Hlog]; evaluate.
Defined.

(** ** Shapes of the arrays *)

Lemma for_each_length {A B} (f : A → result B) (l : list A) (ys : list B) :
  for_each f l = Ok ys → length ys = length l.
Proof.
  revert ys. induction l as [|x l IH]; intros ys; cbn [for_each].
  - by intros [= <-].
  - run. destruct (f x); [|discriminate].
    destruct (for_each f l) as [ys'|]; [|discriminate].
    intros [= <-]. cbn. f_equal. by apply IH.
Qed.

Lemma for_each_Forall {A B} (f : A → result B) (P : B → Prop) (l : list A)
    (ys : list B) :
  (∀ x y, f x = Ok y → P y) → for_each f l = Ok ys → Forall P ys.
Proof.
  intros Hf. revert ys. induction l as [|x l IH]; intros ys; cbn [for_each].
  - intros [= <-]. constructor.
  - run. destruct (f x) as [y|] eqn:Hy; [|discriminate].
    destruct (for_each f l) as [ys'|]; [|discriminate].
    intros [= <-]. constructor; eauto.
Qed.

Lemma set_row3_length (vals row : list float) :
  set_row3 vals = Ok row → length row = 3%nat.
Proof.
  unfold set_row3. destruct vals as [|a [|b [|c [|d vals]]]];
    try discriminate; by intros [= <-].
Qed.

Lemma range_len (n : Z) : Py.len (Py.range n) = Z.max 0 n.
Proof. unfold Py.len, Py.range. rewrite length_fmap, length_seq. lia. Qed.

(** An [n x 3] array. *)
Lemma rows_shape {A} (f : A → result (list float)) (l : list A)
    (M : list (list float)) :
  (∀ x row, f x = Ok row → length row = 3%nat) →
  for_each f l = Ok M →
  Py.len M = Py.len l ∧ Forall (fun row => length row = 3%nat) M.
Proof.
  intros Hf HM. split.
  - unfold Py.len. by rewrite (for_each_length _ _ _ HM).
  - by apply (for_each_Forall f _ l).
Qed.

Lemma bind_inv {A B} (m : result A) (f : A → result B) (y : B) :
  (m ≫= f) = Ok y → ∃ x, m = Ok x ∧ f x = Ok y.
Proof. destruct m as [x|]; [eauto|discriminate]. Qed.

Section shapes.
Context `{Numerics}.

Lemma read_rows_shape (rows : list string) (n lo hi : Z)
    (M : list (list float)) :
  readcas.read_rows rows n lo hi = Ok M →
  Py.len M = Z.max 0 n ∧ Forall (fun row => length row = 3%nat) M.
Proof.
  unfold readcas.read_rows. intros HM. rewrite <- range_len.
  apply (rows_shape _ _ _) in HM; [done|].
  intros i row Hrow.
  apply bind_inv in Hrow as (line & _ & Hrow).
  apply bind_inv in Hrow as (vals & _ & Hrow).
  by eapply set_row3_length.
Qed.

Lemma get_posns_shape (self : readcas.t) iteration P :
  readcas.get_posns self iteration = Ok P →
  Py.len P = self.(readcas.Nions)
  ∧ Forall (fun row => length row = 3%nat) P.
Proof.
  unfold readcas.get_posns, np_zeros. intros HP.
  destruct (Z.ltb_spec (readcas.Nions self) 0); [discriminate|].
  apply bind_inv in HP as (_ & _ & HP).
  apply bind_inv in HP as ([nmin nmax] & _ & HP).
  apply bind_inv in HP as (lposn & _ & HP).
  apply read_rows_shape in HP as [Hlen Hrows]. split; [lia|done].
Qed.

Lemma get_forces_shape (self : readcas.t) iteration F :
  readcas.get_forces self iteration = Ok F →
  Py.len F = self.(readcas.Nions)
  ∧ Forall (fun row => length row = 3%nat) F.
Proof.
  unfold readcas.get_forces, np_zeros. intros HF.
  destruct (Z.ltb_spec (readcas.Nions self) 0); [discriminate|].
  apply bind_inv in HF as (_ & _ & HF).
  destruct (readcas.Niterations self =? 0); [discriminate|].
  apply bind_inv in HF as ([nmin nmax] & _ & HF).
  apply bind_inv in HF as (lforce & _ & HF).
  apply (rows_shape _ _ _) in HF.
  - rewrite range_len in HF. destruct HF. split; [lia|done].
  - intros i row Hrow.
    apply bind_inv in Hrow as (line & _ & Hrow).
    apply bind_inv in Hrow as (vals & _ & Hrow).
    by eapply set_row3_length.
Qed.

Lemma get_cell_shape (self : readcas.t) iteration C :
  readcas.get_cell self iteration = Ok C →
  Py.len C = 3 ∧ Forall (fun row => length row = 3%nat) C.
Proof.
  unfold readcas.get_cell. intros HC.
  apply bind_inv in HC as ([nmin nmax] & _ & HC).
  apply bind_inv in HC as (lcell & _ & HC).
  by apply read_rows_shape in HC.
Qed.

Lemma get_stresses_shape (self : readcas.t) iteration S :
  readcas.get_stresses self iteration = Ok S →
  Py.len S = 3 ∧ Forall (fun row => length row = 3%nat) S.
Proof.
  unfold readcas.get_stresses. intros HS.
  destruct (readcas.Niterations self =? 0); [discriminate|].
  apply bind_inv in HS as ([nmin nmax] & _ & HS).
  apply bind_inv in HS as (lstress & _ & HS).
  by apply read_rows_shape in HS.
Qed.

(** X13. What each array extractor returns has the shape the caller
    expects, whether or not the others return: [get_posns] and
    [get_forces] give [Nions] rows of three values, [get_cell] and
    [get_stresses] three rows of three. *)
Theorem extractor_shapes (self : readcas.t) (iteration : option Z) :
  (∀ P, readcas.get_posns self iteration = Ok P →
        Py.len P = self.(readcas.Nions)
        ∧ Forall (fun row => length row = 3%nat) P)
  ∧ (∀ F, readcas.get_forces self iteration = Ok F →
          Py.len F = self.(readcas.Nions)
          ∧ Forall (fun row => length row = 3%nat) F)
  ∧ (∀ C, readcas.get_cell self iteration = Ok C →
          Py.len C = 3 ∧ Forall (fun row => length row = 3%nat) C)
  ∧ (∀ S, readcas.get_stresses self iteration = Ok S →
          Py.len S = 3 ∧ Forall (fun row => length row = 3%nat) S).
Proof.
  split; [|split; [|split]]; intros M HM.
  - by eapply get_posns_shape.
  - by eapply get_forces_shape.
  - by eapply get_cell_shape.
  - by eapply get_stresses_shape.
Qed.

End shapes.

Lemma extractor_shapes_holds :
  ((Py.len [[0; 0; 0]; [0.5; 0.5; 0.5]]%float
    = (reader single_all).(readcas.Nions)
    ∧ Forall (fun row => length row = 3%nat)
        [[0; 0; 0]; [0.5; 0.5; 0.5]]%float)
   ∧ (Py.len [[3; 0; 4]; [0; 1; 0]]%float = (reader single_all).(readcas.Nions)
      ∧ Forall (fun row => length row = 3%nat) [[3; 0; 4]; [0; 1; 0]]%float)
   ∧ (Py.len [[4; 0; 0]; [0; 4; 0]; [0; 0; 6]]%float = 3
      ∧ Forall (fun row => length row = 3%nat)
          [[4; 0; 0]; [0; 4; 0]; [0; 0; 6]]%float)
   ∧ (Py.len [[1; 0; 0]; [0; 2; 0]; [0; 0; 3]]%float = 3
      ∧ Forall (fun row => length row = 3%nat)
          [[1; 0; 0]; [0; 2; 0]; [0; 0; 3]]%float))
  ∧ (¬ returns (readcas.get_forces (reader single_complete) None)
     ∧ ¬ returns (readcas.get_stresses (reader single_complete) None)
     ∧ (Py.len [[0; 0; 0]]%float = (reader single_complete).(readcas.Nions)
        ∧ Forall (fun row => length row = 3%nat) [[0; 0; 0]]%float)
     ∧ (Py.len [[4; 0; 0]; [0; 4; 0]; [0; 0; 6]]%float = 3
        ∧ Forall (fun row => length row = 3%nat)
            [[4; 0; 0]; [0; 4; 0]; [0; 0; 6]]%float)).
Proof.
  destruct (extractor_shapes (H := decimal.numerics) (reader single_all) None)
    as (HP & HF & HC & HS).
  destruct (extractor_shapes (H := decimal.numerics)
              (reader single_complete) None) as (HP' & _ & HC' & _).
  split; [split; [|split; [|split]]|split; [|split; [|split]]].
  - apply HP. vm_compute. reflexivity.
  - apply HF. vm_compute. reflexivity.
  - apply HC. vm_compute. reflexivity.
  - apply HS. vm_compute. reflexivity.
  - intros [F HF']. vm_compute in HF'. discriminate.
  - intros [S HS']. vm_compute in HS'. discriminate.
  - apply HP'. vm_compute. reflexivity.
  - apply HC'. vm_compute. reflexivity.
Defined.

(** ** Static calculations *)

Section single.
Context `{Numerics}.

(** X14. On a Single-task report every extractor reads the whole report
    and ignores its iteration argument. *)
Theorem single_ignores_iteration (self : readcas.t) (it it' : option Z) :
  self.(readcas.task) = "single" →
  readcas.get_posns self it = readcas.get_posns self it'
  ∧ readcas.get_cell self it = readcas.get_cell self it'
  ∧ readcas.get_energy self it = readcas.get_energy self it'
  ∧ readcas.get_forces self it = readcas.get_forces self it'
  ∧ readcas.get_stresses self it = readcas.get_stresses self it'
  ∧ readcas.get_mixkey self it = readcas.get_mixkey self it'.
Proof.
  intros Htask.
  assert (Hposns : readcas.get_posns self it = readcas.get_posns self it').
  { unfold readcas.get_posns. by rewrite !window_single. }
  repeat split.
  - exact Hposns.
  - unfold readcas.get_cell. by rewrite Htask.
  - unfold readcas.get_energy. by rewrite !window_single.
  - unfold readcas.get_forces. by rewrite !window_single.
  - unfold readcas.get_stresses. by rewrite !window_single.
  - unfold readcas.get_mixkey. by rewrite Hposns, !window_single.
Qed.

End single.

Lemma single_ignores_iteration_holds :
  readcas.get_posns (reader single_all) (Some 7)
  = readcas.get_posns (reader single_all) None
  ∧ readcas.get_cell (reader single_all) (Some 7)
    = readcas.get_cell (reader single_all) None
  ∧ readcas.get_energy (reader single_all) (Some 7)
    = readcas.get_energy (reader single_all) None
  ∧ readcas.get_forces (reader single_all) (Some 7)
    = readcas.get_forces (reader single_all) None
  ∧ readcas.get_stresses (reader single_all) (Some 7)
    = readcas.get_stresses (reader single_all) None
  ∧ readcas.get_mixkey (reader single_all) (Some 7)
    = readcas.get_mixkey (reader single_all) None.
Proof.
  apply (single_ignores_iteration (reader single_all) (Some 7) None).
  reflexivity.
Defined.

(** ** What a reader holds after [__init__] *)

Lemma scan_nil_absent markers lines :
  ∀ i, stri.scan markers 0 (i + Py.len lines) i lines = [] → 0 ≤ i →
  absent markers lines.
Proof.
  unfold absent, Py.len.
  induction lines as [|line rest IH]; intros i Hscan Hi; [constructor|].
  cbn [stri.scan length] in Hscan.
  replace (0 <=? i) with true in Hscan by (symmetry; apply Z.leb_le; lia).
  replace (i <? i + Z.of_nat (S (length rest))) with true in Hscan
    by (symmetry; apply Z.ltb_lt; lia).
  cbn [andb] in Hscan. destruct (stri.matches markers line) eqn:Hline.
  - discriminate.
  - constructor; [done|]. apply (IH (i + 1)); [|lia].
    replace (i + 1 + Z.of_nat (length rest))
      with (i + Z.of_nat (S (length rest))) by lia. exact Hscan.
Qed.

Lemma check_complete_false lines :
  readcas.check_complete lines = false ↔ absent ["Total time          ="] lines.
Proof.
  unfold readcas.check_complete. split.
  - unfold stri.strindex, stri.strindices. cbn [default].
    destruct (stri.scan _ _ _ _ _) eqn:Hscan; [|discriminate].
    intros _. by apply (scan_nil_absent _ _ 0).
  - intros Habs. by rewrite (strindex_absent _ _ _ _ _ Habs).
Qed.

Lemma slice_length_le {A} (l : list A) (lo n : Z) :
  0 ≤ lo → 0 ≤ n →
  Py.len (Py.slice l (Some lo) (Some (lo + n))) ≤ n.
Proof.
  intros Hlo Hn. unfold Py.slice, Py.clamp, Py.len. cbn [from_option].
  replace (lo <? 0) with false by (symmetry; apply Z.ltb_ge; lia).
  replace (lo + n <? 0) with false by (symmetry; apply Z.ltb_ge; lia).
  rewrite length_take. lia.
Qed.

Lemma strindex_nonneg lines markers first nmax i :
  stri.strindex lines markers first 0 nmax = Ok i → 0 ≤ i.
Proof.
  unfold stri.strindex, stri.strindices.
  pose proof (scan_bounds markers 0 (default (Py.len lines) nmax) lines 0)
    as Hb.
  destruct (stri.scan _ _ _ _ _) as [|j l]; [discriminate|].
  intros [= <-]. by apply Forall_cons in Hb as [[? _] _].
Qed.

(** X15. A reader that [__init__] builds holds the lines it was given and
    their count, a task that is [single] or [geometry], a completion flag
    that is false exactly when no line contains the total-time marker, an
    iteration count that is not negative (0 or 1 on a Single task), and
    no more elements than a non-negative ion count. *)
Theorem init_invariants (lines : list string) (flttol : float)
    (r : readcas.t) :
  readcas.init lines flttol = Ok r →
  r.(readcas.caslines) = lines
  ∧ r.(readcas.Nlines) = Py.len lines
  ∧ r.(readcas.flttol) = flttol
  ∧ (r.(readcas.task) = "single" ∨ r.(readcas.task) = "geometry")
  ∧ (r.(readcas.complete) = false
     ↔ absent ["Total time          ="] lines)
  ∧ 0 ≤ r.(readcas.Niterations)
  ∧ (r.(readcas.task) = "single" →
     r.(readcas.Niterations) = if r.(readcas.complete) then 1 else 0)
  ∧ (0 ≤ r.(readcas.Nions) → Py.len r.(readcas.elems) ≤ r.(readcas.Nions)).
Proof.
  intros Hinit.
  destruct (init_inv _ _ _ Hinit) as (Hl & Hn & Hc & Ht & Hit & He).
  assert (Htol : r.(readcas.flttol) = flttol).
  { revert Hinit. unfold readcas.init. run.
    destruct (readcas.get_Nions lines) as [n|]; [|discriminate].
    destruct (readcas.get_task lines) as [tk|]; [|discriminate].
    destruct (bool_decide (tk ∈ recognised_tasks)); cbn; [|discriminate].
    destruct (readcas.get_Niterations lines tk _) as [k|]; [|discriminate].
    destruct (readcas.get_elements lines n) as [es|]; [|discriminate].
    by intros [= <-]. }
  assert (Htask : r.(readcas.task) = "single"
                  ∨ r.(readcas.task) = "geometry").
  { unfold recognised_tasks in Ht.
    apply elem_of_cons in Ht as [Ht|Ht]; [by left|].
    apply elem_of_cons in Ht as [Ht|Ht]; [by right|].
    by apply elem_of_nil in Ht. }
  repeat split; try done.
  - rewrite Hc. apply check_complete_false.
  - rewrite Hc. apply check_complete_false.
  - destruct Htask as [Hs|Hg].
    + rewrite Hs, get_Niterations_single in Hit. injection Hit as <-.
      by destruct (readcas.complete r).
    + rewrite Hg, get_Niterations_counts in Hit. injection Hit as <-.
      unfold count_lines, Py.len. lia.
  - intros Hs. rewrite Hs, get_Niterations_single in Hit.
    by injection Hit.
  - intros Hions. unfold readcas.get_elements in He.
    apply bind_inv in He as (lelem & Hlelem & He).
    apply strindex_nonneg in Hlelem.
    apply for_each_length in He.
    pose proof (slice_length_le lines (lelem + 3) (readcas.Nions r)
                  ltac:(lia) Hions) as Hslice.
    unfold Py.len in *. rewrite He.
    by replace (lelem + 3 + readcas.Nions r)
      with (lelem + 3 + readcas.Nions r) in Hslice by lia.
Qed.

Lemma init_invariants_holds :
  (reader geom_frozen).(readcas.caslines) = geom_frozen
  ∧ (reader geom_frozen).(readcas.Nlines) = 23
  ∧ 0 ≤ (reader geom_frozen).(readcas.Niterations)
  ∧ Py.len (reader geom_frozen).(readcas.elems)
    ≤ (reader geom_frozen).(readcas.Nions).
Proof.
  destruct (init_invariants geom_frozen tol (reader geom_frozen))
    as (Hl & Hn & _ & _ & _ & Hit & _ & He); [reflexivity|].
  split; [exact Hl|]. split; [exact Hn|]. split; [exact Hit|].
  apply He. vm_compute. discriminate.
Defined.

(** ** The largest force *)

Lemma fold_max_in (l : list float) (x : float) :
  fold_left (fun m y => if (m <? y)%float then y else m) l x ∈ x :: l.
Proof.
  revert x. induction l as [|y l IH]; intros x; cbn [fold_left].
  - apply list_elem_of_here.
  - destruct (x <? y)%float.
    + apply list_elem_of_further, IH.
    + specialize (IH x). apply elem_of_cons in IH as [->|Hin].
      * apply list_elem_of_here.
      * by do 2 apply list_elem_of_further.
Qed.

Section fmax.
Context `{Numerics} `{RowNorm}.

(** X16. [get_Fmax] fails with [ValueError] when [get_forces] returns no
    rows (a report without ions), and otherwise returns the norm of one
    of the rows of [get_forces]. *)
Theorem get_Fmax_of_forces (self : readcas.t) (iteration : option Z)
    (forces : list (list float)) :
  readcas.get_forces self iteration = Ok forces →
  match forces with
  | [] => readcas.get_Fmax self iteration = Raise ValueError
  | _ => ∃ row, row ∈ forces
           ∧ readcas.get_Fmax self iteration = Ok (norm_axis1 row)
  end.
Proof.
  intros Hforces. unfold readcas.get_Fmax. rewrite Hforces. run.
  destruct forces as [|row0 rest]; [reflexivity|].
  cbn [fmap list_fmap Py.max].
  pose proof (fold_max_in (norm_axis1 <$> rest) (norm_axis1 row0)) as Hin.
  change (norm_axis1 row0 :: (norm_axis1 <$> rest))
    with (norm_axis1 <$> (row0 :: rest)) in Hin.
  apply list_elem_of_fmap in Hin as (row & Hrow & Hin).
  exists row. split; [exact Hin|]. by rewrite Hrow.
Qed.

End fmax.

Lemma get_Fmax_of_forces_holds :
  readcas.get_forces (reader single_all) None
  = Ok [[3; 0; 4]; [0; 1; 0]]%float
  ∧ readcas.get_Fmax (H0 := row_norm) (reader single_all) None = Ok 5%float
  ∧ ∃ row, row ∈ [[3; 0; 4]; [0; 1; 0]]%float
           ∧ readcas.get_Fmax (H0 := row_norm) (reader single_all) None
             = Ok (decimal.norm row).
Proof.
  assert (Hforces : readcas.get_forces (reader single_all) None
                    = Ok [[3; 0; 4]; [0; 1; 0]]%float)
    by (vm_compute; reflexivity).
  split; [exact Hforces|]. split; [vm_compute; reflexivity|].
  exact (get_Fmax_of_forces (H0 := row_norm) (reader single_all) None _
           Hforces).
Defined.

(** ** Position keys *)

(** X17. [pzero] never returns the negative zero: a zero of either sign
    becomes the positive zero and every other value is unchanged. *)
Theorem pzero_not_negative_zero (x : float) :
  pzero x ≠ (- 0)%float
  ∧ ((x =? 0)%float = false → pzero x = x).
Proof.
  unfold pzero. split.
  - destruct (x =? 0)%float eqn:Hx; intros Heq.
    + apply (f_equal (fun y => (1 / y <? 0)%float)) in Heq.
      vm_compute in Heq. discriminate.
    + rewrite Heq in Hx. vm_compute in Hx. discriminate.
  - by intros ->.
Qed.

Lemma pzero_not_negative_zero_holds :
  pzero (- 0)%float = 0%float ∧ pzero 0.25%float = 0.25%float.
Proof.
  split; [reflexivity|].
  apply (pzero_not_negative_zero 0.25%float). reflexivity.
Defined.

(** ** Spin tables *)

Lemma index_last {A} (l : list A) (x : A) :
  last l = Some x → Py.index l (-1) = Ok x.
Proof.
  intros Hlast. rewrite last_lookup in Hlast.
  assert (Hlen : (0 < length l)%nat).
  { apply lookup_lt_Some in Hlast. lia. }
  unfold Py.index, Py.len. cbv zeta.
  change (-1 <? 0) with true. cbv iota.
  replace (-1 + Z.of_nat (length l) <? 0) with false
    by (symmetry; apply Z.ltb_ge; lia).
  replace (Z.to_nat (-1 + Z.of_nat (length l))) with (pred (length l)) by lia.
  by rewrite Hlast.
Qed.

Lemma fill_go (f : Z → result float) (todo : list float) :
  ∀ done : list float,
  (∀ i v, todo !! i = Some v → f (Z.of_nat (length done + i)) = Ok v) →
  for_fold (fun spins i => v ← f i; Ok (<[Z.to_nat i := v]> spins))
    (done ++ replicate (length todo) 0%float)%list
    (Z.of_nat <$> seq (length done) (length todo))
  = Ok (done ++ todo)%list.
Proof.
  induction todo as [|v todo IH]; intros done Hf.
  - cbn. by rewrite !app_nil_r.
  - cbn [length seq fmap list_fmap for_fold replicate].
    pose proof (Hf 0%nat v eq_refl) as Hv. rewrite Nat.add_0_r in Hv.
    rewrite Hv. run. rewrite Nat2Z.id.
    rewrite insert_app_r_alt, Nat.sub_diag by lia. cbn [insert list_insert].
    specialize (IH (done ++ [v])%list).
    rewrite length_app, <- !app_assoc in IH. cbn [length app] in IH.
    replace (length done + 1)%nat with (S (length done)) in IH by lia.
    apply IH. intros i w Hw.
    replace (S (length done) + i)%nat with (length done + S i)%nat by lia.
    by apply Hf.
Qed.

Lemma fill_spins_values (f : Z → result float) (vals : list float) :
  (∀ i v, vals !! i = Some v → f (Z.of_nat i) = Ok v) →
  readcas.fill_spins (Py.replicate 0%float (Py.len vals)) (Py.len vals) f
  = Ok vals.
Proof.
  intros Hf. unfold readcas.fill_spins, Py.replicate, Py.range, Py.len.
  rewrite Nat2Z.id. exact (fill_go f vals [] Hf).
Qed.

Lemma slice_rows {A} (pre rows post : list A) (k : Z) :
  k = Py.len pre →
  Py.slice (pre ++ rows ++ post)%list (Some k) (Some (k + Py.len rows))
  = rows.
Proof. intros ->. apply slice_middle. Qed.

Section spins.
Context `{Numerics}.

(** X18. When the populations table has no spin column (its header has
    neither [spin] nor [Spin]), [get_final_spin] returns [Nions] zeros. *)
Theorem get_final_spin_unpolarised (self : readcas.t)
    (pre post : list string) (anchor l1 header : string) :
  self.(readcas.caslines) = (pre ++ anchor :: l1 :: header :: post)%list →
  absent ["Atomic Populations (Mulliken)"] pre →
  Py.contains "Atomic Populations (Mulliken)" anchor = true →
  Py.contains "spin" header = false →
  Py.contains "Spin" header = false →
  readcas.get_final_spin self
  = Ok (Py.replicate 0%float self.(readcas.Nions)).
Proof.
  intros Hlines Hpre Hanchor Hspin HSpin. unfold readcas.get_final_spin.
  rewrite Hlines, strindex_found by (done || by rewrite matches_single).
  run.
  pose proof (index_middle (pre ++ [anchor; l1])%list header post) as Hh.
  rewrite <- app_assoc in Hh. cbn [app] in Hh.
  replace (Py.len (pre ++ [anchor; l1])%list) with (Py.len pre + 2) in Hh
    by (unfold Py.len; rewrite length_app; cbn [length]; lia).
  by rewrite Hh, Hspin, HSpin.
Qed.

(** X19. When the header of the populations table has a spin column
    whose unit, its last token, is neither [(hbar)] nor [(hbar/2)],
    [get_final_spin] fails with [ValueError]. *)
Theorem get_final_spin_bad_unit (self : readcas.t)
    (pre post : list string) (anchor l1 header unit : string) :
  self.(readcas.caslines) = (pre ++ anchor :: l1 :: header :: post)%list →
  absent ["Atomic Populations (Mulliken)"] pre →
  Py.contains "Atomic Populations (Mulliken)" anchor = true →
  Py.contains "spin" header || Py.contains "Spin" header = true →
  last (Py.split header) = Some unit →
  scale_factor unit = None →
  readcas.get_final_spin self = Raise ValueError.
Proof.
  intros Hlines Hpre Hanchor Hspin Hunit Hscale.
  unfold readcas.get_final_spin.
  rewrite Hlines, strindex_found by (done || by rewrite matches_single).
  run.
  pose proof (index_middle (pre ++ [anchor; l1])%list header post) as Hh.
  rewrite <- app_assoc in Hh. cbn [app] in Hh.
  replace (Py.len (pre ++ [anchor; l1])%list) with (Py.len pre + 2) in Hh
    by (unfold Py.len; rewrite length_app; cbn [length]; lia).
  rewrite Hh, Hspin, (index_last _ _ Hunit).
  unfold scale_factor in Hscale.
  destruct (String.eqb unit "(hbar)"); [discriminate|].
  by destruct (String.eqb unit "(hbar/2)").
Qed.

(** X20. With a spin column in units [(hbar)] or [(hbar/2)],
    [get_final_spin] returns, for each of the [Nions] rows that start
    four lines under the anchor, the last token of the row times 2 or
    times 1. *)
Theorem get_final_spin_scaled (self : readcas.t)
    (pre rows post : list string) (anchor l1 header l3 unit : string)
    (factor : float) (spins : list float) :
  self.(readcas.caslines)
  = (pre ++ anchor :: l1 :: header :: l3 :: rows ++ post)%list →
  Py.len rows = self.(readcas.Nions) →
  absent ["Atomic Populations (Mulliken)"] pre →
  Py.contains "Atomic Populations (Mulliken)" anchor = true →
  Py.contains "spin" header || Py.contains "Spin" header = true →
  last (Py.split header) = Some unit →
  scale_factor unit = Some factor →
  final_spin_rows factor rows spins →
  readcas.get_final_spin self = Ok spins.
Proof.
  intros Hlines Hn Hpre Hanchor Hspin Hunit Hscale Hrows.
  unfold readcas.get_final_spin.
  rewrite Hlines, strindex_found by (done || by rewrite matches_single).
  run.
  pose proof (index_middle (pre ++ [anchor; l1])%list header
                (l3 :: rows ++ post)) as Hh.
  rewrite <- app_assoc in Hh. cbn [app] in Hh.
  replace (Py.len (pre ++ [anchor; l1])%list) with (Py.len pre + 2) in Hh
    by (unfold Py.len; rewrite length_app; cbn [length]; lia).
  rewrite Hh, Hspin, (index_last _ _ Hunit).
  assert (Hfactor : (if String.eqb unit "(hbar)" then Ok 2%float
                     else if String.eqb unit "(hbar/2)" then Ok 1%float
                     else Raise ValueError) = Ok factor).
  { unfold scale_factor in Hscale.
    destruct (String.eqb unit "(hbar)"); [by injection Hscale as <-|].
    destruct (String.eqb unit "(hbar/2)"); [by injection Hscale as <-|].
    discriminate. }
  rewrite Hfactor.
  pose proof (slice_rows (pre ++ [anchor; l1; header; l3])%list rows post
                (Py.len pre + 4)) as Hslice.
  rewrite <- app_assoc in Hslice. cbn [app] in Hslice.
  rewrite Hn in Hslice. rewrite Hslice
    by (unfold Py.len; rewrite length_app; cbn [length]; lia).
  assert (Hlen : Py.len spins = readcas.Nions self).
  { rewrite <- Hn. unfold Py.len. f_equal. symmetry.
    by eapply Forall2_length. }
  rewrite <- Hlen.
  rewrite (fill_spins_values _ spins); [done|]. intros i x Hx.
  destruct (Forall2_lookup_r _ _ _ _ _ Hrows Hx)
    as (row & Hrow & tok & raw & Htok & Hraw & ->).
  rewrite (index_nonneg rows (Z.of_nat i) row) by (lia || by rewrite Nat2Z.id).
  rewrite (index_last _ _ Htok). unfold float_. by rewrite Hraw.
Qed.

(** X21. With an initial-spin table in the report, [get_init_spin]
    returns token 4 of each of the [Nions] rows that start three lines
    under the anchor. *)
Theorem get_init_spin_table (self : readcas.t)
    (pre rows post : list string) (anchor l1 l2 : string)
    (spins : list float) :
  self.(readcas.caslines)
  = (pre ++ anchor :: l1 :: l2 :: rows ++ post)%list →
  Py.len rows = self.(readcas.Nions) →
  absent ["Initial magnetic"] pre →
  Py.contains "Initial magnetic" anchor = true →
  init_spin_rows rows spins →
  readcas.get_init_spin self = Ok spins.
Proof.
  intros Hlines Hn Hpre Hanchor Hrows. unfold readcas.get_init_spin.
  rewrite Hlines, strindex_found by (done || by rewrite matches_single).
  run.
  pose proof (slice_rows (pre ++ [anchor; l1; l2])%list rows post
                (Py.len pre + 3)) as Hslice.
  rewrite <- app_assoc in Hslice. cbn [app] in Hslice.
  rewrite Hn in Hslice. rewrite Hslice
    by (unfold Py.len; rewrite length_app; cbn [length]; lia).
  assert (Hlen : Py.len spins = readcas.Nions self).
  { rewrite <- Hn. unfold Py.len. f_equal. symmetry.
    by eapply Forall2_length. }
  rewrite <- Hlen.
  rewrite (fill_spins_values _ spins); [done|]. intros i x Hx.
  destruct (Forall2_lookup_r _ _ _ _ _ Hrows Hx)
    as (row & Hrow & tok & Htok & Hval).
  rewrite (index_nonneg rows (Z.of_nat i) row) by (lia || by rewrite Nat2Z.id).
  rewrite (index_nonneg _ 4 tok) by (lia || done).
  unfold float_. by rewrite Hval.
Qed.

End spins.

Lemma get_final_spin_unpolarised_holds :
  readcas.get_final_spin (reader single_unpolarised) = Ok [0; 0]%float.
Proof.
  apply (get_final_spin_unpolarised (reader single_unpolarised)
           (take 28 single_unpolarised) (drop 31 single_unpolarised)
           (single_unpolarised !!! 28%nat) (single_unpolarised !!! 29%nat)
           (single_unpolarised !!! 30%nat));
    first [reflexivity | evaluate].
Defined.

Lemma get_final_spin_bad_unit_holds :
  readcas.get_final_spin (reader single_bad_unit) = Raise ValueError.
Proof.
  apply (get_final_spin_bad_unit (reader single_bad_unit)
           (take 28 single_bad_unit) (drop 31 single_bad_unit)
           (single_bad_unit !!! 28%nat) (single_bad_unit !!! 29%nat)
           (single_bad_unit !!! 30%nat) "(hbar/4)");
    first [reflexivity | evaluate].
Defined.

Lemma get_final_spin_scaled_holds :
  readcas.get_final_spin (reader single_spins) = Ok [3; -0.5]%float.
Proof.
  apply (get_final_spin_scaled (reader single_spins)
           (take 34 single_spins) (take 2 (drop 38 single_spins))
           (drop 40 single_spins)
           (single_spins !!! 34%nat) (single_spins !!! 35%nat)
           (single_spins !!! 36%nat) (single_spins !!! 37%nat)
           "(hbar)" 2%float).
  - reflexivity.
  - reflexivity.
  - evaluate.
  - reflexivity.
  - reflexivity.
  - reflexivity.
  - reflexivity.
  - constructor; [|constructor; [|constructor]].
    + exists "1.50", 1.5%float. vm_compute. auto.
    + exists "-0.25", (-0.25)%float. vm_compute. auto.
Defined.

Lemma get_init_spin_table_holds :
  readcas.get_init_spin (reader single_spins) = Ok [2; -1]%float.
Proof.
  apply (get_init_spin_table (reader single_spins)
           (take 28 single_spins) (take 2 (drop 31 single_spins))
           (drop 33 single_spins)
           (single_spins !!! 28%nat) (single_spins !!! 29%nat)
           (single_spins !!! 30%nat)).
  - reflexivity.
  - reflexivity.
  - evaluate.
  - reflexivity.
  - constructor; [|constructor; [|constructor]].
    + exists "2.000". vm_compute. auto.
    + exists "-1.000". vm_compute. auto.
Defined.

(** ** What the mixed-site resolver keeps *)

Lemma sites_wf_insert D mk k e w :
  sites_wf D mk → k ∈ D → is_Some (w !! e) →
  sites_wf D (<[k := (e, w)]> mk).
Proof.
  intros [Hdom Hrep] Hk He. split.
  - rewrite dom_insert_L, Hdom. apply (anti_symm (⊆)).
    + apply union_least; [by apply singleton_subseteq_l|done].
    + apply union_subseteq_r.
  - intros k' e' w'. rewrite lookup_insert.
    case_decide; [by intros [= <- <-]|]. apply Hrep.
Qed.

Section keeps.
Context `{Numerics}.

Lemma default_mixkey_step (self : readcas.t) posns idx :
  ∀ mk mk0 : gmap string (string * gmap string float),
  (∀ k e w, mk !! k = Some (e, w) → is_Some (w !! e)) →
  for_fold (fun mk i =>
              elem ← Py.index self.(readcas.elems) i;
              row ← Py.index posns i;
              Ok (<[posstring row := (elem, {[elem := 1%float]})]> mk))
    mk idx = Ok mk0 →
  (∀ k e w, mk0 !! k = Some (e, w) → is_Some (w !! e))
  ∧ dom mk ⊆ dom mk0
  ∧ ∀ i row, i ∈ idx → Py.index posns i = Ok row →
             posstring row ∈ dom mk0.
Proof.
  induction idx as [|j idx IH]; intros mk mk0 Hrep; cbn [for_fold].
  - intros [= <-]. split; [done|]. split; [done|]. intros i row Hi.
    by apply elem_of_nil in Hi.
  - intros Hfold. apply bind_inv in Hfold as (mk1 & Hstep & Hfold).
    apply bind_inv in Hstep as (elem & _ & Hstep).
    apply bind_inv in Hstep as (rowj & Hrowj & [= <-]).
    apply IH in Hfold as (Hrep0 & Hsub & Hkeys).
    + split; [done|]. split.
      * etrans; [|exact Hsub]. rewrite dom_insert_L.
        apply union_subseteq_r.
      * intros i row Hi Hrow. apply elem_of_cons in Hi as [->|Hi].
        -- apply Hsub. rewrite dom_insert_L.
           rewrite Hrowj in Hrow. injection Hrow as <-.
           apply elem_of_union_l. by apply elem_of_singleton.
        -- by apply (Hkeys i).
    + intros k e w. rewrite lookup_insert.
      case_decide; [|by apply Hrep].
      intros [= <- <-]. rewrite lookup_singleton_eq. by eexists.
Qed.

Lemma default_mixkey_wf (self : readcas.t) posns mk0 :
  readcas.default_mixkey self posns = Ok mk0 →
  sites_wf (dom mk0) mk0
  ∧ ∀ i row, i ∈ Py.range self.(readcas.Nions) →
             Py.index posns i = Ok row → posstring row ∈ dom mk0.
Proof.
  intros Hdef. apply default_mixkey_step in Hdef as (Hrep & _ & Hkeys).
  - by repeat split.
  - intros k e w. by rewrite lookup_empty.
Qed.

Lemma match_fold_hit (self : readcas.t) posns posn elem idx :
  ∀ found mi pk,
  for_fold (readcas.match_step self posns posn elem) found idx
  = Ok (mi, pk) →
  (mi, pk) = found
  ∨ ∃ i row, mi = Some i ∧ i ∈ idx
             ∧ Py.index self.(readcas.elems) i = Ok elem
             ∧ Py.index posns i = Ok row
             ∧ pk = Some (posstring row).
Proof.
  induction idx as [|j idx IH]; intros found mi pk; cbn [for_fold].
  - intros [= <-]. by left.
  - intros Hfold. apply bind_inv in Hfold as (found' & Hstep & Hfold).
    apply IH in Hfold as [Hsame|(i & row & -> & Hi & He & Hrow & ->)].
    + unfold readcas.match_step in Hstep.
      apply bind_inv in Hstep as (row & Hrow & Hstep).
      apply bind_inv in Hstep as (e & He & Hstep).
      destruct (String.eqb e elem && _) eqn:Hhit.
      * apply andb_true_iff in Hhit as [Heq _].
        apply String.eqb_eq in Heq as ->.
        assert (Hfound : found' = (Some j, Some (posstring row)))
          by congruence.
        rewrite Hfound in Hsame. right. exists j, row.
        assert (mi = Some j ∧ pk = Some (posstring row)) as [-> ->]
          by (split; congruence).
        repeat split; try done. apply list_elem_of_here.
      * left. congruence.
    + right. exists i, row. repeat split; try done.
      by apply list_elem_of_further.
Qed.

Lemma flush_record_inv (self : readcas.t) D st st1 :
  block_inv self D st → readcas.flush_record self st = Ok st1 →
  block_inv self D st1 ∧ st1.(readcas.matchindex) = None
  ∧ st1.(readcas.posn) = None.
Proof.
  intros Hinv. pose proof Hinv as (Hwf & Hstale & Hopen).
  unfold readcas.flush_record.
  destruct (readcas.posn st) as [p|] eqn:Hp.
  - destruct Hopen as (i & e & k & Hi & He & Hw & Hk & HkD); [by eexists|].
    rewrite Hi, He, Hk. run. intros [= <-].
    split; [|done]. split; [by apply sites_wf_insert|].
    split; [done|]. cbn. by intros [? [=]].
  - intros [= <-]. split; [done|]. split; [by apply Hstale|done].
Qed.

Lemma mix_row_inv (self : readcas.t) D posns mixline st :
  (∀ i row, i ∈ Py.range self.(readcas.Nions) →
            Py.index posns i = Ok row → posstring row ∈ D) →
  block_inv self D st →
  sites_wf D (readcas.mix_row self posns mixline st).1
  ∧ ∀ st', (readcas.mix_row self posns mixline st).2 = Ok st' →
           block_inv self D st'.
Proof.
  intros Hkeys Hinv. unfold readcas.mix_row.
  destruct (Py.len mixline =? 8).
  - destruct (readcas.flush_record self st) as [st1|] eqn:Hflush.
    + apply (flush_record_inv _ D) in Hflush as (Hinv1 & Hmi & Hposn);
        [|done].
      cbn [fst snd]. split; [apply Hinv1|]. intros st' Hrow.
      apply bind_inv in Hrow as (p & _ & Hrow).
      apply bind_inv in Hrow as (elem & _ & Hrow).
      apply bind_inv in Hrow as ([mi pk] & Hfind & Hrow).
      destruct mi as [i|]; [|discriminate].
      apply bind_inv in Hrow as (wt & _ & Hrow).
      apply bind_inv in Hrow as (w & _ & [= <-]).
      unfold readcas.find_match in Hfind. rewrite Hmi in Hfind.
      apply match_fold_hit in Hfind
        as [[=]|(j & row & [= <-] & Hj & He & Hrow & ->)].
      split; [apply Hinv1|]. split; [by intros [=]|].
      intros _. exists i, elem, (posstring row). cbn.
      rewrite lookup_insert_eq.
      split; [done|]. split; [done|]. split; [by eexists|].
      split; [done|]. by apply (Hkeys i).
    + cbn [fst snd]. split; [apply Hinv|]. discriminate.
  - cbn [fst snd]. split; [apply Hinv|]. intros st' Hrow.
    apply bind_inv in Hrow as (elem & _ & Hrow).
    apply bind_inv in Hrow as (wt & _ & Hrow).
    apply bind_inv in Hrow as (w & _ & [= <-]).
    destruct Hinv as (Hwf & Hstale & Hopen).
    split; [done|]. split; [done|]. cbn. intros Hp.
    destruct (Hopen Hp) as (i & e & k & Hi & He & Hw & Hk & HkD).
    exists i, e, k. split; [done|]. split; [done|].
    split; [|done]. rewrite lookup_insert. case_decide; [by eexists|done].
Qed.

Lemma mix_block_inv (self : readcas.t) D posns rest :
  (∀ i row, i ∈ Py.range self.(readcas.Nions) →
            Py.index posns i = Ok row → posstring row ∈ D) →
  ∀ st, block_inv self D st →
  sites_wf D (readcas.mix_block self posns rest st).1
  ∧ ∀ st', (readcas.mix_block self posns rest st).2 = Ok st' →
           block_inv self D st'.
Proof.
  intros Hkeys. induction rest as [|line rest IH]; intros st Hinv;
    cbn [readcas.mix_block].
  - cbn. split; [apply Hinv|discriminate].
  - destruct (Py.split line) as [|tok toks] eqn:Hsplit.
    + cbn. split; [apply Hinv|discriminate].
    + destruct (String.eqb tok "x").
      * pose proof (mix_row_inv self D posns (tok :: toks) st Hkeys Hinv)
          as [Hmk Hst].
        destruct (readcas.mix_row self posns (tok :: toks) st)
          as [mk [st'|e]]; cbn [fst snd] in *.
        -- apply IH. by apply Hst.
        -- split; [done|discriminate].
      * cbn. split; [apply Hinv|]. by intros st' [= <-].
Qed.

(** X22. Whatever the mixture block holds, the dictionary that
    [readcas.get_mixkey] returns has exactly the keys of the default
    entries, one per atom position, and the representative element of
    every entry has a weight in that entry. *)
Theorem get_mixkey_keeps_keys (self : readcas.t) (iteration : option Z)
    (mk : gmap string (string * gmap string float)) :
  readcas.get_mixkey self iteration = Ok mk →
  ∃ posns mk0,
    readcas.get_posns self iteration = Ok posns
    ∧ readcas.default_mixkey self posns = Ok mk0
    ∧ dom mk = dom mk0
    ∧ ∀ k e w, mk !! k = Some (e, w) → is_Some (w !! e).
Proof.
  unfold readcas.get_mixkey. intros Hmk.
  apply bind_inv in Hmk as (posns & Hposns & Hmk).
  apply bind_inv in Hmk as ([nmin nmax] & _ & Hmk).
  apply bind_inv in Hmk as (mk0 & Hdef & Hmk).
  exists posns, mk0. split; [done|]. split; [done|].
  destruct (default_mixkey_wf _ _ _ Hdef) as [Hwf0 Hkeys].
  assert (Hwf : sites_wf (dom mk0) mk); [|by destruct Hwf].
  assert (Hexcept : ∀ m e, sites_wf (dom mk0) m →
                           readcas.mix_except m e = Ok mk →
                           sites_wf (dom mk0) mk).
  { intros m e Hm. unfold readcas.mix_except.
    destruct (bool_decide _); [by intros [= <-]|discriminate]. }
  destruct (stri.strindex _ _ _ _ _) as [lmix|e]; [|by eapply Hexcept].
  set (st0 := {| readcas.mixkey := mk0; readcas.wts := ∅;
                 readcas.matchindex := None; readcas.posn := None;
                 readcas.poskey := None |}) in *.
  assert (Hinv0 : block_inv self (dom mk0) st0).
  { split; [done|]. split; [done|]. by intros [? [=]]. }
  pose proof (mix_block_inv self (dom mk0) posns
                (drop (Z.to_nat (lmix + 3)) (readcas.caslines self))
                Hkeys st0 Hinv0) as [Hblock Hst].
  destruct (readcas.mix_block _ _ _ _) as [m [st|e]]; cbn [fst snd] in *.
  - specialize (Hst st eq_refl).
    destruct (readcas.flush_record self st) as [st'|e] eqn:Hflush.
    + injection Hmk as <-.
      by apply (flush_record_inv _ (dom mk0)) in Hflush as ((? & _) & _).
    + eapply Hexcept; [|exact Hmk]. apply Hst.
  - by eapply Hexcept.
Qed.

End keeps.

Lemma get_mixkey_keeps_keys_holds :
  ∃ posns mk0,
    readcas.get_posns (reader single_twins) None = Ok posns
    ∧ readcas.default_mixkey (reader single_twins) posns = Ok mk0
    ∧ dom ({[ "0.000000 0.000000 0.000000" := ("Fe", {[ "Fe" := 1%float ]});
               "0.000050 0.000000 0.000000" :=
                 ("Fe", {[ "Fe" := 0.7%float; "Ni" := 0.3%float ]}) ]}
            : gmap string (string * gmap string float)) = dom mk0.
Proof.
  destruct (get_mixkey_keeps_keys (reader single_twins) None
              {[ "0.000000 0.000000 0.000000" := ("Fe", {[ "Fe" := 1%float ]});
                 "0.000050 0.000000 0.000000" :=
                   ("Fe", {[ "Fe" := 0.7%float; "Ni" := 0.3%float ]}) ]})
    as (posns & mk0 & Hp & Hd & Hdom & _).
  - vm_cast_no_check (eq_refl (readcas.get_mixkey (reader single_twins)
                                 None)).
  - exists posns, mk0. split; [exact Hp|]. split; [exact Hd|exact Hdom].
Defined.

(** ** Reports and decks without mixed sites *)

Section unmixed.
Context `{Numerics}.

Lemma default_mixkey_single (self : readcas.t) posns idx :
  ∀ mk mk0 : gmap string (string * gmap string float),
  (∀ k e w, mk !! k = Some (e, w) → w = {[e := 1%float]}) →
  for_fold (fun mk i =>
              elem ← Py.index self.(readcas.elems) i;
              row ← Py.index posns i;
              Ok (<[posstring row := (elem, {[elem := 1%float]})]> mk))
    mk idx = Ok mk0 →
  ∀ k e w, mk0 !! k = Some (e, w) → w = {[e := 1%float]}.
Proof.
  induction idx as [|j idx IH]; intros mk mk0 Hone; cbn [for_fold].
  - by intros [= <-].
  - intros Hfold. apply bind_inv in Hfold as (mk1 & Hstep & Hfold).
    apply bind_inv in Hstep as (elem & _ & Hstep).
    apply bind_inv in Hstep as (rowj & _ & [= <-]).
    apply (IH (<[posstring rowj := (elem, {[elem := 1%float]})]> mk) mk0);
      [|exact Hfold].
    intros k e w. rewrite lookup_insert.
    case_decide; [by intros [= <- <-]|by apply Hone].
Qed.

(** X23. When no line of the report contains [Mixture],
    [readcas.get_mixkey] is the default dictionary of the positions it
    reads: every site holds its one element with weight 1.0. *)
Theorem get_mixkey_unmixed (self : readcas.t) (iteration : option Z) :
  absent ["Mixture"] self.(readcas.caslines) →
  readcas.get_mixkey self iteration
  = (posns ← readcas.get_posns self iteration;
     readcas.default_mixkey self posns)
  ∧ ∀ mk k e w, readcas.get_mixkey self iteration = Ok mk →
                mk !! k = Some (e, w) → w = {[e := 1%float]}.
Proof.
  intros Habs.
  assert (Heq : readcas.get_mixkey self iteration
                = (posns ← readcas.get_posns self iteration;
                   readcas.default_mixkey self posns)).
  { unfold readcas.get_mixkey, readcas.get_posns.
    destruct (np_zeros _); [|done]. run.
    destruct (readcas.window self iteration) as [[nmin nmax]|]; [|done].
    destruct (stri.strindex _ ["Element "] _ _ _); [|done].
    destruct (readcas.read_rows _ _ _ _) as [posns|]; [|done].
    destruct (readcas.default_mixkey self posns) as [mk0|]; [|done].
    by rewrite (strindex_absent _ _ _ _ _ Habs). }
  split; [exact Heq|]. intros mk k e w Hmk. rewrite Heq in Hmk.
  apply bind_inv in Hmk as (posns & _ & Hdef).
  apply (default_mixkey_single self posns
           (Py.range self.(readcas.Nions)) ∅ mk); [|exact Hdef].
  intros k' e' w'. by rewrite lookup_empty.
Qed.

(** X24. A deck without a positions block makes
    [readcell.get_init_spin] fail with [UnboundLocalError], and
    [readcell.get_mixkey] too once the default entries are built: the
    input-deck reader does not catch the missing anchor. *)
Theorem deck_without_positions (self : readcell.t) (iteration : option Z) :
  absent readcell.positions_markers self.(readcell.celllines) →
  readcell.get_init_spin self = Raise UnboundLocalError
  ∧ (returns (readcell.default_mixkey self) →
     readcell.get_mixkey self iteration = Raise UnboundLocalError).
Proof.
  intros Habs. split.
  - unfold readcell.get_init_spin.
    by rewrite (strindex_absent _ _ _ _ _ Habs).
  - intros [mk0 Hdef]. unfold readcell.get_mixkey. rewrite Hdef. run.
    by rewrite (strindex_absent _ _ _ _ _ Habs).
Qed.

End unmixed.

Lemma get_mixkey_unmixed_holds :
  readcas.get_mixkey (reader geom_frozen) (Some (-1))
  = Ok {[ "0.000000 0.000000 0.010000" := ("Fe", {[ "Fe" := 1%float ]});
          "0.500000 0.500000 0.490000" := ("Ni", {[ "Ni" := 1%float ]}) ]}.
Proof.
  destruct (get_mixkey_unmixed (reader geom_frozen) (Some (-1)))
    as [Heq _]; [evaluate|].
  rewrite Heq. vm_cast_no_check (eq_refl (readcas.get_mixkey
    (reader geom_frozen) (Some (-1)))).
Defined.

Lemma deck_without_positions_holds :
  readcell.get_init_spin deck_441 = Raise UnboundLocalError
  ∧ readcell.get_mixkey deck_441 None = Raise UnboundLocalError.
Proof.
  destruct (deck_without_positions deck_441 None) as [Hspin Hmix];
    [evaluate|].
  split; [exact Hspin|]. apply Hmix.
  exists {[ "0.000000 0.000000 0.000000" := ("Fe", {[ "Fe" := 1%float ]}) ]}.
  vm_cast_no_check (eq_refl (readcell.default_mixkey deck_441)).
Defined.

(** ** Spins of an input deck *)

Lemma index_last_len {A} (l : list A) (x : A) :
  last l = Some x → Py.index l (Py.len l - 1) = Ok x.
Proof.
  intros Hlast. rewrite last_lookup in Hlast.
  assert (Hlen : (0 < length l)%nat).
  { apply lookup_lt_Some in Hlast. lia. }
  apply index_nonneg; unfold Py.len; [lia|].
  by replace (Z.to_nat (Z.of_nat (length l) - 1)) with (pred (length l))
    by lia.
Qed.

Lemma fold_fill (step : list float → Z → result (list float))
    (todo : list float) :
  ∀ done : list float,
  (∀ i v l1 l2, todo !! i = Some v → length l1 = (length done + i)%nat →
     step (l1 ++ 0%float :: l2)%list (Z.of_nat (length done + i))
     = Ok (l1 ++ v :: l2)%list) →
  for_fold step (done ++ replicate (length todo) 0%float)%list
    (Z.of_nat <$> seq (length done) (length todo))
  = Ok (done ++ todo)%list.
Proof.
  induction todo as [|v todo IH]; intros done Hstep.
  - cbn. by rewrite !app_nil_r.
  - cbn [length seq fmap list_fmap for_fold replicate].
    pose proof (Hstep 0%nat v done (replicate (length todo) 0%float)
                  eq_refl ltac:(lia)) as Hv.
    rewrite Nat.add_0_r in Hv. rewrite Hv. run.
    specialize (IH (done ++ [v])%list).
    rewrite length_app, <- !app_assoc in IH. cbn [length app] in IH.
    replace (length done + 1)%nat with (S (length done)) in IH by lia.
    apply IH. intros i w l1 l2 Hw Hl1.
    replace (S (length done) + i)%nat with (length done + S i)%nat by lia.
    apply Hstep; [done|lia].
Qed.

Section deck_spins.
Context `{Numerics}.

(** X25. [readcell.get_init_spin] reads one row per ion under the first
    positions opening line: a row of more than four tokens that mentions
    [SPIN] or [spin] gives the float after the first [=] of its last
    token, whichever token carries the spin; every other row gives 0.0. *)
Theorem get_init_spin_deck (self : readcell.t) (pre rows post : list string)
    (opening : string) (spins : list float) :
  self.(readcell.celllines) = (pre ++ opening :: rows ++ post)%list →
  Py.len rows = self.(readcell.Nions) →
  absent readcell.positions_markers pre →
  stri.matches readcell.positions_markers opening = true →
  Forall2 deck_spin_row rows spins →
  readcell.get_init_spin self = Ok spins.
Proof.
  intros Hlines Hn Hpre Hopen Hrows. unfold readcell.get_init_spin.
  rewrite Hlines, (strindex_found _ _ _ _ _ Hpre Hopen). run.
  assert (Hlen : length spins = length rows)
    by (symmetry; by eapply Forall2_length).
  assert (Hnat : Z.to_nat (readcell.Nions self) = length spins)
    by (rewrite <- Hn; unfold Py.len; lia).
  unfold Py.replicate, Py.range. rewrite Hnat.
  apply (fold_fill _ spins []). intros i v l1 l2 Hv Hl1. cbn [length] in *.
  rewrite Nat.add_0_l in *.
  destruct (Forall2_lookup_r _ _ _ _ _ Hrows Hv) as (row & Hrow & Hspin).
  assert (Hline : Py.index (pre ++ opening :: rows ++ post)%list
                    (Py.len pre + 1 + Z.of_nat i) = Ok row).
  { apply index_nonneg; [unfold Py.len; lia|].
    replace (pre ++ opening :: rows ++ post)%list
      with ((pre ++ [opening]) ++ rows ++ post)%list
      by (by rewrite <- app_assoc).
    set (pfx := (pre ++ [opening])%list).
    replace (Z.to_nat (Py.len pre + 1 + Z.of_nat i))
      with (length pfx + i)%nat
      by (unfold pfx, Py.len; rewrite length_app; cbn [length]; lia).
    rewrite lookup_app_r by lia.
    replace (length pfx + i - length pfx)%nat with i by lia.
    by rewrite lookup_app_l by (apply lookup_lt_Some in Hrow; lia). }
  rewrite Hline. unfold deck_spin_row in Hspin.
  destruct ((4 <? Py.len (Py.split row)) && _).
  - destruct Hspin as (tok & val & Htok & Hval & Hx).
    rewrite (index_last_len _ _ Htok).
    rewrite (index_nonneg _ 1 val) by (lia || done).
    unfold float_. rewrite Hx, Nat2Z.id.
    by rewrite insert_app_r_alt, Hl1, Nat.sub_diag by lia.
  - by rewrite Hspin.
Qed.

End deck_spins.

Lemma get_init_spin_deck_holds :
  readcell.get_init_spin deck_full = Ok [2; 0; 0]%float.
Proof.
  apply (get_init_spin_deck deck_full [] (take 3 (drop 1 deck_text))
           (drop 4 deck_text) (deck_text !!! 0%nat)).
  - reflexivity.
  - reflexivity.
  - constructor.
  - reflexivity.
  - constructor; [|constructor; [|constructor; [|constructor]]].
    + exists "SPIN=2.0", "2.0". vm_compute. auto.
    + vm_compute. reflexivity.
    + vm_compute. reflexivity.
Defined.

(** *** The representative of a mixed site of the input deck *)

Lemma leb_refl (s : string) : String.leb s s = true.
Proof.
  pose proof (proj2 (OrderedTypeEx.String_as_OT.cmp_eq s s) eq_refl) as E.
  unfold OrderedTypeEx.String_as_OT.cmp in E. unfold String.leb.
  by rewrite E.
Qed.

Lemma ltb_leb (s1 s2 : string) :
  String.ltb s1 s2 = true → String.leb s1 s2 = true.
Proof. unfold String.ltb, String.leb. by destruct (String.compare s1 s2). Qed.

Lemma not_ltb_leb (s1 s2 : string) :
  String.ltb s1 s2 = false → String.leb s2 s1 = true.
Proof.
  unfold String.ltb, String.leb. rewrite (String.compare_antisym s1 s2).
  by destruct (String.compare s2 s1).
Qed.

Lemma leb_trans (s1 s2 s3 : string) :
  String.leb s1 s2 = true → String.leb s2 s3 = true →
  String.leb s1 s3 = true.
Proof.
  unfold String.leb. intros H12 H23.
  destruct (String.compare s1 s2) eqn:E12; [| |done].
  - apply OrderedTypeEx.String_as_OT.cmp_eq in E12 as ->. exact H23.
  - destruct (String.compare s2 s3) eqn:E23; [| |done].
    + apply OrderedTypeEx.String_as_OT.cmp_eq in E23 as <-.
      unfold OrderedTypeEx.String_as_OT.cmp in E12. by rewrite E12.
    + apply OrderedTypeEx.String_as_OT.cmp_lt in E12, E23.
      pose proof (OrderedTypeEx.String_as_OT.lt_trans _ _ _ E12 E23) as E13.
      apply OrderedTypeEx.String_as_OT.cmp_lt in E13.
      unfold OrderedTypeEx.String_as_OT.cmp in E13. by rewrite E13.
Qed.

Lemma fold_min_least (l : list string) :
  ∀ x, let m := fold_left (fun m y => if String.ltb y m then y else m) l x in
       m ∈ x :: l ∧ ∀ y, y ∈ x :: l → String.leb m y = true.
Proof.
  induction l as [|z l IH]; intros x; cbn [fold_left].
  - split; [apply list_elem_of_here|].
    intros y Hy. apply list_elem_of_singleton in Hy as ->. apply leb_refl.
  - destruct (String.ltb z x) eqn:Hzx.
    + destruct (IH z) as [Hin Hle]. split.
      * by apply list_elem_of_further.
      * intros y Hy. apply elem_of_cons in Hy as [->|Hy]; [|by apply Hle].
        eapply leb_trans; [apply Hle, list_elem_of_here|by apply ltb_leb].
    + destruct (IH x) as [Hin Hle]. split.
      * apply elem_of_cons in Hin as [->|Hin];
          [apply list_elem_of_here|by do 2 apply list_elem_of_further].
      * intros y Hy. apply elem_of_cons in Hy as [->|Hy];
          [apply Hle, list_elem_of_here|].
        apply elem_of_cons in Hy as [->|Hy].
        -- eapply leb_trans; [apply Hle, list_elem_of_here|].
           by apply not_ltb_leb.
        -- by apply Hle, list_elem_of_further.
Qed.

Lemma sorted_first_least (w : gmap string float) (e : string) :
  Py.sorted_first (map_to_list w).*1 = Ok e → least_key e w.
Proof.
  unfold Py.sorted_first.
  assert (Hkeys : ∀ k, k ∈ (map_to_list w).*1 ↔ is_Some (w !! k)).
  { intros k. rewrite list_elem_of_fmap. split.
    - intros ([k' v] & -> & Hin). apply elem_of_map_to_list in Hin.
      by eexists.
    - intros [v Hv]. exists (k, v). split; [done|].
      by apply elem_of_map_to_list. }
  destruct ((map_to_list w).*1) as [|x l]; [done|]. intros [= <-].
  destruct (fold_min_least l x) as [Hin Hle]. split.
  - by apply Hkeys.
  - intros e' He'. by apply Hle, Hkeys.
Qed.

Lemma deck_wf_insert D mk k e w :
  deck_wf D mk → k ∈ D → least_key e w → deck_wf D (<[k := (e, w)]> mk).
Proof.
  intros [Hdom Hrep] Hk He. split.
  - rewrite dom_insert_L, Hdom. apply (anti_symm (⊆)).
    + apply union_least; [by apply singleton_subseteq_l|done].
    + apply union_subseteq_r.
  - intros k' e' w'. rewrite lookup_insert.
    case_decide; [by intros [= <- <-]|]. apply Hrep.
Qed.

Lemma least_key_singleton (e : string) (x : float) :
  least_key e {[e := x]}.
Proof.
  split; [by rewrite lookup_singleton_eq|].
  intros e' [v Hv]. apply lookup_singleton_Some in Hv as [<- _].
  apply leb_refl.
Qed.

Section deck_sites.
Context `{Numerics}.

Lemma deck_default_step (self : readcell.t) idx :
  ∀ mk mk0 : gmap string (string * gmap string float),
  (∀ k e w, mk !! k = Some (e, w) → least_key e w) →
  for_fold (fun mk i =>
              elem ← Py.index self.(readcell.elems) i;
              row ← Py.index self.(readcell.posns) i;
              Ok (<[posstring row := (elem, {[elem := 1%float]})]> mk))
    mk idx = Ok mk0 →
  (∀ k e w, mk0 !! k = Some (e, w) → least_key e w)
  ∧ dom mk ⊆ dom mk0.
Proof.
  induction idx as [|j idx IH]; intros mk mk0 Hrep; cbn [for_fold].
  - by intros [= <-].
  - intros Hfold. apply bind_inv in Hfold as (mk1 & Hstep & Hfold).
    apply bind_inv in Hstep as (elem & _ & Hstep).
    apply bind_inv in Hstep as (rowj & _ & [= <-]).
    apply (IH (<[posstring rowj := (elem, {[elem := 1%float]})]> mk) mk0)
      in Hfold as [Hrep0 Hsub].
    + split; [done|]. etrans; [|exact Hsub].
      rewrite dom_insert_L. apply union_subseteq_r.
    + intros k e w. rewrite lookup_insert.
      case_decide; [|by apply Hrep].
      intros [= <- <-]. apply least_key_singleton.
Qed.

Lemma mix_atom_wf (self : readcell.t) D lposns mk imix i mk1 imix1 :
  deck_wf D mk →
  readcell.mix_atom self lposns (mk, imix) i = Ok (mk1, imix1) →
  deck_wf D mk1.
Proof.
  intros Hwf. unfold readcell.mix_atom. intros Hstep.
  apply bind_inv in Hstep as (line & _ & Hstep).
  destruct ((4 <? Py.len (Py.split line)) && _); [|by injection Hstep as <- _].
  apply bind_inv in Hstep as (elem & _ & Hstep).
  apply bind_inv in Hstep as (j & _ & Hstep).
  apply bind_inv in Hstep as (tok & _ & Hstep).
  apply bind_inv in Hstep as (wt & _ & Hstep).
  apply bind_inv in Hstep as (row & _ & Hstep).
  apply bind_inv in Hstep as ([siteelem wts] & Hsite & Hstep).
  apply bind_inv in Hstep as (elemkey & Hkey & Hstep).
  injection Hstep as <- _.
  destruct (mk !! posstring row) as [entry|] eqn:Hentry; [|done].
  apply deck_wf_insert; [done| |by apply sorted_first_least].
  destruct Hwf as [<- _]. apply elem_of_dom. by eexists.
Qed.

Lemma mix_atoms_wf (self : readcell.t) D lposns idx :
  ∀ mk imix mk1 imix1,
  deck_wf D mk →
  for_fold (readcell.mix_atom self lposns) (mk, imix) idx = Ok (mk1, imix1) →
  deck_wf D mk1.
Proof.
  induction idx as [|i idx IH]; intros mk imix mk1 imix1 Hwf;
    cbn [for_fold].
  - by intros [= <- _].
  - intros Hfold. apply bind_inv in Hfold as ([mk' imix'] & Hstep & Hfold).
    eapply IH; [|exact Hfold]. by eapply mix_atom_wf.
Qed.

(** X26. Whatever the positions block of the deck holds, the dictionary
    that [readcell.get_mixkey] returns has exactly the keys of the default
    entries, and the representative element of every entry is the least
    key of that entry's weights in string order. *)
Theorem get_mixkey_deck_least (self : readcell.t) (iteration : option Z)
    (mk : gmap string (string * gmap string float)) :
  readcell.get_mixkey self iteration = Ok mk →
  ∃ mk0, readcell.default_mixkey self = Ok mk0 ∧ deck_wf (dom mk0) mk.
Proof.
  unfold readcell.get_mixkey. intros Hmk.
  apply bind_inv in Hmk as (mk0 & Hdef & Hmk).
  apply bind_inv in Hmk as (lposns & _ & Hmk).
  apply bind_inv in Hmk as ([mk1 imix1] & Hfold & [= <-]).
  exists mk0. split; [done|].
  eapply mix_atoms_wf; [|exact Hfold]. split; [done|].
  apply deck_default_step in Hdef as [Hrep _]; [done|].
  intros k e w. by rewrite lookup_empty.
Qed.

End deck_sites.

Lemma get_mixkey_deck_least_holds :
  readcell.get_mixkey deck_full None
  = Ok {[ "0.000000 0.000000 0.000000" := ("Fe", {[ "Fe" := 1%float ]});
          "0.500000 0.500000 0.500000"
            := ("Fe", {[ "Fe" := 0.7%float; "Ni" := 0.3%float ]}) ]}
  ∧ ∃ mk0, readcell.default_mixkey deck_full = Ok mk0
           ∧ deck_wf (dom mk0)
               {[ "0.000000 0.000000 0.000000"
                    := ("Fe", {[ "Fe" := 1%float ]});
                  "0.500000 0.500000 0.500000"
                    := ("Fe", {[ "Fe" := 0.7%float; "Ni" := 0.3%float ]}) ]}.
Proof.
  assert (Hmk : readcell.get_mixkey deck_full None
    = Ok {[ "0.000000 0.000000 0.000000" := ("Fe", {[ "Fe" := 1%float ]});
            "0.500000 0.500000 0.500000"
              := ("Fe", {[ "Fe" := 0.7%float; "Ni" := 0.3%float ]}) ]}).
  { vm_cast_no_check (eq_refl (readcell.get_mixkey deck_full None)). }
  split; [exact Hmk|].
  exact (get_mixkey_deck_least deck_full None _ Hmk).
Defined.

(** *** Cell constraints that are present *)

Lemma index_after {A} (pre : list A) (x : A) (rest : list A) (k : Z) :
  0 ≤ k →
  Py.index (pre ++ x :: rest)%list (Py.len pre + 1 + k) = Py.index rest k.
Proof.
  intros Hk. unfold Py.index, Py.len. cbv zeta.
  assert (H1 : (Z.of_nat (length pre) + 1 + k <? 0) = false)
    by (apply Z.ltb_ge; lia).
  assert (H2 : (k <? 0) = false) by (apply Z.ltb_ge; lia).
  rewrite !H1, !H2.
  replace (Z.to_nat (Z.of_nat (length pre) + 1 + k))
    with (length pre + S (Z.to_nat k))%nat by lia.
  rewrite lookup_app_r by lia.
  by replace (length pre + S (Z.to_nat k) - length pre)%nat
    with (S (Z.to_nat k)) by lia.
Qed.

Lemma for_each_ok {A B} (f : A → result B) (l : list A) (ys : list B) :
  for_each f l = Ok ys ↔ Forall2 (fun x y => f x = Ok y) l ys.
Proof.
  revert ys. induction l as [|x l IH]; intros ys; cbn [for_each].
  - split; [intros [= <-]; constructor|]. intros Hys.
    by apply Forall2_nil_inv_l in Hys as ->.
  - split.
    + intros Hys. apply bind_inv in Hys as (y & Hy & Hys).
      apply bind_inv in Hys as (ys' & Hys' & [= <-]).
      constructor; [done|]. by apply IH.
    + intros Hys. apply Forall2_cons_inv_l in Hys as (y & ys' & Hy & Hys & ->).
      apply IH in Hys. by rewrite Hy, Hys.
Qed.

Lemma int_raises (tok : string) :
  (∃ c, Py.int tok = Ok c) ∨ Py.int tok = Raise ValueError.
Proof.
  unfold Py.int.
  destruct (match tok with
            | String "-" s' => (true, s')
            | String "+" s' => (false, s')
            | _ => (false, tok)
            end) as [neg body].
  destruct (Py.int_digits 0 false body); eauto.
Qed.

Lemma for_each_int_raises (toks : list string) :
  Exists (fun tok => Py.int tok = Raise ValueError) toks →
  for_each Py.int toks = Raise ValueError.
Proof.
  induction 1 as [tok toks Htok|tok toks _ IH]; cbn [for_each].
  - by rewrite Htok.
  - destruct (int_raises tok) as [[c ->]| ->]; [|done]. by rewrite IH.
Qed.

Lemma for_each_int_cases (toks : list string) :
  (∃ cs, for_each Py.int toks = Ok cs)
  ∨ for_each Py.int toks = Raise ValueError.
Proof.
  induction toks as [|tok toks IH]; cbn [for_each]; [by left; eexists|].
  destruct (int_raises tok) as [[c ->]| ->]; [|by right].
  destruct IH as [[cs ->]| ->]; [by left; eexists|by right].
Qed.

Lemma try_except_escapes {A} (e : exn) (handler : result A) :
  e ≠ UnboundLocalError →
  try_except (Raise e) [UnboundLocalError] handler = Raise e.
Proof.
  intros He. unfold try_except.
  rewrite bool_decide_eq_false_2; [done|].
  by rewrite list_elem_of_singleton.
Qed.

Lemma slice_take_drop {A} (l : list A) (lo hi : Z) :
  0 ≤ lo ≤ hi →
  Py.slice l (Some lo) (Some hi)
  = take (Z.to_nat (hi - lo)) (drop (Z.to_nat lo) l).
Proof.
  intros Hb. unfold Py.slice, Py.clamp, Py.len. cbn [from_option].
  replace (lo <? 0) with false by (symmetry; apply Z.ltb_ge; lia).
  replace (hi <? 0) with false by (symmetry; apply Z.ltb_ge; lia).
  destruct (Z.le_gt_cases lo (Z.of_nat (length l))) as [Hlo|Hlo].
  - rewrite (Z.min_l lo) by lia.
    destruct (Z.le_gt_cases hi (Z.of_nat (length l))) as [Hhi|Hhi].
    + by rewrite Z.min_l by lia.
    + rewrite Z.min_r by lia.
      rewrite !take_ge; [done| |]; rewrite length_drop; lia.
  - rewrite !Z.min_r by lia. rewrite !drop_ge by lia. by rewrite !take_nil.
Qed.

(** X27. With the opening line of a cell-constraints block in the deck,
    [readcell.get_cell_constrs] returns a list exactly when two more
    lines follow the first opening line and all their tokens are
    integers: the list is those integers, first line then second.  The
    default [1..6] is not substituted for a block that is cut short or
    malformed, and the closing line is not looked for. *)
Theorem deck_constrs_block (self : readcell.t) (pre rest : list string)
    (opening : string) (cs : list Z) :
  self.(readcell.celllines) = (pre ++ opening :: rest)%list →
  absent ["%block cell_constraints"; "%BLOCK cell_constraints";
          "%BLOCK CELL_CONSTRAINTS"] pre →
  stri.matches ["%block cell_constraints"; "%BLOCK cell_constraints";
                "%BLOCK CELL_CONSTRAINTS"] opening = true →
  readcell.get_cell_constrs self = Ok cs
  ↔ ∃ l1 l2 post r1 r2,
      rest = l1 :: l2 :: post
      ∧ ints_of (Py.split l1) r1 ∧ ints_of (Py.split l2) r2
      ∧ cs = (r1 ++ r2)%list.
Proof.
  intros Hlines Hpre Hopen. unfold readcell.get_cell_constrs.
  rewrite Hlines, (strindex_found _ _ _ _ _ Hpre Hopen). run.
  replace (Py.len pre + 1) with (Py.len pre + 1 + 0) by lia.
  replace (Py.len pre + 2) with (Py.len pre + 1 + 1) by lia.
  rewrite !index_after by lia.
  destruct rest as [|l1 [|l2 post]].
  - change (Py.index (@nil string) 0) with (@Raise string IndexError).
    cbn iota. rewrite try_except_escapes by done.
    split; [done|]. by intros (? & ? & ? & ? & ? & [=] & _).
  - change (Py.index [l1] 0) with (Ok l1).
    change (Py.index [l1] 1) with (@Raise string IndexError).
    split; [|by intros (? & ? & ? & ? & ? & [=] & _)].
    destruct (for_each_int_cases (Py.split l1)) as [[r1 ->]| ->]; cbn iota;
      by rewrite try_except_escapes by done.
  - change (Py.index (l1 :: l2 :: post) 0) with (Ok l1).
    change (Py.index (l1 :: l2 :: post) 1) with (Ok l2).
    split.
    + destruct (for_each_int_cases (Py.split l1)) as [[r1 H1]|H1];
        rewrite H1; cbn iota; [|by rewrite try_except_escapes by done].
      destruct (for_each_int_cases (Py.split l2)) as [[r2 H2]|H2];
        rewrite H2; cbn iota; [|by rewrite try_except_escapes by done].
      intros [= <-]. exists l1, l2, post, r1, r2.
      split; [done|]. by split; [apply for_each_ok|split; [apply for_each_ok|]].
    + intros (? & ? & ? & r1 & r2 & [= <- <- <-] & H1 & H2 & ->).
      apply for_each_ok in H1, H2. by rewrite H1, H2.
Qed.

Lemma deck_constrs_block_holds :
  readcell.get_cell_constrs deck_constrained = Ok [1; 1; 3; 0; 0; 0]
  ∧ ∀ cs, readcell.get_cell_constrs deck_constrs_cut ≠ Ok cs.
Proof.
  split.
  - apply (deck_constrs_block deck_constrained
             (take 3 deck_constrained.(readcell.celllines))
             (drop 4 deck_constrained.(readcell.celllines))
             (deck_constrained.(readcell.celllines) !!! 3%nat)).
    + reflexivity.
    + evaluate.
    + reflexivity.
    + eexists _, _, _, [1; 1; 3], [0; 0; 0].
      split; [reflexivity|]. split; [|split; [|reflexivity]];
        apply for_each_ok; vm_compute; reflexivity.
  - intros cs Hcs.
    apply (deck_constrs_block deck_constrs_cut
             (take 3 deck_constrained.(readcell.celllines))
             [deck_constrained.(readcell.celllines) !!! 4%nat]
             (deck_constrained.(readcell.celllines) !!! 3%nat)) in Hcs.
    + by destruct Hcs as (? & ? & ? & ? & ? & [=] & _).
    + reflexivity.
    + evaluate.
    + reflexivity.
Defined.

Section log_constrs.
Context `{Numerics}.

(** X28. [readcas.get_cell_constrs] reads the first line that contains
    [Cell constraints are:] and returns the integers of its tokens 3 to 8
    exactly when all of them parse; a line with fewer tokens gives fewer
    than six constraints and no error. *)
Theorem log_constrs_line (self : readcas.t) (pre post : list string)
    (line : string) (cs : list Z) :
  self.(readcas.caslines) = (pre ++ line :: post)%list →
  absent ["Cell constraints are:"] pre →
  stri.matches ["Cell constraints are:"] line = true →
  readcas.get_cell_constrs self = Ok (Some cs)
  ↔ ints_of (take 6 (drop 3 (Py.split line))) cs.
Proof.
  intros Hlines Hpre Hline. unfold readcas.get_cell_constrs.
  rewrite Hlines, (strindex_found _ _ _ _ _ Hpre Hline). run.
  rewrite index_middle, slice_take_drop by lia.
  change (Z.to_nat (9 - 3)) with 6%nat. change (Z.to_nat 3) with 3%nat.
  unfold ints_of. rewrite <- for_each_ok.
  destruct (for_each_int_cases (take 6 (drop 3 (Py.split line))))
    as [[r ->]| ->]; cbn iota.
  - unfold try_except. split; congruence.
  - by rewrite try_except_escapes by done.
Qed.

(** X29. When one of the tokens 3 to 8 of the cell-constraints line is
    not an integer, [readcas.get_cell_constrs] fails with [ValueError]
    rather than returning [None], and on a geometry report [get_cell]
    fails with it for every iteration. *)
Theorem log_constrs_malformed (self : readcas.t) (pre post : list string)
    (line : string) :
  self.(readcas.caslines) = (pre ++ line :: post)%list →
  absent ["Cell constraints are:"] pre →
  stri.matches ["Cell constraints are:"] line = true →
  Exists (fun tok => Py.int tok = Raise ValueError)
    (take 6 (drop 3 (Py.split line))) →
  readcas.get_cell_constrs self = Raise ValueError
  ∧ (self.(readcas.task) = "geometry" →
     ∀ iteration, readcas.get_cell self iteration = Raise ValueError).
Proof.
  intros Hlines Hpre Hline Hbad.
  assert (Hc : readcas.get_cell_constrs self = Raise ValueError).
  { unfold readcas.get_cell_constrs.
    rewrite Hlines, (strindex_found _ _ _ _ _ Hpre Hline). run.
    rewrite index_middle, slice_take_drop by lia.
    change (Z.to_nat (9 - 3)) with 6%nat. change (Z.to_nat 3) with 3%nat.
    rewrite (for_each_int_raises _ Hbad). cbn iota.
    by rewrite try_except_escapes by done. }
  split; [exact Hc|]. intros Htask iteration.
  unfold readcas.get_cell. by rewrite Htask, Hc.
Qed.

End log_constrs.

Lemma log_constrs_line_holds :
  readcas.get_cell_constrs (reader geom_mismatch) = Ok (Some [1; 2; 3; 0; 0; 0]).
Proof.
  apply (log_constrs_line (reader geom_mismatch) (take 2 geom_mismatch)
           (drop 3 geom_mismatch) (geom_mismatch !!! 2%nat)).
  - reflexivity.
  - evaluate.
  - reflexivity.
  - apply for_each_ok. vm_compute. reflexivity.
Defined.

Lemma log_constrs_malformed_holds :
  readcas.get_cell_constrs (reader geom_bad_constrs) = Raise ValueError
  ∧ readcas.get_cell (reader geom_bad_constrs) (Some 0) = Raise ValueError.
Proof.
  destruct (log_constrs_malformed (H := decimal.numerics)
              (reader geom_bad_constrs) (take 2 geom_bad_constrs)
              (drop 3 geom_bad_constrs) (geom_bad_constrs !!! 2%nat))
    as [Hc Hcell].
  - reflexivity.
  - evaluate.
  - reflexivity.
  - do 5 apply Exists_cons_tl. apply Exists_cons_hd. reflexivity.
  - split; [exact Hc|]. apply Hcell. reflexivity.
Defined.
